(** * microservice_complexity_analysis: a shallow embedding and its properties

    The development follows [src/microservice_complexity_analysis.py]:
    the Python string primitives the script relies on, the exception and
    state discipline of its loops, the extractor ([count_endpoints],
    [count_inter_service_calls], [count_dependencies]), the aggregation of
    [analyze_service], the history walker [get_commits] and the driver at
    the bottom of the script ([main]). *)

From Stdlib Require Import ZArith Ascii String List Lia Bool.
From stdpp Require Import base gmap sets list strings sorting.

Local Open Scope Z_scope.
Local Set Warnings "-register-all,-clear-no-such-hyp".

(** ** Python strings

    A Python [str] is modelled as a Rocq [string] whose characters are the
    code points below 256. *)

Module Py.

(** [s.lstrip(chars)], with the character set given as a predicate. *)
Fixpoint lstrip (p : ascii -> bool) (s : string) : string :=
  match s with
  | EmptyString => EmptyString
  | String c s' => if p c then lstrip p s' else s
  end.

(** [s.rstrip(chars)]. *)
Fixpoint rstrip (p : ascii -> bool) (s : string) : string :=
  match s with
  | EmptyString => EmptyString
  | String c s' =>
      match rstrip p s' with
      | EmptyString => if p c then EmptyString else String c EmptyString
      | r => String c r
      end
  end.

(** [s.strip(chars)]. *)
Definition strip_chars (p : ascii -> bool) (s : string) : string :=
  rstrip p (lstrip p s).

Definition is_slash (c : ascii) : bool := Ascii.eqb c "/"%char.

(** [str.isspace] on code points below 256: TAB, LF, VT, FF, CR, the four
    separators 0x1c-0x1f, SPACE, NEL (0x85) and NBSP (0xa0). *)
Definition isspace (c : ascii) : bool :=
  let n := nat_of_ascii c in
  ((9 <=? n)%nat && (n <=? 13)%nat)
  || ((28 <=? n)%nat && (n <=? 32)%nat)
  || (n =? 133)%nat || (n =? 160)%nat.

(** [s.strip()]. *)
Definition strip (s : string) : string := strip_chars isspace s.

(** [s.startswith(p)]. *)
Definition startswith (s p : string) : bool := String.prefix p s.

(** [sub in s]. *)
Fixpoint contains (sub s : string) : bool :=
  String.prefix sub s
  || match s with
     | EmptyString => false
     | String _ s' => contains sub s'
     end.

(** [s.endswith(p)]. *)
Fixpoint endswith (s p : string) : bool :=
  String.eqb s p
  || match s with
     | EmptyString => false
     | String _ s' => endswith s' p
     end.

(** [s.split(sep)[0]] for a non-empty separator: the text before the
    first occurrence of [sep], the whole of [s] when there is none. *)
Fixpoint split_head (sep s : string) : string :=
  if String.prefix sep s then EmptyString
  else match s with
       | EmptyString => EmptyString
       | String c s' => String c (split_head sep s')
       end.

(** [s.split()]: the maximal runs of non-blank characters.  [cur] holds
    the run being read, reversed. *)
Fixpoint split_ws_aux (cur : list ascii) (s : string) : list string :=
  let flush :=
    match cur with
    | [] => []
    | _ => [string_of_list_ascii (rev cur)]
    end in
  match s with
  | EmptyString => flush
  | String c s' =>
      if isspace c then flush ++ split_ws_aux [] s'
      else split_ws_aux (c :: cur) s'
  end.

Definition split_ws (s : string) : list string := split_ws_aux [] s.

(** [posixpath.join(a, b)]. *)
Definition path_join (a b : string) : string :=
  if startswith b "/" then b
  else if String.eqb a "" || endswith a "/" then a +:+ b
  else a +:+ "/" +:+ b.

(** [sep.join(l)]. *)
Definition join (sep : string) (l : list string) : string :=
  String.concat sep l.

(** [posixpath.basename(p)]: the text after the last slash. *)
Fixpoint basename (p : string) : string :=
  match p with
  | EmptyString => EmptyString
  | String c p' =>
      if contains "/" p then basename p' else p
  end.

(** [sorted(l)] on strings: code-point order. *)
Definition str_le (a b : string) : Prop := Is_true (String.leb a b).

Definition sorted (l : list string) : list string := merge_sort str_le l.

End Py.

(** ** Endpoint path normalisation (line 132): a slash, then the match
    stripped of its leading and trailing slashes. *)

Definition normalize_path (m : string) : string :=
  "/" +:+ Py.strip_chars Py.is_slash m.

(** A normalised path: one leading slash, then a text that neither
    starts nor ends with a slash. *)
Definition is_normalized (t : string) : bool :=
  match t with
  | String c r =>
      Py.is_slash c && String.eqb (Py.strip_chars Py.is_slash r) r
  | EmptyString => false
  end.

(** ** Exceptions, and loops that mutate state

    The script's loops update sets in place inside [try] blocks.  A
    computation therefore takes a state and gives back a result or an
    exception together with the state reached: a mutation made before a
    [raise] stays made. *)

Inductive exn : Set :=
| CalledProcessError
| OverflowError
| TypeError
| AttributeError
| ParseError
| JSONDecodeError
| UnicodeDecodeError
| OSError.

Inductive res (A : Type) : Type :=
| Ok (a : A)
| Raise (e : exn).

Arguments Ok {A} a.
Arguments Raise {A} e.

Definition M (S A : Type) : Type := S -> res A * S.

Definition ret {S A : Type} (a : A) : M S A := fun s => (Ok a, s).

Definition bind {S A B : Type} (m : M S A) (k : A -> M S B) : M S B :=
  fun s =>
    match m s with
    | (Ok a, s') => k a s'
    | (Raise e, s') => (Raise e, s')
    end.

Definition raise {S A : Type} (e : exn) : M S A := fun s => (Raise e, s).

Definition lift {S A : Type} (r : res A) : M S A := fun s => (r, s).

Definition modify {S : Type} (f : S -> S) : M S unit := fun s => (Ok tt, f s).

Definition gets {S A : Type} (f : S -> A) : M S A := fun s => (Ok (f s), s).

Notation "'let!' x ':=' m 'in' k" := (bind m (fun x => k))
  (at level 10, x name, m at level 100, k at level 200).

Notation "m '>>' k" := (bind m (fun _ => k))
  (at level 100, k at level 200, right associativity).

(** [try: body  except E: handler], where [catches] says which exceptions
    the clause names. *)
Definition try_except {S A : Type}
    (body : M S A) (catches : exn -> bool) (handler : M S A) : M S A :=
  fun s =>
    match body s with
    | (Ok a, s') => (Ok a, s')
    | (Raise e, s') => if catches e then handler s' else (Raise e, s')
    end.

(** [except Exception]: every exception of the model. *)
Definition any_Exception (e : exn) : bool := true.

(** [except subprocess.CalledProcessError]. *)
Definition is_CalledProcessError (e : exn) : bool :=
  match e with
  | CalledProcessError => true
  | _ => false
  end.

(** [for x in l: body x]. *)
Fixpoint for_each {S X : Type} (l : list X) (body : X -> M S unit) : M S unit :=
  match l with
  | [] => ret tt
  | x :: l' => body x >> for_each l' body
  end.

(** ** Pattern catalog and constants (lines 9-45) *)

(** The double-quote character, written by its code. *)
Definition dq : string := String (ascii_of_nat 34) EmptyString.

(** The single-quote character. *)
Definition sq : string := String (ascii_of_nat 39) EmptyString.

(** The annotation rules of lines 10-15: [@Name], an escaped opening
    parenthesis, a quoted group of non-quote characters, and the escaped
    closing parenthesis. *)
Definition annotation_pattern (name : string) : string :=
  "@" +:+ name +:+ "\(" +:+ dq +:+ "([^" +:+ dq +:+ "]+)" +:+ dq +:+ "\)".

(** The router rules of lines 17-24: [obj\.verb\(\s*], then a group of
    characters other than the two quotes, between two quotes of either
    kind. *)
Definition router_pattern (obj verb : string) : string :=
  obj +:+ "\." +:+ verb +:+ "\(\s*[" +:+ dq +:+ "\" +:+ sq +:+ "]([^"
      +:+ dq +:+ "\" +:+ sq +:+ "]+)[" +:+ dq +:+ "\" +:+ sq +:+ "]".

Definition API_ENDPOINT_PATTERNS : list (string * string) :=
  [ ("GET", annotation_pattern "GetMapping");
    ("POST", annotation_pattern "PostMapping");
    ("PUT", annotation_pattern "PutMapping");
    ("DELETE", annotation_pattern "DeleteMapping");
    ("ANY", annotation_pattern "RequestMapping");
    ("ANY", annotation_pattern "Path");
    ("DELETE", "@DELETE\b");
    ("GET", router_pattern "app" "get");
    ("POST", router_pattern "app" "post");
    ("PUT", router_pattern "app" "put");
    ("DELETE", router_pattern "app" "delete");
    ("GET", router_pattern "router" "get");
    ("POST", router_pattern "router" "post");
    ("PUT", router_pattern "router" "put");
    ("DELETE", router_pattern "router" "delete") ].

Definition CALL_PATTERNS : list string :=
  [ "axios\.(get|post|put|delete|request|create)\(";
    "fetch\(";
    "requests\.(get|post|put|delete|head|options)\(";
    "RestTemplate\.(getForObject|getForEntity|postForObject|postForEntity|exchange)\(";
    "httpClient\.(send|execute)\(";
    "WebClient\..*?\.(get|post|put|delete)\(";
    "Grpc.*stub"; "\.newBlockingStub\("; "insecure_channel\(";
    "http\.Get\("; "http\.Post\(";
    "curl_init\("; "file_get_contents\("; "\bcurl\b"; "\bwget\b";
    "Invoke-WebRequest";
    "http[s]?://[^\s" +:+ dq +:+ "\" +:+ sq +:+ "]+";
    "[" +:+ dq +:+ "\" +:+ sq +:+ "`](/api/[^" +:+ dq +:+ "\" +:+ sq
        +:+ "]+)[" +:+ dq +:+ "\" +:+ sq +:+ "`]" ].

(** The pattern of the [build.gradle] branch (line 105). *)
Definition GRADLE_PATTERN : string :=
  "(?:implementation|api|compile)\s+[" +:+ dq +:+ "\" +:+ sq +:+ "]([^"
      +:+ dq +:+ "\" +:+ sq +:+ "]+)[" +:+ dq +:+ "\" +:+ sq +:+ "]".

Definition UNWANTED_SCOPES : list string :=
  ["test"; "provided"; "system"; "import"].

Definition EXCLUDE_DIRS : list string :=
  ["node_modules"; "frontend"; "client"; "web"; "ui"; "dist"; "build";
   "__mocks__"; "test"].

Definition DEPENDENCY_FILES : list string :=
  ["pom.xml"; "package.json"; "requirements.txt"; "setup.py";
   "build.gradle"; "go.mod"; "composer.json"].

Definition ENDPOINT_EXTENSIONS : list string :=
  [".py"; ".js"; ".ts"; ".java"; ".kt"; ".php"; ".go"].

Definition CALL_EXTENSIONS : list string :=
  [".py"; ".js"; ".ts"; ".java"; ".kt"].

(** [x in UNWANTED_SCOPES]. *)
Definition str_in (x : string) (l : list string) : bool :=
  existsb (String.eqb x) l.

(** [file.endswith(tuple)]. *)
Definition endswith_any (file : string) (exts : list string) : bool :=
  existsb (Py.endswith file) exts.

(** Line 47. *)
Definition is_excluded_path (path : string) : bool :=
  existsb (fun excl => Py.contains excl path) EXCLUDE_DIRS.

(** ** The library boundary

    [re] stands for Python's regular-expression engine: [re_findall p ic s]
    is [re.findall(p, s)] (with [re.IGNORECASE] when [ic]) for a pattern
    with at most one group, [re_finditer p s] is
    [[m.group(0) for m in re.finditer(p, s)]]. *)

Record regex_engine : Type := {
  re_findall : string -> bool -> string -> list string;
  re_finditer : string -> string -> list string
}.

(** One [<dependency>] element as [ElementTree] shows it: for each child,
    [None] when [find] returns [None], [Some None] when the element is
    there with [text] equal to [None], [Some (Some t)] otherwise. *)
Record dep_node : Type := {
  scope : option (option string);
  groupId : option (option string);
  artifactId : option (option string);
  version : option (option string)
}.

(** [for line in f] on a file opened in strict text mode: the lines
    yielded, then the exception that ends the iteration early, if any
    ([open] failing is the stream with no line and an [OSError]). *)
Record line_stream : Type := {
  lines : list string;
  tail_error : option exn
}.

(** A file as the script observes it, one field per way of reading it:
    - [read_ignore]: [open(p, encoding='utf-8', errors='ignore').read()];
    - [read_strict]: [open(p, 'r', encoding='utf-8')] then [f.read()];
    - [read_lines]: the same [open], then iteration over the lines;
    - [et_dependencies]: [ET.parse(p)], then
      [getroot().findall('.//mvn:dependencies/mvn:dependency', NS)];
    - [json_dependencies]: [json.load(f).get('dependencies', {}).keys()];
    - [et_modules]: [ET.parse(p)], then [m.text] for each [m] of
      [getroot().findall('.//mvn:modules/mvn:module', NS)]. *)
Record file : Type := {
  fname : string;
  read_ignore : res string;
  read_strict : res string;
  read_lines : line_stream;
  et_dependencies : res (list dep_node);
  json_dependencies : res (list string);
  et_modules : res (list (option string))
}.

(** A directory: its files and its sub-directories, in the order
    [os.scandir] lists them. *)
Inductive tree : Type :=
| Dir (files : list file) (subdirs : list (string * tree)).

(** [os.walk(top)], top-down: the [(root, files)] of every directory.
    The script never looks at the [dirs] component. *)
Fixpoint walk (top : string) (t : tree) : list (string * list file) :=
  match t with
  | Dir fs ds =>
      (top, fs)
        :: flat_map (fun d => walk (Py.path_join top (fst d)) (snd d)) ds
  end.

(** Directory entries are names, not paths: none starts with a slash. *)
Fixpoint names_ok (t : tree) : bool :=
  match t with
  | Dir _ ds =>
      forallb (fun d => negb (Py.startswith (fst d) "/") && names_ok (snd d)) ds
  end.

(** The part of a working tree the script reads: the directory tree found
    at a path, if the path is a directory, and the file found at a path. *)
Record filesystem : Type := {
  dir_at : string -> option tree;
  file_at : string -> option file
}.

(** [os.walk(path)] from a path: nothing when [path] is no directory. *)
Definition os_walk (fs : filesystem) (path : string)
  : list (string * list file) :=
  match dir_at fs path with
  | Some t => walk path t
  | None => []
  end.

(** ** Extractor: dependencies (lines 58-119) *)

(** The variable [root] of [count_dependencies]: the directory path bound
    by the [for] statement, until line 73 rebinds it to the XML root
    element. *)
Inductive root_val : Type :=
| RootStr (s : string)
| RootElement.

Record dep_state : Type := {
  deps : gset string;
  root : root_val
}.

Definition deps_add (c : string) : M dep_state unit :=
  modify (fun st => {| deps := {[ c ]} ∪ deps st; root := root st |}).

Definition deps_update (l : list string) : M dep_state unit :=
  modify (fun st => {| deps := list_to_set l ∪ deps st; root := root st |}).

Definition set_root (r : root_val) : M dep_state unit :=
  modify (fun st => {| deps := deps st; root := r |}).

(** [os.path.join(root, file)]: a [TypeError] once [root] is an element. *)
Definition join_root (r : root_val) (name : string) : res string :=
  match r with
  | RootStr s => Ok (Py.path_join s name)
  | RootElement => Raise TypeError
  end.

(** [elem.text.strip()]. *)
Definition text_strip (t : option string) : res string :=
  match t with
  | Some s => Ok (Py.strip s)
  | None => Raise AttributeError
  end.

(** Lines 75-83, the body of the loop over the dependency elements. *)
Definition pom_dependency (n : dep_node) : M dep_state unit :=
  let! unwanted :=
    match scope n with
    | None => ret false
    | Some t => let! s := lift (text_strip t) in ret (str_in s UNWANTED_SCOPES)
    end in
  if unwanted then ret tt
  else
    match groupId n, artifactId n with
    | Some g, Some a =>
        let! gs := lift (text_strip g) in
        let! as_ := lift (text_strip a) in
        let! vs :=
          match version n with
          | Some v => lift (text_strip v)
          | None => ret "<inherited>"
          end in
        deps_add (gs +:+ ":" +:+ as_ +:+ ":" +:+ vs)
    | _, _ => ret tt
    end.

(** Lines 72-83. *)
Definition pom_body (f : file) : M dep_state unit :=
  let! nodes := lift (et_dependencies f) in
  set_root RootElement >>
  for_each nodes pom_dependency.

(** Lines 88-90. *)
Definition package_json_body (f : file) : M dep_state unit :=
  let! keys := lift (json_dependencies f) in
  deps_update keys.

(** Lines 97-98. *)
Definition requirements_line (line : string) : M dep_state unit :=
  if negb (String.eqb (Py.strip line) "") && negb (Py.startswith line "#")
  then deps_add (Py.split_head "==" (Py.strip line))
  else ret tt.

(** Iterating a stream: the body on each line, then the pending error. *)
Definition for_each_line (s : line_stream) (body : string -> M dep_state unit)
  : M dep_state unit :=
  for_each (lines s) body >>
  match tail_error s with
  | Some e => raise e
  | None => ret tt
  end.

(** Lines 95-98. *)
Definition requirements_body (f : file) : M dep_state unit :=
  for_each_line (read_lines f) requirements_line.

(** Lines 103-106. *)
Definition gradle_body (re : regex_engine) (f : file) : M dep_state unit :=
  let! content := lift (read_strict f) in
  deps_update (re_findall re GRADLE_PATTERN false content).

(** Lines 113-116. *)
Definition go_mod_line (line : string) : M dep_state unit :=
  if Py.startswith line "require"
  then match Py.split_ws line with
       | _ :: p1 :: _ => deps_add p1
       | _ => ret tt
       end
  else ret tt.

(** Lines 111-116. *)
Definition go_mod_body (f : file) : M dep_state unit :=
  for_each_line (read_lines f) go_mod_line.

Definition continue_ : M dep_state unit := ret tt.

(** Lines 64-118, the body of the loop over the files of a directory. *)
Definition dependency_file (re : regex_engine) (f : file) : M dep_state unit :=
  let file := fname f in
  if String.eqb file "" then continue_
  else
    let! full_path :=
      try_except
        (let! r := gets root in let! p := lift (join_root r file) in ret (Some p))
        any_Exception (ret None) in
    match full_path with
    | None => continue_
    | Some _ =>
        if String.eqb file "pom.xml" then
          try_except (pom_body f) any_Exception continue_
        else if String.eqb file "package.json" then
          try_except (package_json_body f) any_Exception continue_
        else if String.eqb file "requirements.txt" then
          try_except (requirements_body f) any_Exception continue_
        else if String.eqb file "build.gradle" then
          try_except (gradle_body re f) any_Exception continue_
        else if String.eqb file "go.mod" then
          try_except (go_mod_body f) any_Exception continue_
        else ret tt
    end.

Definition is_raise {A : Type} (r : res A) : bool :=
  match r with
  | Raise _ => true
  | Ok _ => false
  end.

(** The stream ends in an error before its first line. *)
Definition stream_fails_at_once (s : line_stream) : bool :=
  match lines s, tail_error s with
  | [], Some _ => true
  | _, _ => false
  end.

(** The manifest [f] fails before its parser has yielded a first entry:
    [ET.parse] or [json.load] raises, or the file cannot be opened or
    decoded up to its first line. *)
Definition manifest_fails_at_once (f : file) : bool :=
  let file := fname f in
  if String.eqb file "pom.xml" then is_raise (et_dependencies f)
  else if String.eqb file "package.json" then is_raise (json_dependencies f)
  else if String.eqb file "requirements.txt" then stream_fails_at_once (read_lines f)
  else if String.eqb file "build.gradle" then is_raise (read_strict f)
  else if String.eqb file "go.mod" then stream_fails_at_once (read_lines f)
  else false.

(** A computation on the dependency state that only adds coordinates. *)
Definition grows {A : Type} (m : M dep_state A) : Prop :=
  forall st, deps st ⊆ deps (snd (m st)).

(** The coordinate of a dependency element with group [g], artifact [a]
    and, when [v] is [Some x], version [x]: the texts stripped and joined
    by colons, the marker [<inherited>] standing for an absent version. *)
Definition coordinate (g a : string) (v : option string) : string :=
  Py.strip g +:+ ":" +:+ Py.strip a +:+ ":"
    +:+ match v with
        | Some x => Py.strip x
        | None => "<inherited>"
        end.

(** A dependency element with group and artifact texts, an optional
    version text, and the scope child [sc]. *)
Definition dependency_entry (g a : string) (v : option string)
    (sc : option (option string)) : dep_node :=
  {| scope := sc;
     groupId := Some (Some g);
     artifactId := Some (Some a);
     version := option_map Some v |}.

(** [r] is the text of [s] before the first occurrence of [sep]: [s] is
    [r], [sep] and a rest, with no occurrence of [sep] starting earlier;
    or [sep] does not occur in [s] and [r] is all of [s]. *)
Definition text_before_first (sep s r : string) : Prop :=
  (exists rest, s = r +:+ sep +:+ rest
     /\ forall p q, s = p +:+ sep +:+ q -> (String.length r <= String.length p)%nat)
  \/ (r = s /\ forall p q, s <> p +:+ sep +:+ q).

(** The state after [deps.add(c)]. *)
Definition with_dep (c : string) (st : dep_state) : dep_state :=
  {| deps := {[ c ]} ∪ deps st; root := root st |}.

(** Lines 60-63, the body of the loop over the walked directories. *)
Definition dependency_dir (re : regex_engine) (d : string * list file)
  : M dep_state unit :=
  set_root (RootStr (fst d)) >>
  if is_excluded_path (fst d) then continue_
  else for_each (snd d) (dependency_file re).

(** Lines 58-119.  [root] is unbound until the first iteration binds it;
    its initial value is never read. *)
Definition count_dependencies (re : regex_engine) (fs : filesystem)
    (path : string) : res (gset string) :=
  let init := {| deps := ∅; root := RootStr path |} in
  match for_each (os_walk fs path) (dependency_dir re) init with
  | (Ok _, st) => Ok (deps st)
  | (Raise e, _) => Raise e
  end.

(** ** Extractor: endpoints (lines 121-135) *)

Definition endpoint_matches (re : regex_engine) (content : string)
    (rule : string * string) : list (string * string) :=
  map (fun m => (fst rule, normalize_path m))
      (re_findall re (snd rule) true content).

(** Lines 129-132. *)
Definition endpoint_body (re : regex_engine) (f : file)
  : M (gset (string * string)) unit :=
  let! content := lift (read_ignore f) in
  for_each API_ENDPOINT_PATTERNS (fun rule =>
    for_each (endpoint_matches re content rule) (fun e =>
      modify (fun unique => {[ e ]} ∪ unique))).

(** Lines 127-134. *)
Definition endpoint_file (re : regex_engine) (f : file)
  : M (gset (string * string)) unit :=
  if endswith_any (fname f) ENDPOINT_EXTENSIONS
  then try_except (endpoint_body re f) any_Exception (ret tt)
  else ret tt.

Definition endpoint_dir (re : regex_engine) (d : string * list file)
  : M (gset (string * string)) unit :=
  if is_excluded_path (fst d) then ret tt
  else for_each (snd d) (endpoint_file re).

(** [f"{m} {p}"]. *)
Definition format_endpoint (e : string * string) : string :=
  fst e +:+ " " +:+ snd e.

Definition count_endpoints (re : regex_engine) (fs : filesystem)
    (path : string) : res (nat * list string) :=
  match for_each (os_walk fs path) (endpoint_dir re) ∅ with
  | (Ok _, unique) =>
      Ok (size unique, Py.sorted (map format_endpoint (elements unique)))
  | (Raise e, _) => Raise e
  end.

(** ** Extractor: outbound calls (lines 137-151) *)

(** Lines 145-148. *)
Definition call_body (re : regex_engine) (f : file) : M (gset string) unit :=
  let! content := lift (read_ignore f) in
  for_each CALL_PATTERNS (fun pattern =>
    for_each (re_finditer re pattern content) (fun m =>
      modify (fun matches => {[ Py.strip m ]} ∪ matches))).

Definition call_file (re : regex_engine) (f : file) : M (gset string) unit :=
  if endswith_any (fname f) CALL_EXTENSIONS
  then try_except (call_body re f) any_Exception (ret tt)
  else ret tt.

Definition call_dir (re : regex_engine) (d : string * list file)
  : M (gset string) unit :=
  if is_excluded_path (fst d) then ret tt
  else for_each (snd d) (call_file re).

Definition count_inter_service_calls (re : regex_engine) (fs : filesystem)
    (path : string) : res (nat * list string) :=
  match for_each (os_walk fs path) (call_dir re) ∅ with
  | (Ok _, matches) => Ok (size matches, Py.sorted (elements matches))
  | (Raise e, _) => Raise e
  end.

(** ** Module resolver and aggregator (lines 50-56 and 176-215) *)

(** Lines 50-56: the stripped text of every module element that has one;
    the empty list when the descriptor does not parse. *)
Definition get_modules_from_pom (pom : file) : list string :=
  match et_modules pom with
  | Ok texts =>
      flat_map (fun t => match t with
                         | Some s => if String.eqb s "" then [] else [Py.strip s]
                         | None => []
                         end) texts
  | Raise _ => []
  end.

(** The locals of [analyze_service] that the loop of lines 184-193
    updates. *)
Record totals : Type := {
  total_eps : nat;
  total_calls : nat;
  all_eps : gset string;
  all_calls : gset string;
  all_deps : gset string
}.

(** Lines 181-182. *)
Definition totals0 : totals :=
  {| total_eps := 0; total_calls := 0;
     all_eps := ∅; all_calls := ∅; all_deps := ∅ |}.

(** What the three extraction calls of lines 185-187 return for one
    module path. *)
Record module_result : Type := {
  ep_count : nat;
  eps : list string;
  call_count : nat;
  calls : list string;
  mod_deps : gset string
}.

(** Lines 189-193. *)
Definition add_module (m : module_result) (t : totals) : totals :=
  {| total_eps := total_eps t + ep_count m;
     total_calls := total_calls t + call_count m;
     all_eps := list_to_set (eps m) ∪ all_eps t;
     all_calls := list_to_set (calls m) ∪ all_calls t;
     all_deps := mod_deps m ∪ all_deps t |}.

(** Lines 184-193 over extraction results already computed. *)
Definition aggregate (ms : list module_result) : totals :=
  fold_left (fun t m => add_module m t) ms totals0.

(** Lines 185-187. *)
Definition extract (re : regex_engine) (fs : filesystem) (path : string)
  : res module_result :=
  match count_endpoints re fs path with
  | Raise e => Raise e
  | Ok (n_e, l_e) =>
      match count_inter_service_calls re fs path with
      | Raise e => Raise e
      | Ok (n_c, l_c) =>
          match count_dependencies re fs path with
          | Raise e => Raise e
          | Ok d =>
              Ok {| ep_count := n_e; eps := l_e;
                    call_count := n_c; calls := l_c; mod_deps := d |}
          end
      end
  end.

(** Lines 184-193. *)
Definition module_step (re : regex_engine) (fs : filesystem) (path : string)
  : M totals unit :=
  let! m := lift (extract re fs path) in
  modify (add_module m).

(** The record handed to the report sink (lines 206-215).  The date is a
    calendar day, see [strftime_date] below. *)
Record row : Type := {
  r_service : string;
  r_date : Z;
  r_endpoints : nat;
  r_dependencies : nat;
  r_calls : nat;
  r_dependency_list : string;
  r_endpoint_list : string;
  r_call_list : string
}.

Definition quoted_list (s : gset string) : string :=
  dq +:+ Py.join ";" (Py.sorted (elements s)) +:+ dq.

(** Lines 206-215. *)
Definition make_row (repo_path : string) (date : Z) (t : totals) : row :=
  {| r_service := Py.basename repo_path;
     r_date := date;
     r_endpoints := total_eps t;
     r_dependencies := size (all_deps t);
     r_calls := size (all_calls t);
     r_dependency_list := quoted_list (all_deps t);
     r_endpoint_list := quoted_list (all_eps t);
     r_call_list := quoted_list (all_calls t) |}.

(** Lines 177-179. *)
Definition module_paths (fs : filesystem) (repo_path : string) : list string :=
  let root_pom := Py.path_join repo_path "pom.xml" in
  let modules :=
    match file_at fs root_pom with
    | Some pom => get_modules_from_pom pom
    | None => []
    end in
  match modules with
  | [] => [repo_path]
  | _ => map (Py.path_join repo_path) modules
  end.

(** Lines 177-215 up to the row; the [print] calls are left out. *)
Definition analyze_row (re : regex_engine) (fs : filesystem)
    (repo_path : string) (date : Z) : res row :=
  match for_each (module_paths fs repo_path) (module_step re fs) totals0 with
  | (Ok _, t) => Ok (make_row repo_path date t)
  | (Raise e, _) => Raise e
  end.

(** ** Dates (the [datetime] arithmetic of lines 154-156 and 167)

    A [datetime] is its number of microseconds since 0001-01-01T00:00:00,
    a [timedelta] a number of microseconds.  Both types are bounded in
    Python, and arithmetic that leaves the range raises [OverflowError]. *)

Definition US_PER_DAY : Z := 86400000000.

(** [date.max.toordinal()]: the days from 0001-01-01 to 9999-12-31. *)
Definition DATETIME_DAYS : Z := 3652059.

(** [timedelta.max.days]. *)
Definition TIMEDELTA_MAX_DAYS : Z := 999999999.

Definition timedelta_weeks (k : Z) : Z := k * 7 * US_PER_DAY.

Definition timedelta_days (k : Z) : Z := k * US_PER_DAY.

(** [td * k]. *)
Definition timedelta_mul (td k : Z) : res Z :=
  let r := td * k in
  if (- (TIMEDELTA_MAX_DAYS * US_PER_DAY) <=? r)
     && (r <? (TIMEDELTA_MAX_DAYS + 1) * US_PER_DAY)
  then Ok r else Raise OverflowError.

(** [t + td]. *)
Definition datetime_add (t td : Z) : res Z :=
  let r := t + td in
  if (0 <=? r) && (r <? DATETIME_DAYS * US_PER_DAY)
  then Ok r else Raise OverflowError.

(** [t - td]. *)
Definition datetime_sub (t td : Z) : res Z := datetime_add t (- td).

(** [t.weekday()], Monday being 0: 0001-01-01 is a Monday. *)
Definition weekday (t : Z) : Z := (t / US_PER_DAY) mod 7.

(** [t.strftime('%Y-%m-%d')]: the calendar day of [t], kept as the number
    of days since 0001-01-01 rather than as its rendering. *)
Definition strftime_date (t : Z) : Z := t / US_PER_DAY.

(** Line 155. *)
Definition period_length (frequency : string) : Z :=
  timedelta_weeks (if String.eqb frequency "weekly" then 1 else 30).

(** The anchor of line 156: [now] moved back to the start of its week
    when weekly, [now] otherwise. *)
Definition anchor_date (now : Z) (frequency : string) : res Z :=
  if String.eqb frequency "weekly"
  then datetime_sub now (timedelta_days (weekday now))
  else Ok now.

(** Line 156. *)
Definition start_date (now : Z) (frequency : string) (periods : Z) : res Z :=
  match anchor_date now frequency with
  | Raise e => Raise e
  | Ok anchor =>
      match timedelta_mul (period_length frequency) periods with
      | Raise e => Raise e
      | Ok back => datetime_sub anchor back
      end
  end.

(** [range(n)]. *)
Definition py_range (n : Z) : list Z :=
  map Z.of_nat (seq 0 (Z.to_nat n)).

(** ** The repository and the run *)

Inductive event : Type :=
| GitRevParseHead
| GitVerify (branch : string)
| GitRevList (date : Z) (branch : string)
| GitCheckout (commit : string)
| GitRestore (commit : string)
| WriteHeader
| WriteRow (r : row).

(** What the run mutates and leaves behind: the commit checked out in
    the working tree, and the commands issued so far (latest last). *)
Record world : Type := {
  head : string;
  events : list event
}.

(** What the run reads from outside:
    - [utcnow]: the clock of line 154;
    - [git_verify b]: [git rev-parse --verify b] exits with 0;
    - [git_rev_list d b]: the output of [git rev-list -1 --before d b],
      [None] when it exits with another status;
    - [git_checkout_ok h c]: [git checkout -q c] succeeds from head [h];
    - [worktree c]: the files on disk when [c] is checked out;
    - [output_ok]: the output file opens and takes the header row;
    - [writerow_ok r]: the sink takes the row [r]. *)
Record env : Type := {
  utcnow : Z;
  git_verify : string -> bool;
  git_rev_list : Z -> string -> option string;
  git_checkout_ok : string -> string -> bool;
  worktree : string -> filesystem;
  output_ok : bool;
  writerow_ok : row -> bool;
  engine : regex_engine
}.

Definition log (e : event) : M world unit :=
  modify (fun w => {| head := head w; events := events w ++ [e] |}).

(** Line 160. *)
Definition git_rev_parse_verify (E : env) (branch : string) : M world unit :=
  log (GitVerify branch) >>
  if git_verify E branch then ret tt else raise CalledProcessError.

(** Line 169, up to [.strip()]. *)
Definition git_rev_list_before (E : env) (date : Z) (branch : string)
  : M world string :=
  log (GitRevList date branch) >>
  match git_rev_list E date branch with
  | Some out => ret out
  | None => raise CalledProcessError
  end.

(** Lines 158-165: the [for ... else] over the candidate branches;
    [Some b] is leaving by [break] with [branch] bound to [b], [None] is
    reaching the [else] clause. *)
Fixpoint probe_branches (E : env) (candidates : list string)
  : M world (option string) :=
  match candidates with
  | [] => ret None
  | branch :: rest =>
      let! found :=
        try_except (git_rev_parse_verify E branch >> ret true)
                   is_CalledProcessError (ret false) in
      if found then ret (Some branch) else probe_branches E rest
  end.

Definition CANDIDATE_BRANCHES : list string := ["main"; "master"; "develop"].

(** Lines 167-173, one iteration. *)
Definition resolve_period (E : env) (branch : string) (start delta : Z)
    (commits : list (string * Z)) (i : Z) : M world (list (string * Z)) :=
  let! step := lift (timedelta_mul delta i) in
  let! d := lift (datetime_add start step) in
  let date := strftime_date d in
  try_except
    (let! out := git_rev_list_before E date branch in
     let commit := Py.strip out in
     ret (if String.eqb commit "" then commits else commits ++ [(commit, date)]))
    is_CalledProcessError
    (ret commits).

(** Lines 166-173. *)
Fixpoint resolve_periods (E : env) (branch : string) (start delta : Z)
    (commits : list (string * Z)) (l : list Z) : M world (list (string * Z)) :=
  match l with
  | [] => ret commits
  | i :: rest =>
      let! commits' := resolve_period E branch start delta commits i in
      resolve_periods E branch start delta commits' rest
  end.

(** Lines 153-174. *)
Definition get_commits (E : env) (frequency : string) (periods : Z)
  : M world (list (string * Z)) :=
  let delta := period_length frequency in
  let! start := lift (start_date (utcnow E) frequency periods) in
  let! branch := probe_branches E CANDIDATE_BRANCHES in
  match branch with
  | None => ret []
  | Some b => resolve_periods E b start delta [] (py_range (periods + 1))
  end.

(** [subprocess.run([..., 'checkout', '-q', c], check=True)]; [tag] tells
    the call of line 233 from the call of line 236. *)
Definition git_checkout (E : env) (tag : string -> event) (c : string)
  : M world unit :=
  log (tag c) >>
  fun w =>
    if git_checkout_ok E (head w) c
    then (Ok tt, {| head := c; events := events w |})
    else (Raise CalledProcessError, w).

(** Line 226. *)
Definition git_rev_parse_head : M world string :=
  log GitRevParseHead >> gets head.

(** Lines 228-231. *)
Definition open_output (E : env) : M world unit :=
  if output_ok E then log WriteHeader else raise OSError.

(** Lines 176-215 on the working tree as it is checked out. *)
Definition analyze_service (E : env) (repo_path : string) (date : Z)
  : M world unit :=
  let! fs := gets (fun w => worktree E (head w)) in
  let! r := lift (analyze_row (engine E) fs repo_path date) in
  if writerow_ok E r then log (WriteRow r) else raise OSError.

(** Lines 232-234, one iteration. *)
Definition snapshot_step (E : env) (repo_path : string) (s : string * Z)
  : M world unit :=
  git_checkout E GitCheckout (fst s) >>
  analyze_service E repo_path (snd s).

(** Lines 226-236. *)
Definition main (E : env) (repo_path frequency : string) (periods : Z)
  : M world unit :=
  let! original_head := git_rev_parse_head in
  open_output E >>
  let! snapshots := get_commits E frequency periods in
  for_each snapshots (snapshot_step E repo_path) >>
  git_checkout E GitRestore original_head.

(** The number of restoring checkouts among the commands issued. *)
Definition restores (l : list event) : nat :=
  length (List.filter (fun e => match e with
                                  | GitRestore _ => true
                                  | _ => false
                                  end) l).

(** The world after the commands [l] have been issued on top of [w]. *)
Definition logged (w : world) (l : list event) : world :=
  {| head := head w; events := events w ++ l |}.

(** The calendar day that period [i] resolves, counted from [start]. *)
Definition date_at (start delta i : Z) : Z :=
  strftime_date (start + delta * i).

(** What the walker returns for a single day on branch [b]: the commit
    that [rev-list] prints for that day, if it prints one. *)
Definition snapshot_at (E : env) (day : Z) (b : string) : list (string * Z) :=
  match git_rev_list E day b with
  | Some out =>
      if String.eqb (Py.strip out) "" then [] else [(Py.strip out, day)]
  | None => []
  end.

(** A valid [datetime]. *)
Definition datetime_ok (t : Z) : Prop := 0 <= t < DATETIME_DAYS * US_PER_DAY.

(** From [w] to [w'] no restoring checkout was issued and the head did
    not move. *)
Definition quiet (w w' : world) : Prop :=
  head w' = head w /\ restores (events w') = restores (events w).

(** From [w] to [w'] no restoring checkout was issued. *)
Definition unrestored (w w' : world) : Prop :=
  restores (events w') = restores (events w).

(** ** Concrete inputs used by the examples below *)

Module Sample.

(** An engine given by its table: the matches of each (pattern, content)
    pair listed, no match for any other pair. *)
Definition table_lookup (tbl : list (string * string * list string))
    (pattern content : string) : list string :=
  match List.find (fun e => String.eqb (fst (fst e)) pattern
                            && String.eqb (snd (fst e)) content) tbl with
  | Some e => snd e
  | None => []
  end.

Definition table_engine (findall_tbl finditer_tbl : list (string * string * list string))
  : regex_engine :=
  {| re_findall := fun p _ s => table_lookup findall_tbl p s;
     re_finditer := fun p s => table_lookup finditer_tbl p s |}.

Definition no_match : regex_engine := table_engine [] [].

Definition nl : string := String (ascii_of_nat 10) EmptyString.

(** A text file that is neither XML nor JSON, given by its lines. *)
Definition text_file (name : string) (ls : list string) : file :=
  {| fname := name;
     read_ignore := Ok (String.concat "" ls);
     read_strict := Ok (String.concat "" ls);
     read_lines := {| lines := ls; tail_error := None |};
     et_dependencies := Raise ParseError;
     json_dependencies := Raise JSONDecodeError;
     et_modules := Raise ParseError |}.

(** A well-formed [pom.xml], given by its dependency elements and the
    texts of its module elements.  Its text plays no part. *)
Definition pom_file (nodes : list dep_node) (modules : list (option string))
  : file :=
  {| fname := "pom.xml";
     read_ignore := Ok "";
     read_strict := Ok "";
     read_lines := {| lines := []; tail_error := None |};
     et_dependencies := Ok nodes;
     json_dependencies := Raise JSONDecodeError;
     et_modules := Ok modules |}.

(** A file that cannot be opened. *)
Definition unreadable (name : string) : file :=
  {| fname := name;
     read_ignore := Raise OSError;
     read_strict := Raise OSError;
     read_lines := {| lines := []; tail_error := Some OSError |};
     et_dependencies := Raise OSError;
     json_dependencies := Raise OSError;
     et_modules := Raise OSError |}.

(** A working tree with the given directories and files and nothing
    else. *)
Definition fs_of (ds : list (string * tree)) (fl : list (string * file))
  : filesystem :=
  {| dir_at := fun p =>
       option_map snd (List.find (fun d => String.eqb (fst d) p) ds);
     file_at := fun p =>
       option_map snd (List.find (fun d => String.eqb (fst d) p) fl) |}.

Definition dep (g a : string) (v : option string) (sc : option (option string))
  : dep_node :=
  {| scope := sc;
     groupId := Some (Some g);
     artifactId := Some (Some a);
     version := option_map Some v |}.

Definition requirements_txt : file :=
  text_file "requirements.txt" ["flask==1.0" +:+ nl; "# pinned" +:+ nl].

(** A module directory with a [pom.xml] that parses and declares nothing,
    listed before a [requirements.txt]. *)
Definition pom_then_requirements : filesystem :=
  fs_of [("repo", Dir [pom_file [] []; requirements_txt] [])] [].

Definition requirements_alone : filesystem :=
  fs_of [("repo", Dir [requirements_txt] [])] [].

(** A [pom.xml] whose second dependency has an empty scope element: its
    [text] is [None]. *)
Definition pom_empty_scope : file :=
  pom_file [dep "org.acme" "core" (Some "1.0") None;
            dep "org.acme" "util" (Some "2.0") (Some None)] [].

Definition fs_pom_empty_scope : filesystem :=
  fs_of [("repo", Dir [pom_empty_scope] [])] [].

(** A [requirements.txt] that stops decoding after its first line has
    been read: the iteration yields that line, then raises. *)
Definition requirements_bad_tail : file :=
  {| fname := "requirements.txt";
     read_ignore := Ok ("flask==1.0" +:+ nl);
     read_strict := Raise UnicodeDecodeError;
     read_lines := {| lines := ["flask==1.0" +:+ nl];
                      tail_error := Some UnicodeDecodeError |};
     et_dependencies := Raise ParseError;
     json_dependencies := Raise JSONDecodeError;
     et_modules := Raise ParseError |}.

Definition fs_requirements_bad_tail : filesystem :=
  fs_of [("repo", Dir [requirements_bad_tail] [])] [].

(** A module under a path that contains the token [test]. *)
Definition fs_under_test : filesystem :=
  fs_of [("/srv/latest/app",
          Dir [requirements_txt] [("src", Dir [requirements_txt] [])])] [].

(** A Java source file declaring one route: the annotation [GetMapping]
    applied to the quoted path [/x]. *)
Definition get_x_source : string :=
  "@GetMapping(" +:+ dq +:+ "/x" +:+ dq +:+ ")".

Definition api_java : file := text_file "Api.java" [get_x_source].

(** Python's engine on [get_x_source]: the first endpoint rule matches
    once and captures [/x]; no other rule of either catalog matches. *)
Definition get_x_engine : regex_engine :=
  table_engine [(annotation_pattern "GetMapping", get_x_source, ["/x"])] [].

(** A repository whose root descriptor declares the modules [a] and [b],
    each holding the same source file. *)
Definition two_modules : filesystem :=
  fs_of [("repo/a", Dir [api_java] []); ("repo/b", Dir [api_java] [])]
        [("repo/pom.xml", pom_file [] [Some "a"; Some "b"])].

(** What extraction returns for either module. *)
Definition one_get_x : module_result :=
  {| ep_count := 1; eps := ["GET /x"];
     call_count := 0; calls := []; mod_deps := ∅ |}.

(** 2026-11-04 (a Wednesday) at noon. *)
Definition noon_2026_11_04 : Z := 739923 * US_PER_DAY + 43200000000.

(** The Monday of that week, 2026-11-02, and the Monday before. *)
Definition day_2026_11_02 : Z := 739921.

Definition day_2026_10_26 : Z := 739914.

Definition empty_tree : filesystem := fs_of [("repo", Dir [] [])] [].

Definition fresh : world := {| head := "h0"; events := [] |}.

(** A repository whose branch [main] holds one commit [c1] up to
    2026-10-26 and [c2] after it; [git checkout] refuses to move to
    [c2] (a local file would be overwritten), and moves anywhere else. *)
Definition checkout_refused : env :=
  {| utcnow := noon_2026_11_04;
     git_verify := fun b => String.eqb b "main";
     git_rev_list := fun d _ =>
       Some (if d <=? day_2026_10_26 then "c1" +:+ nl else "c2" +:+ nl);
     git_checkout_ok := fun _ c => negb (String.eqb c "c2");
     worktree := fun _ => empty_tree;
     output_ok := true;
     writerow_ok := fun _ => true;
     engine := no_match |}.

(** The same repository with every checkout succeeding and a sink that
    refuses its rows. *)
Definition sink_refuses : env :=
  {| utcnow := noon_2026_11_04;
     git_verify := fun b => String.eqb b "main";
     git_rev_list := fun d _ =>
       Some (if d <=? day_2026_10_26 then "c1" +:+ nl else "c2" +:+ nl);
     git_checkout_ok := fun _ _ => true;
     worktree := fun _ => empty_tree;
     output_ok := true;
     writerow_ok := fun _ => false;
     engine := no_match |}.

(** A repository whose branch [main] has no commit yet at the dates
    asked for: [rev-list] succeeds and prints nothing. *)
Definition young_repo : env :=
  {| utcnow := noon_2026_11_04;
     git_verify := fun b => String.eqb b "main";
     git_rev_list := fun _ _ => Some "";
     git_checkout_ok := fun _ _ => true;
     worktree := fun _ => empty_tree;
     output_ok := true;
     writerow_ok := fun _ => true;
     engine := no_match |}.

(** A repository with none of the candidate branches. *)
Definition no_primary_branch : env :=
  {| utcnow := noon_2026_11_04;
     git_verify := fun _ => false;
     git_rev_list := fun _ _ => None;
     git_checkout_ok := fun _ _ => true;
     worktree := fun _ => empty_tree;
     output_ok := true;
     writerow_ok := fun _ => true;
     engine := no_match |}.

End Sample.

(** ** Vocabulary of the further properties *)

(** The method tags of the endpoint rules. *)
Definition METHODS : list string := ["GET"; "POST"; "PUT"; "DELETE"; "ANY"].

(** The manifest names that [count_dependencies] has a branch for. *)
Definition PARSED_MANIFESTS : list string :=
  ["pom.xml"; "package.json"; "requirements.txt"; "build.gradle"; "go.mod"].

(** The days between two sampled dates: line 155 takes one week when the
    frequency is [weekly] and thirty weeks otherwise. *)
Definition days_per_period (frequency : string) : Z :=
  if String.eqb frequency "weekly" then 7 else 210.

(** The commands that only read the repository. *)
Definition is_query (e : event) : bool :=
  match e with
  | GitVerify _ | GitRevList _ _ => true
  | _ => false
  end.

(** The numbers of rows written and of snapshot checkouts issued. *)
Definition rows_written (l : list event) : nat :=
  length (List.filter (fun e => match e with
                                  | WriteRow _ => true
                                  | _ => false
                                  end) l).

Definition checkouts (l : list event) : nat :=
  length (List.filter (fun e => match e with
                                  | GitCheckout _ => true
                                  | _ => false
                                  end) l).

Module Sample2.

(** A root descriptor with three module elements: one named, one empty,
    one without text. *)
Definition pom_three_modules : file :=
  Sample.pom_file [] [Some " core "; Some ""; None].

Definition fs_three_modules : filesystem :=
  Sample.fs_of [] [("repo/pom.xml", pom_three_modules)].

(** A root descriptor that declares two modules, the second with blanks
    around its name. *)
Definition pom_two_named_modules : file :=
  Sample.pom_file [] [Some "api"; Some " worker "].

Definition fs_two_named_modules : filesystem :=
  Sample.fs_of [] [("repo/pom.xml", pom_two_named_modules)].

(** A source file with two call sites that differ by surrounding
    blanks only. *)
Definition calls_source : string := "fetch( fetch(".

Definition calls_engine : regex_engine :=
  Sample.table_engine [] [("fetch\(", calls_source, ["fetch("; "fetch("])].

Definition fs_calls : filesystem :=
  Sample.fs_of [("repo", Dir [Sample.text_file "a.js" [calls_source]] [])] [].

(** One module holding the route of [Sample.api_java]. *)
Definition fs_one_module : filesystem :=
  Sample.fs_of [("repo", Dir [Sample.api_java] [])] [].

(** A repository with the branch [master] only; every date resolves to
    the commit [c1]. *)
Definition on_master : env :=
  {| utcnow := Sample.noon_2026_11_04;
     git_verify := fun b => String.eqb b "master";
     git_rev_list := fun _ _ => Some ("c1" +:+ Sample.nl);
     git_checkout_ok := fun _ _ => true;
     worktree := fun _ => Sample.empty_tree;
     output_ok := true;
     writerow_ok := fun _ => true;
     engine := Sample.no_match |}.

(** The same repository with an output file that cannot be opened. *)
Definition no_output : env :=
  {| utcnow := Sample.noon_2026_11_04;
     git_verify := fun b => String.eqb b "master";
     git_rev_list := fun _ _ => Some ("c1" +:+ Sample.nl);
     git_checkout_ok := fun _ _ => true;
     worktree := fun _ => Sample.empty_tree;
     output_ok := false;
     writerow_ok := fun _ => true;
     engine := Sample.no_match |}.

(** A module without [pom.xml]: a [requirements.txt] that fails after
    its first line, then a [go.mod]. *)
Definition fs_two_manifests : filesystem :=
  Sample.fs_of
    [("repo",
      Dir [Sample.requirements_bad_tail;
           Sample.text_file "go.mod"
             ["module m" +:+ Sample.nl; "require github.com/x v1" +:+ Sample.nl]]
          [])] [].

(** What the walker returns on [Sample.checkout_refused] for three
    periods of thirty weeks. *)
Definition four_snapshots : list (string * Z) :=
  [("c1", 739293); ("c1", 739503); ("c1", 739713); ("c2", 739923)].

End Sample2.

(** The files that a scan looks at: those of the walked directories
    whose path is not excluded, in the order of the walk. *)
Definition scanned_files (dirs : list (string * list file)) : list file :=
  flat_map (fun d => if is_excluded_path (fst d) then [] else snd d) dirs.

(** The calls that one file holds: for a readable file with a call
    extension, the trimmed matches of every call rule. *)
Definition file_calls (re : regex_engine) (f : file) : list string :=
  if endswith_any (fname f) CALL_EXTENSIONS
  then match read_ignore f with
       | Ok content =>
           flat_map (fun p => map Py.strip (re_finditer re p content))
                    CALL_PATTERNS
       | Raise _ => []
       end
  else [].

(** The endpoints that one file holds: for a readable file with an
    endpoint extension, the tagged and normalised matches of every
    endpoint rule. *)
Definition file_endpoints (re : regex_engine) (f : file)
  : list (string * string) :=
  if endswith_any (fname f) ENDPOINT_EXTENSIONS
  then match read_ignore f with
       | Ok content =>
           flat_map (endpoint_matches re content) API_ENDPOINT_PATTERNS
       | Raise _ => []
       end
  else [].

(** The coordinates that one line of a [requirements.txt] gives. *)
Definition requirements_coords (line : string) : list string :=
  if negb (String.eqb (Py.strip line) "") && negb (Py.startswith line "#")
  then [Py.split_head "==" (Py.strip line)]
  else [].

(** The coordinates that one line of a [go.mod] gives. *)
Definition go_mod_coords (line : string) : list string :=
  if Py.startswith line "require"
  then match Py.split_ws line with
       | _ :: p1 :: _ => [p1]
       | _ => []
       end
  else [].

(** The coordinates that a manifest other than [pom.xml] holds: the keys
    of the dependency map, the matches of the build-script rule, and for
    the line-oriented formats the coordinates of the lines read before
    the stream ends or fails. *)
Definition manifest_coords (re : regex_engine) (f : file) : list string :=
  let file := fname f in
  if String.eqb file "package.json" then
    match json_dependencies f with
    | Ok keys => keys
    | Raise _ => []
    end
  else if String.eqb file "requirements.txt" then
    flat_map requirements_coords (lines (read_lines f))
  else if String.eqb file "build.gradle" then
    match read_strict f with
    | Ok content => re_findall re GRADLE_PATTERN false content
    | Raise _ => []
    end
  else if String.eqb file "go.mod" then
    flat_map go_mod_coords (lines (read_lines f))
  else [].

(** * Properties *)

(** ** Loops and handlers *)

Section Loops.

Context {S X : Type}.

Lemma for_each_nil (body : X -> M S unit) s : for_each [] body s = (Ok tt, s).
Proof. reflexivity. Qed.

Lemma for_each_cons (body : X -> M S unit) x l s :
  for_each (x :: l) body s
  = match body x s with
    | (Ok _, s') => for_each l body s'
    | (Raise e, s') => (Raise e, s')
    end.
Proof. reflexivity. Qed.

Lemma for_each_app (body : X -> M S unit) l1 l2 s :
  for_each (l1 ++ l2) body s
  = match for_each l1 body s with
    | (Ok _, s') => for_each l2 body s'
    | (Raise e, s') => (Raise e, s')
    end.
Proof.
  revert s. induction l1 as [|x l1 IH]; intros s; [reflexivity|].
  rewrite <- app_comm_cons, !for_each_cons.
  destruct (body x s) as [[[]|e] s']; [apply IH | reflexivity].
Qed.

(** A loop whose body never raises and keeps an invariant runs to its
    end and keeps it. *)
Lemma for_each_total (I : S -> S -> Prop) (body : X -> M S unit) l :
  (forall s, I s s) ->
  (forall s1 s2 s3, I s1 s2 -> I s2 s3 -> I s1 s3) ->
  (forall x s, x ∈ l -> exists s', body x s = (Ok tt, s') /\ I s s') ->
  forall s, exists s', for_each l body s = (Ok tt, s') /\ I s s'.
Proof.
  intros Hrefl Htrans. induction l as [|x l IH]; intros Hbody s.
  - exists s. split; [reflexivity | apply Hrefl].
  - destruct (Hbody x s) as (s1 & E1 & I1); [left|].
    destruct (IH (fun y s Hy => Hbody y s (list_elem_of_further _ _ _ Hy)) s1)
      as (s2 & E2 & I2).
    exists s2. rewrite for_each_cons, E1. split; [exact E2 | eauto].
Qed.

(** A loop whose body leaves the state as it is leaves it as it is. *)
Lemma for_each_skip (body : X -> M S unit) l s :
  (forall x s, x ∈ l -> body x s = (Ok tt, s)) ->
  for_each l body s = (Ok tt, s).
Proof.
  revert s. induction l as [|x l IH]; intros s H; [reflexivity|].
  rewrite for_each_cons, H by left.
  apply IH. intros y s0 Hy. apply H. now right.
Qed.

Lemma try_except_caught {A : Type} (body handler : M S A) s :
  try_except body any_Exception handler s
  = match body s with
    | (Ok a, s') => (Ok a, s')
    | (Raise _, s') => handler s'
    end.
Proof. reflexivity. Qed.

End Loops.

(** ** Stripping and normalisation *)

Section Strip.

Variable p : ascii -> bool.

Lemma rstrip_keeps_head c s :
  p c = false -> Py.rstrip p (String c s) = String c (Py.rstrip p s).
Proof.
  intros Hc. simpl. rewrite Hc. now destruct (Py.rstrip p s).
Qed.

Lemma lstrip_head s :
  Py.lstrip p s = EmptyString
  \/ exists c r, Py.lstrip p s = String c r /\ p c = false.
Proof.
  induction s as [|c s IH]; simpl; [now left|].
  destruct (p c) eqn:Hc; [exact IH|].
  right. now exists c, s.
Qed.

Lemma lstrip_fix c r : p c = false -> Py.lstrip p (String c r) = String c r.
Proof. intros Hc. simpl. now rewrite Hc. Qed.

Lemma rstrip_cons c s :
  Py.rstrip p (String c s)
  = match Py.rstrip p s with
    | EmptyString => if p c then EmptyString else String c EmptyString
    | r => String c r
    end.
Proof. reflexivity. Qed.

Lemma rstrip_idem s : Py.rstrip p (Py.rstrip p s) = Py.rstrip p s.
Proof.
  induction s as [|c s IH]; [reflexivity|].
  rewrite rstrip_cons.
  destruct (Py.rstrip p s) as [|d r] eqn:Hr.
  - destruct (p c) eqn:Hc; [reflexivity|].
    rewrite rstrip_cons. simpl. now rewrite Hc.
  - rewrite rstrip_cons, IH. reflexivity.
Qed.

(** The result of [strip] neither starts nor ends with a stripped
    character: stripping it again changes nothing. *)
Lemma strip_chars_idem s :
  Py.strip_chars p (Py.strip_chars p s) = Py.strip_chars p s.
Proof.
  unfold Py.strip_chars.
  destruct (lstrip_head s) as [-> | (c & r & -> & Hc)]; [reflexivity|].
  rewrite (rstrip_keeps_head _ _ Hc), (lstrip_fix _ _ Hc).
  rewrite (rstrip_keeps_head _ _ Hc). now rewrite rstrip_idem.
Qed.

Lemma strip_chars_head s :
  Py.strip_chars p s = EmptyString
  \/ exists c r, Py.strip_chars p s = String c r /\ p c = false.
Proof.
  unfold Py.strip_chars.
  destruct (lstrip_head s) as [-> | (c & r & -> & Hc)]; [now left|].
  right. exists c, (Py.rstrip p r). now rewrite (rstrip_keeps_head _ _ Hc).
Qed.

End Strip.

Lemma strip_slash_normalized s :
  Py.strip_chars Py.is_slash ("/" +:+ Py.strip_chars Py.is_slash s)
  = Py.strip_chars Py.is_slash s.
Proof.
  transitivity (Py.strip_chars Py.is_slash (Py.strip_chars Py.is_slash s)).
  - reflexivity.
  - apply strip_chars_idem.
Qed.

(** C6. Endpoint path normalisation is idempotent: for every string [s],
    normalising the normal form of [s] gives it back.  The strings
    [/users/], [users] and [/users] all normalise to [/users].  Every
    result is a normalised path, and normalising a normalised path
    changes nothing. *)
Theorem normalize_path_idempotent :
  (forall s, normalize_path (normalize_path s) = normalize_path s)
  /\ normalize_path "/users/" = "/users"
  /\ normalize_path "users" = "/users"
  /\ normalize_path "/users" = "/users"
  /\ (forall s, is_normalized (normalize_path s) = true)
  /\ (forall t, is_normalized t = true -> normalize_path t = t).
Proof.
  split; [|split; [|split; [|split; [|split]]]]; try reflexivity.
  - intros s. unfold normalize_path at 1 3. f_equal.
    unfold normalize_path. apply strip_slash_normalized.
  - intros s.
    change (normalize_path s) with (String "/" (Py.strip_chars Py.is_slash s)).
    change (String.eqb (Py.strip_chars Py.is_slash
                          (Py.strip_chars Py.is_slash s))
                       (Py.strip_chars Py.is_slash s) = true).
    rewrite strip_chars_idem. apply String.eqb_refl.
  - intros [|c r]; [discriminate|]. cbn [is_normalized].
    intros [Hc Hr]%andb_true_iff. apply String.eqb_eq in Hr.
    unfold Py.is_slash in Hc. apply Ascii.eqb_eq in Hc. subst c.
    unfold normalize_path.
    change (Py.strip_chars Py.is_slash (String "/" r))
      with (Py.strip_chars Py.is_slash r).
    now rewrite Hr.
Qed.

Lemma normalize_path_idempotent_witness :
  is_normalized "/users" = true /\ normalize_path "/users" = "/users".
Proof.
  split; [reflexivity|].
  apply (proj2 (proj2 (proj2 (proj2 (proj2 normalize_path_idempotent))))).
  reflexivity.
Defined.

(** ** Excluded module paths *)

Lemma tree_induction (P : tree -> Prop) :
  (forall fs ds, Forall (fun d => P (snd d)) ds -> P (Dir fs ds)) ->
  forall t, P t.
Proof.
  intros H. fix IH 1. intros [fs ds]. apply H.
  induction ds as [|[n t] ds IHds]; constructor; [apply IH | exact IHds].
Qed.

Lemma prefix_app sub s x :
  String.prefix sub s = true -> String.prefix sub (s +:+ x) = true.
Proof.
  revert s. induction sub as [|c sub IH]; intros [|d s]; simpl; try easy.
  - intros _. now destruct x.
  - destruct (ascii_dec c d); [apply IH | easy].
Qed.

Lemma contains_app sub s x :
  Py.contains sub s = true -> Py.contains sub (s +:+ x) = true.
Proof.
  induction s as [|c s IH]; simpl.
  - rewrite orb_false_r. destruct sub; [|easy]. intros _. now destruct x.
  - intros [H|H]%orb_true_iff; apply orb_true_iff.
    + left. now apply (prefix_app sub (String c s) x).
    + right. now apply IH.
Qed.

Lemma is_excluded_path_app p x :
  is_excluded_path p = true -> is_excluded_path (p +:+ x) = true.
Proof.
  unfold is_excluded_path. rewrite !existsb_exists.
  intros (e & He & Hc). exists e. split; [exact He | now apply contains_app].
Qed.

Lemma path_join_extends a b :
  Py.startswith b "/" = false -> exists x, Py.path_join a b = a +:+ x.
Proof.
  intros Hb. unfold Py.path_join. rewrite Hb.
  destruct (String.eqb a "" || Py.endswith a "/"); eauto.
Qed.

(** Every directory that [os.walk] reaches from an excluded path is
    excluded. *)
Lemma walk_excluded t : forall top,
  names_ok t = true -> is_excluded_path top = true ->
  Forall (fun d => is_excluded_path (fst d) = true) (walk top t).
Proof.
  induction t as [fs ds IH] using tree_induction. intros top Hok Hex.
  simpl. constructor; [exact Hex|].
  simpl in Hok. induction ds as [|[n t] ds IHds]; [constructor|].
  simpl in Hok. apply andb_true_iff in Hok as [[Hn Ht]%andb_true_iff Hds].
  apply Forall_cons in IH as [IHt IHrest].
  simpl. apply Forall_app. split; [|now apply IHds].
  apply IHt; [exact Ht|].
  apply negb_true_iff in Hn.
  destruct (path_join_extends top n Hn) as [x ->].
  now apply is_excluded_path_app.
Qed.

Lemma os_walk_excluded fs path :
  (forall t, dir_at fs path = Some t -> names_ok t = true) ->
  is_excluded_path path = true ->
  Forall (fun d => is_excluded_path (fst d) = true) (os_walk fs path).
Proof.
  intros Hok Hex. unfold os_walk.
  destruct (dir_at fs path) as [t|]; [|constructor].
  apply walk_excluded; auto.
Qed.

Lemma dependency_dirs_excluded re dirs : forall st,
  Forall (fun d => is_excluded_path (fst d) = true) dirs ->
  exists r, for_each dirs (dependency_dir re) st
            = (Ok tt, {| deps := deps st; root := r |}).
Proof.
  induction dirs as [|d dirs IH]; intros st H.
  - exists (root st). now destruct st.
  - apply Forall_cons in H as [Hd H]. rewrite for_each_cons.
    unfold dependency_dir at 1. unfold bind, set_root, modify, continue_, ret.
    simpl. rewrite Hd.
    destruct (IH {| deps := deps st; root := RootStr (fst d) |} H) as [r ->].
    now exists r.
Qed.

(** C10. If the module path handed to the extractor contains one of the
    excluded-directory tokens as a substring, then all three extraction
    operations return empty results, whatever the tree under the path
    holds (its entries being names that do not start with a slash). *)
Theorem excluded_module_path_yields_nothing
    (re : regex_engine) (fs : filesystem) (path : string) :
  (forall t, dir_at fs path = Some t -> names_ok t = true) ->
  is_excluded_path path = true ->
  count_endpoints re fs path = Ok (0%nat, [])
  /\ count_inter_service_calls re fs path = Ok (0%nat, [])
  /\ count_dependencies re fs path = Ok ∅.
Proof.
  intros Hok Hex. pose proof (os_walk_excluded fs path Hok Hex) as Hall.
  repeat split.
  - unfold count_endpoints. rewrite for_each_skip; [reflexivity|].
    intros d s Hd. unfold endpoint_dir.
    rewrite Forall_forall in Hall. now rewrite (Hall d Hd).
  - unfold count_inter_service_calls. rewrite for_each_skip; [reflexivity|].
    intros d s Hd. unfold call_dir.
    rewrite Forall_forall in Hall. now rewrite (Hall d Hd).
  - unfold count_dependencies.
    destruct (dependency_dirs_excluded re _ {| deps := ∅; root := RootStr path |} Hall)
      as [r ->]. reflexivity.
Qed.

Lemma excluded_module_path_witness :
  is_excluded_path "/srv/latest/app" = true
  /\ count_endpoints Sample.no_match Sample.fs_under_test "/srv/latest/app"
     = Ok (0%nat, [])
  /\ count_inter_service_calls Sample.no_match Sample.fs_under_test "/srv/latest/app"
     = Ok (0%nat, [])
  /\ count_dependencies Sample.no_match Sample.fs_under_test "/srv/latest/app"
     = Ok ∅.
Proof.
  split; [reflexivity|].
  apply (excluded_module_path_yields_nothing
           Sample.no_match Sample.fs_under_test "/srv/latest/app").
  - intros t Ht. vm_compute in Ht. injection Ht as <-. reflexivity.
  - reflexivity.
Defined.

(** ** The extractor never raises *)

Create HintDb grows.

Lemma grows_ret {A : Type} (a : A) : grows (ret a).
Proof. intros st. reflexivity. Qed.

Lemma grows_lift {A : Type} (r : res A) : grows (lift r).
Proof. intros st. reflexivity. Qed.

Lemma grows_raise {A : Type} (e : exn) : grows (raise (A := A) e).
Proof. intros st. reflexivity. Qed.

Lemma grows_gets {A : Type} (f : dep_state -> A) : grows (gets f).
Proof. intros st. reflexivity. Qed.

Lemma grows_bind {A B : Type} (m : M dep_state A) (k : A -> M dep_state B) :
  grows m -> (forall a, grows (k a)) -> grows (bind m k).
Proof.
  intros Hm Hk st. unfold bind. specialize (Hm st).
  destruct (m st) as [[a|e] st']; simpl in *; [|exact Hm].
  etransitivity; [exact Hm | apply Hk].
Qed.

Lemma grows_try {A : Type} (body handler : M dep_state A) c :
  grows body -> grows handler -> grows (try_except body c handler).
Proof.
  intros Hb Hh st. unfold try_except. specialize (Hb st).
  destruct (body st) as [[a|e] st']; simpl in *; [exact Hb|].
  destruct (c e); simpl; [|exact Hb].
  etransitivity; [exact Hb | apply Hh].
Qed.

Lemma grows_for_each {X : Type} (l : list X) (body : X -> M dep_state unit) :
  (forall x, grows (body x)) -> grows (for_each l body).
Proof.
  intros H. induction l as [|x l IH]; simpl.
  - apply grows_ret.
  - apply grows_bind; auto.
Qed.

Lemma grows_deps_add c : grows (deps_add c).
Proof. intros st. simpl. set_solver. Qed.

Lemma grows_deps_update l : grows (deps_update l).
Proof. intros st. simpl. set_solver. Qed.

Lemma grows_set_root r : grows (set_root r).
Proof. intros st. reflexivity. Qed.

#[local] Hint Resolve grows_ret grows_lift grows_raise grows_gets grows_bind
  grows_try grows_for_each grows_deps_add grows_deps_update grows_set_root
  : grows.

Ltac grows_cases :=
  repeat first
    [ progress (intros)
    | match goal with
      | |- grows (match ?x with _ => _ end) => destruct x
      | |- grows (if ?b then _ else _) => destruct b
      end
    | solve [auto with grows]
    | apply grows_bind
    | apply grows_try
    | apply grows_for_each ].

Lemma grows_pom_dependency n : grows (pom_dependency n).
Proof. unfold pom_dependency. grows_cases. Qed.

Lemma grows_requirements_line l : grows (requirements_line l).
Proof. unfold requirements_line. grows_cases. Qed.

Lemma grows_go_mod_line l : grows (go_mod_line l).
Proof. unfold go_mod_line. grows_cases. Qed.

#[local] Hint Resolve grows_pom_dependency grows_requirements_line
  grows_go_mod_line : grows.

Lemma grows_dependency_file re f : grows (dependency_file re f).
Proof.
  unfold dependency_file, continue_, pom_body, package_json_body,
    requirements_body, gradle_body, go_mod_body, for_each_line.
  grows_cases.
Qed.

(** A handler that catches everything and goes on turns any body into a
    computation that returns. *)
Lemma try_continue_returns {S : Type} (body : M S unit) s :
  try_except body any_Exception (ret tt) s = (Ok tt, snd (body s)).
Proof.
  unfold try_except, any_Exception, ret.
  now destruct (body s) as [[[]|e] s'].
Qed.

(** The file loop body, with the first handler resolved: the file is
    skipped when [root] is no longer a path. *)
Lemma dependency_file_unfold re f st :
  dependency_file re f st
  = if String.eqb (fname f) "" then (Ok tt, st)
    else match join_root (root st) (fname f) with
         | Raise _ => (Ok tt, st)
         | Ok _ =>
             (if String.eqb (fname f) "pom.xml" then
                try_except (pom_body f) any_Exception continue_
              else if String.eqb (fname f) "package.json" then
                try_except (package_json_body f) any_Exception continue_
              else if String.eqb (fname f) "requirements.txt" then
                try_except (requirements_body f) any_Exception continue_
              else if String.eqb (fname f) "build.gradle" then
                try_except (gradle_body re f) any_Exception continue_
              else if String.eqb (fname f) "go.mod" then
                try_except (go_mod_body f) any_Exception continue_
              else ret tt) st
         end.
Proof.
  unfold dependency_file, continue_.
  destruct (String.eqb (fname f) ""); [reflexivity|].
  unfold bind at 1, try_except at 1, bind at 1, gets, lift, bind at 1.
  now destruct (join_root (root st) (fname f)).
Qed.

Lemma dependency_file_returns re f st :
  dependency_file re f st = (Ok tt, snd (dependency_file re f st)).
Proof.
  rewrite dependency_file_unfold. unfold continue_.
  destruct (String.eqb (fname f) ""); [reflexivity|].
  destruct (join_root (root st) (fname f)); [|reflexivity].
  repeat match goal with
         | |- context [if ?b then _ else _] => destruct b
         end;
    try (rewrite try_continue_returns; reflexivity); reflexivity.
Qed.

Lemma dependency_dir_returns re d st :
  exists st', dependency_dir re d st = (Ok tt, st').
Proof.
  unfold dependency_dir, bind, set_root, modify, continue_. simpl.
  destruct (is_excluded_path (fst d)); [eexists; reflexivity|].
  destruct (for_each_total (fun _ _ => True) (dependency_file re) (snd d))
    with (s := {| deps := deps st; root := RootStr (fst d) |})
    as (st' & E & _); auto.
  - intros f s _. eexists. split; [apply dependency_file_returns | exact I].
  - eauto.
Qed.

Lemma count_dependencies_returns re fs path :
  exists d, count_dependencies re fs path = Ok d.
Proof.
  unfold count_dependencies.
  destruct (for_each_total (fun _ _ => True) (dependency_dir re) (os_walk fs path))
    with (s := {| deps := ∅; root := RootStr path |}) as (st' & E & _); auto.
  - intros d s _. destruct (dependency_dir_returns re d s) as [s' E]. eauto.
  - rewrite E. eauto.
Qed.

Lemma scan_returns {S : Type} (step : string * list file -> M S unit)
    (per_file : file -> M S unit) dirs s :
  (forall d, step d = if is_excluded_path (fst d) then ret tt
                      else for_each (snd d) per_file) ->
  (forall f s, per_file f s = (Ok tt, snd (per_file f s))) ->
  exists s', for_each dirs step s = (Ok tt, s').
Proof.
  intros Hstep Hfile.
  destruct (for_each_total (fun _ _ => True) step dirs) with (s := s)
    as (s' & E & _); auto; [|eauto].
  intros d s0 _. rewrite Hstep.
  destruct (is_excluded_path (fst d)); [eexists; split; [reflexivity|exact I]|].
  destruct (for_each_total (fun _ _ => True) per_file (snd d)) with (s := s0)
    as (s1 & E1 & _); auto; [|eauto].
  intros f s2 _. eexists. split; [apply Hfile | exact I].
Qed.

Lemma endpoint_file_returns re f u :
  endpoint_file re f u = (Ok tt, snd (endpoint_file re f u)).
Proof.
  unfold endpoint_file. destruct (endswith_any _ _); [|reflexivity].
  now rewrite try_continue_returns.
Qed.

Lemma call_file_returns re f u :
  call_file re f u = (Ok tt, snd (call_file re f u)).
Proof.
  unfold call_file. destruct (endswith_any _ _); [|reflexivity].
  now rewrite try_continue_returns.
Qed.

Lemma count_endpoints_returns re fs path :
  exists n l, count_endpoints re fs path = Ok (n, l).
Proof.
  unfold count_endpoints.
  destruct (scan_returns (endpoint_dir re) (endpoint_file re) (os_walk fs path) ∅)
    as [u ->]; eauto using endpoint_file_returns.
Qed.

Lemma count_inter_service_calls_returns re fs path :
  exists n l, count_inter_service_calls re fs path = Ok (n, l).
Proof.
  unfold count_inter_service_calls.
  destruct (scan_returns (call_dir re) (call_file re) (os_walk fs path) ∅)
    as [u ->]; eauto using call_file_returns.
Qed.

Lemma unreadable_source_contributes_nothing re f :
  is_raise (read_ignore f) = true ->
  (forall u, endpoint_file re f u = (Ok tt, u))
  /\ (forall u, call_file re f u = (Ok tt, u)).
Proof.
  intros H. destruct (read_ignore f) as [c|e] eqn:E; [discriminate|].
  split; intros u.
  - unfold endpoint_file, endpoint_body, try_except, bind, lift.
    rewrite E. now destruct (endswith_any _ _).
  - unfold call_file, call_body, try_except, bind, lift.
    rewrite E. now destruct (endswith_any _ _).
Qed.

Lemma failed_manifest_contributes_nothing re f st :
  manifest_fails_at_once f = true ->
  dependency_file re f st = (Ok tt, st).
Proof.
  rewrite dependency_file_unfold. unfold manifest_fails_at_once, continue_.
  destruct (String.eqb (fname f) ""); [reflexivity|].
  destruct (join_root (root st) (fname f)) as [p|e]; simpl; [|reflexivity].
  unfold stream_fails_at_once, is_raise.
  repeat match goal with
         | |- context [if String.eqb ?a ?b then _ else _] =>
             destruct (String.eqb a b)
         end; try discriminate;
    unfold try_except, pom_body, package_json_body, requirements_body,
      gradle_body, go_mod_body, for_each_line, bind, lift.
  - now destruct (et_dependencies f).
  - now destruct (json_dependencies f).
  - destruct (read_lines f) as [[|l ls] [e|]]; simpl; try discriminate.
    reflexivity.
  - now destruct (read_strict f).
  - destruct (read_lines f) as [[|l ls] [e|]]; simpl; try discriminate.
    reflexivity.
Qed.

(** Once the path of a manifest has been formed, the scan goes on from
    the very state the parsing of that manifest reached, whether the
    parsing returned or raised. *)
Lemma dependency_file_keeps_body_state re f st p :
  join_root (root st) (fname f) = Ok p ->
  (fname f = "pom.xml" ->
     dependency_file re f st = (Ok tt, snd (pom_body f st)))
  /\ (fname f = "package.json" ->
        dependency_file re f st = (Ok tt, snd (package_json_body f st)))
  /\ (fname f = "requirements.txt" ->
        dependency_file re f st = (Ok tt, snd (requirements_body f st)))
  /\ (fname f = "build.gradle" ->
        dependency_file re f st = (Ok tt, snd (gradle_body re f st)))
  /\ (fname f = "go.mod" ->
        dependency_file re f st = (Ok tt, snd (go_mod_body f st))).
Proof.
  intros Hj.
  repeat split; intros Hn; rewrite dependency_file_unfold, Hj, Hn;
    cbn [String.eqb Ascii.eqb Bool.eqb]; apply try_continue_returns.
Qed.

(** A dependency element that raises does so before anything is added. *)
Lemma pom_dependency_raise_unchanged n s e s' :
  pom_dependency n s = (Raise e, s') -> s' = s.
Proof.
  unfold pom_dependency, bind, lift, ret, deps_add, modify, text_strip.
  destruct (scope n) as [[t|]|];
    repeat match goal with
           | |- context [if ?b then _ else _] => destruct b
           | |- context [match ?x with _ => _ end] =>
               match x with
               | groupId _ => destruct x as [[?|]|]
               | artifactId _ => destruct x as [[?|]|]
               | version _ => destruct x as [[?|]|]
               end
           end; intros H; inversion H; reflexivity.
Qed.

(** The elements before the one that raises have been scanned, and the
    loop stops there. *)
Lemma pom_body_stops_at_failure f st ns1 n ns2 s1 e s2 :
  et_dependencies f = Ok (ns1 ++ n :: ns2) ->
  for_each ns1 pom_dependency {| deps := deps st; root := RootElement |}
    = (Ok tt, s1) ->
  pom_dependency n s1 = (Raise e, s2) ->
  pom_body f st = (Raise e, s1).
Proof.
  intros E H1 H2. unfold pom_body, bind, lift, set_root, modify. rewrite E.
  rewrite for_each_app, H1, for_each_cons, H2.
  now rewrite (pom_dependency_raise_unchanged _ _ _ _ H2).
Qed.

(** A stream that stops with an error has had all its lines scanned. *)
Lemma for_each_line_stops_at_failure s body st e s1 :
  tail_error s = Some e ->
  for_each (lines s) body st = (Ok tt, s1) ->
  for_each_line s body st = (Raise e, s1).
Proof.
  intros E H. unfold for_each_line, bind, raise. now rewrite H, E.
Qed.

(** C5, as the code has it.  Each of the three extraction operations
    returns normally on every module path and every tree: no exception
    leaves the extractor.  A source file that cannot be read adds
    nothing to the endpoints or the calls, and a manifest that fails
    before its parser yields a first entry adds nothing to the
    dependencies.  A manifest that fails later is not undone: scanning a
    file never raises and only ever adds coordinates, and the scan goes
    on from exactly the state the parsing had reached when it failed, so
    what was added before the failure stays.  For a Maven descriptor
    that is the state after the dependency elements that precede the
    failing one; for a line-based manifest whose reading stops with an
    error it is the state after all the lines read until then. *)
Theorem extraction_returns_normally
    (re : regex_engine) (fs : filesystem) (path : string) :
  (exists n l, count_endpoints re fs path = Ok (n, l))
  /\ (exists n l, count_inter_service_calls re fs path = Ok (n, l))
  /\ (exists d, count_dependencies re fs path = Ok d)
  /\ (forall f, is_raise (read_ignore f) = true ->
        (forall u, endpoint_file re f u = (Ok tt, u))
        /\ (forall u, call_file re f u = (Ok tt, u)))
  /\ (forall f st, manifest_fails_at_once f = true ->
        dependency_file re f st = (Ok tt, st))
  /\ (forall f st, exists st',
        dependency_file re f st = (Ok tt, st') /\ deps st ⊆ deps st')
  /\ (forall f st p r st1,
        join_root (root st) (fname f) = Ok p ->
        (fname f = "pom.xml" /\ pom_body f st = (r, st1))
        \/ (fname f = "package.json" /\ package_json_body f st = (r, st1))
        \/ (fname f = "requirements.txt" /\ requirements_body f st = (r, st1))
        \/ (fname f = "build.gradle" /\ gradle_body re f st = (r, st1))
        \/ (fname f = "go.mod" /\ go_mod_body f st = (r, st1)) ->
        dependency_file re f st = (Ok tt, st1))
  /\ (forall f st p ns1 n ns2 s1 e s2,
        join_root (root st) (fname f) = Ok p ->
        fname f = "pom.xml" ->
        et_dependencies f = Ok (ns1 ++ n :: ns2) ->
        for_each ns1 pom_dependency {| deps := deps st; root := RootElement |}
          = (Ok tt, s1) ->
        pom_dependency n s1 = (Raise e, s2) ->
        dependency_file re f st = (Ok tt, s1))
  /\ (forall f st p e s1,
        join_root (root st) (fname f) = Ok p ->
        tail_error (read_lines f) = Some e ->
        (fname f = "requirements.txt"
         /\ for_each (lines (read_lines f)) requirements_line st = (Ok tt, s1))
        \/ (fname f = "go.mod"
            /\ for_each (lines (read_lines f)) go_mod_line st = (Ok tt, s1)) ->
        dependency_file re f st = (Ok tt, s1)).
Proof.
  split; [apply count_endpoints_returns|].
  split; [apply count_inter_service_calls_returns|].
  split; [apply count_dependencies_returns|].
  split; [apply unreadable_source_contributes_nothing|].
  split; [intros f st; apply failed_manifest_contributes_nothing|].
  split.
  { intros f st. eexists. split; [apply dependency_file_returns|].
    apply grows_dependency_file. }
  split; [|split].
  - intros f st p r st1 Hj H.
    destruct (dependency_file_keeps_body_state re f st p Hj)
      as (H1 & H2 & H3 & H4 & H5).
    destruct H as [[Hn E]|[[Hn E]|[[Hn E]|[[Hn E]|[Hn E]]]]].
    + now rewrite (H1 Hn), E.
    + now rewrite (H2 Hn), E.
    + now rewrite (H3 Hn), E.
    + now rewrite (H4 Hn), E.
    + now rewrite (H5 Hn), E.
  - intros f st p ns1 n ns2 s1 e s2 Hj Hn E Hfor Hraise.
    destruct (dependency_file_keeps_body_state re f st p Hj) as (H1 & _).
    rewrite (H1 Hn).
    now rewrite (pom_body_stops_at_failure f st ns1 n ns2 s1 e s2 E Hfor Hraise).
  - intros f st p e s1 Hj Etail H.
    destruct (dependency_file_keeps_body_state re f st p Hj)
      as (_ & _ & H3 & _ & H5).
    destruct H as [[Hn E]|[Hn E]].
    + rewrite (H3 Hn). unfold requirements_body.
      now rewrite (for_each_line_stops_at_failure _ _ _ _ _ Etail E).
    + rewrite (H5 Hn). unfold go_mod_body.
      now rewrite (for_each_line_stops_at_failure _ _ _ _ _ Etail E).
Qed.

Lemma extraction_returns_normally_witness :
  (exists d, count_dependencies Sample.no_match Sample.fs_pom_empty_scope "repo"
             = Ok d)
  /\ endpoint_file Sample.no_match (Sample.unreadable "Api.java") ∅ = (Ok tt, ∅)
  /\ dependency_file Sample.no_match (Sample.unreadable "pom.xml")
       {| deps := ∅; root := RootStr "repo" |}
     = (Ok tt, {| deps := ∅; root := RootStr "repo" |})
  /\ dependency_file Sample.no_match Sample.pom_empty_scope
       {| deps := ∅; root := RootStr "repo" |}
     = (Ok tt, {| deps := {[ "org.acme:core:1.0" ]} ∪ ∅; root := RootElement |})
  /\ dependency_file Sample.no_match Sample.requirements_bad_tail
       {| deps := ∅; root := RootStr "repo" |}
     = (Ok tt, {| deps := {[ "flask" ]} ∪ ∅; root := RootStr "repo" |}).
Proof.
  pose proof (extraction_returns_normally
                Sample.no_match Sample.fs_pom_empty_scope "repo")
    as (_ & _ & Hd & Hsrc & Hman & _ & Hbody & Hpom & Hline).
  split; [exact Hd|]. split; [|split; [|split]].
  - apply (Hsrc (Sample.unreadable "Api.java")). reflexivity.
  - apply (Hman (Sample.unreadable "pom.xml")). reflexivity.
  - apply (Hpom Sample.pom_empty_scope _ "repo/pom.xml"
             [Sample.dep "org.acme" "core" (Some "1.0") None]
             (Sample.dep "org.acme" "util" (Some "2.0") (Some None)) []
             _ AttributeError
             {| deps := {[ "org.acme:core:1.0" ]} ∪ ∅; root := RootElement |});
      reflexivity.
  - apply (Hline Sample.requirements_bad_tail _ "repo/requirements.txt"
             UnicodeDecodeError); [reflexivity | reflexivity |].
    left. split; reflexivity.
Defined.

(** C5 as stated fails.  The second dependency element of this
    [pom.xml] has an empty scope element, so reading its text raises
    [AttributeError] inside the [try] block; the error is caught, and the
    coordinate of the first element, added before it, is returned.
    Likewise a [requirements.txt] whose iteration raises
    [UnicodeDecodeError] after its first line keeps the coordinate of
    that line. *)
Lemma failing_manifest_still_contributes :
  pom_body Sample.pom_empty_scope {| deps := ∅; root := RootStr "repo" |}
  = (Raise AttributeError,
     {| deps := {[ "org.acme:core:1.0" ]}; root := RootElement |})
  /\ count_dependencies Sample.no_match Sample.fs_pom_empty_scope "repo"
     = Ok {[ "org.acme:core:1.0" ]}
  /\ requirements_body Sample.requirements_bad_tail
       {| deps := ∅; root := RootStr "repo" |}
     = (Raise UnicodeDecodeError,
        {| deps := {[ "flask" ]}; root := RootStr "repo" |})
  /\ count_dependencies Sample.no_match Sample.fs_requirements_bad_tail "repo"
     = Ok {[ "flask" ]}.
Proof. repeat split; vm_compute; reflexivity. Qed.

(** ** Scope filtering in [pom.xml] *)

Lemma str_in_iff x l : str_in x l = true <-> In x l.
Proof.
  unfold str_in. rewrite existsb_exists. split.
  - intros (y & Hy & E). apply String.eqb_eq in E. now subst.
  - intros H. exists x. split; [exact H | apply String.eqb_refl].
Qed.

Lemma pom_dependency_unwanted g a v t st :
  In (Py.strip t) UNWANTED_SCOPES ->
  pom_dependency (dependency_entry g a v (Some (Some t))) st = (Ok tt, st).
Proof.
  intros H%str_in_iff. unfold pom_dependency, dependency_entry.
  cbn [scope text_strip]. unfold bind, lift, ret. now rewrite H.
Qed.

Lemma pom_dependency_wanted g a v sc st :
  sc = None
  \/ (exists t, sc = Some (Some t) /\ ~ In (Py.strip t) UNWANTED_SCOPES) ->
  pom_dependency (dependency_entry g a v sc) st
  = (Ok tt, with_dep (coordinate g a v) st).
Proof.
  intros [-> | (t & -> & H)].
  - unfold pom_dependency, bind, lift, ret. simpl. now destruct v.
  - rewrite <- str_in_iff in H. apply not_true_is_false in H.
    unfold pom_dependency, dependency_entry.
    cbn [scope text_strip]. unfold bind at 1, bind at 1, lift at 1, ret at 1.
    rewrite H. unfold bind, lift, ret. simpl. now destruct v.
Qed.

Lemma for_each_pom_grows ns st :
  deps st ⊆ deps (snd (for_each ns pom_dependency st)).
Proof. apply (grows_for_each ns pom_dependency grows_pom_dependency). Qed.



(** ** Lines of [requirements.txt] *)

Lemma prefix_iff sep s :
  String.prefix sep s = true <-> exists rest, s = sep +:+ rest.
Proof.
  revert s. induction sep as [|c sep IH]; intros s.
  - split; [intros _; now exists s | intros _; now destruct s].
  - destruct s as [|d s]; simpl.
    + split; [discriminate | intros [rest H]; discriminate H].
    + destruct (ascii_dec c d) as [->|Hne].
      * rewrite IH. split; intros [rest H]; exists rest.
        -- now rewrite H.
        -- now injection H.
      * split; [discriminate|]. intros [rest H]. injection H as H1 H2.
        now destruct Hne.
Qed.

Lemma split_head_cons sep c s :
  String.prefix sep (String c s) = false ->
  Py.split_head sep (String c s) = String c (Py.split_head sep s).
Proof. intros H. cbn [Py.split_head]. now rewrite H. Qed.

(** [split_head] computes the text before the first occurrence of a
    non-empty separator. *)
Lemma split_head_spec sep s :
  sep <> EmptyString -> text_before_first sep s (Py.split_head sep s).
Proof.
  intros Hsep. induction s as [|c s IH].
  - right. assert (E : String.prefix sep "" = false) by now destruct sep.
    unfold Py.split_head. rewrite E. split; [reflexivity|].
    intros [|x p] q H; [now destruct sep | discriminate H].
  - destruct (String.prefix sep (String c s)) eqn:E.
    + left. apply prefix_iff in E as [rest E].
      assert (E' : String.prefix sep (String c s) = true)
        by (apply prefix_iff; now exists rest).
      destruct sep as [|x sep]; [easy|].
      cbn [Py.split_head]. rewrite E'. exists rest.
      split; [exact E | intros; simpl; lia].
    + rewrite (split_head_cons _ _ _ E).
      destruct IH as [(rest & Hs & Hmin) | (Hr & Hno)].
      * left. exists rest.
        split; [change (String c s
                        = String c (Py.split_head sep s +:+ sep +:+ rest));
                now f_equal|].
        intros [|x p] q H.
        -- exfalso. assert (String.prefix sep (String c s) = true)
             by (apply prefix_iff; now exists q). congruence.
        -- injection H as -> H. cbn [String.length].
           apply le_n_S. now apply (Hmin p q).
      * right. split; [now rewrite Hr|].
        intros [|x p] q H.
        -- assert (String.prefix sep (String c s) = true)
             by (apply prefix_iff; now exists q). congruence.
        -- injection H as -> H. now apply (Hno p q).
Qed.

Lemma requirements_line_cases line st :
  requirements_line line st
  = if negb (String.eqb (Py.strip line) "") && negb (Py.startswith line "#")
    then (Ok tt, with_dep (Py.split_head "==" (Py.strip line)) st)
    else (Ok tt, st).
Proof. unfold requirements_line. now destruct (_ && _). Qed.

Lemma requirements_lines_deps ls : forall st,
  exists st', for_each ls requirements_line st = (Ok tt, st')
    /\ root st' = root st
    /\ forall c, c ∈ deps st' <->
         c ∈ deps st
         \/ exists line, line ∈ ls /\ Py.strip line <> EmptyString
              /\ Py.startswith line "#" = false
              /\ c = Py.split_head "==" (Py.strip line).
Proof.
  induction ls as [|l ls IH]; intros st.
  - exists st. repeat split; auto.
    intros [H | (line & Hin & _)]; [exact H | now apply elem_of_nil in Hin].
  - rewrite for_each_cons, requirements_line_cases.
    destruct (negb (String.eqb (Py.strip l) "") && negb (Py.startswith l "#"))
      eqn:E.
    + apply andb_true_iff in E as [E1 E2].
      apply negb_true_iff in E1, E2. apply String.eqb_neq in E1.
      destruct (IH (with_dep (Py.split_head "==" (Py.strip l)) st))
        as (st' & -> & Hr & Hd).
      exists st'. split; [reflexivity|]. split; [exact Hr|].
      intros c. rewrite Hd. simpl. rewrite elem_of_union, elem_of_singleton.
      split.
      * intros [[-> | H] | (line & Hin & H)]; auto.
        -- right. exists l. repeat split; auto. left.
        -- right. exists line. split; [now right | exact H].
      * intros [H | (line & Hin & Hs & Hc & ->)]; auto.
        apply elem_of_cons in Hin as [-> | Hin]; auto.
        right. exists line. auto.
    + destruct (IH st) as (st' & -> & Hr & Hd).
      exists st'. split; [reflexivity|]. split; [exact Hr|].
      intros c. rewrite Hd. split.
      * intros [H | (line & Hin & H)]; auto.
        right. exists line. split; [now right | exact H].
      * intros [H | (line & Hin & Hs & Hc & ->)]; auto.
        apply elem_of_cons in Hin as [-> | Hin].
        -- exfalso. apply String.eqb_neq in Hs. now rewrite Hs, Hc in E.
        -- right. exists line. auto.
Qed.



(** A line whose [#] comes after leading blanks is not taken for a
    comment: it is stripped and added like any other line. *)
Example indented_comment_is_added :
  requirements_line ("  # pinned" +:+ Sample.nl)
    {| deps := ∅; root := RootStr "repo" |}
  = (Ok tt, with_dep "# pinned" {| deps := ∅; root := RootStr "repo" |}).
Proof. reflexivity. Qed.

(** ** Manifests listed after a [pom.xml] *)

Lemma pom_dependency_root n st : root (snd (pom_dependency n st)) = root st.
Proof.
  unfold pom_dependency, bind, lift, ret, deps_add, modify, text_strip.
  destruct (scope n) as [[t|]|], (groupId n) as [[g|]|],
    (artifactId n) as [[a|]|], (version n) as [[v|]|];
    try reflexivity;
    match goal with
    | |- context [if ?b then _ else _] => now destruct b
    end.
Qed.

Lemma for_each_pom_root ns : forall st,
  root (snd (for_each ns pom_dependency st)) = root st.
Proof.
  induction ns as [|n ns IH]; intros st; [reflexivity|].
  rewrite for_each_cons. pose proof (pom_dependency_root n st) as H.
  destruct (pom_dependency n st) as [[[]|e] st1]; simpl in H;
    [now rewrite IH | exact H].
Qed.

(** Once [root] holds the XML element, the file is skipped. *)
Lemma skipped_once_root_is_element re f st :
  root st = RootElement -> dependency_file re f st = (Ok tt, st).
Proof.
  intros H. rewrite dependency_file_unfold, H. simpl.
  now destruct (String.eqb (fname f) "").
Qed.

(** A [pom.xml] that parses leaves [root] bound to its root element. *)
Lemma parsed_pom_rebinds_root re f nodes r st :
  fname f = "pom.xml" -> et_dependencies f = Ok nodes -> root st = RootStr r ->
  root (snd (dependency_file re f st)) = RootElement.
Proof.
  intros Hn Hp Hr. rewrite dependency_file_unfold, Hn, Hr.
  cbn [String.eqb Ascii.eqb Bool.eqb join_root]. unfold continue_.
  rewrite try_continue_returns. cbn [snd].
  unfold pom_body, bind at 1, lift. rewrite Hp.
  unfold bind, set_root, modify.
  pose proof (for_each_pom_root nodes {| deps := deps st; root := RootElement |}) as H.
  destruct (for_each nodes pom_dependency _) as [[[]|e] st1]; exact H.
Qed.

Lemma skipped_all_once_root_is_element re l : forall st,
  root st = RootElement -> for_each l (dependency_file re) st = (Ok tt, st).
Proof.
  induction l as [|f l IH]; intros st H; [reflexivity|].
  rewrite for_each_cons, skipped_once_root_is_element by exact H.
  now apply IH.
Qed.

(** In one directory, whatever is listed after a [pom.xml] that parses
    adds nothing. *)
Lemma listing_after_parsed_pom re f nodes r rest st :
  fname f = "pom.xml" -> et_dependencies f = Ok nodes -> root st = RootStr r ->
  for_each (f :: rest) (dependency_file re) st = dependency_file re f st.
Proof.
  intros Hn Hp Hr. rewrite for_each_cons.
  pose proof (parsed_pom_rebinds_root re f nodes r st Hn Hp Hr) as H.
  pose proof (dependency_file_returns re f st) as E.
  destruct (dependency_file re f st) as [x st1]. simpl in H, E.
  injection E as ->. now apply skipped_all_once_root_is_element.
Qed.

(** C3, at a failing input.  The directory lists a [pom.xml] that parses
    and declares no dependency, then a [requirements.txt] pinning
    [flask].  Alone in the directory the [requirements.txt] contributes
    [flask]; listed after the [pom.xml] it contributes nothing, although
    it reads and parses as before. *)
Theorem manifest_listed_after_pom_is_dropped :
  count_dependencies Sample.no_match Sample.requirements_alone "repo"
  = Ok {[ "flask" ]}
  /\ count_dependencies Sample.no_match Sample.pom_then_requirements "repo"
     = Ok ∅
  /\ is_excluded_path "repo" = false
  /\ manifest_fails_at_once Sample.requirements_txt = false.
Proof. repeat split; vm_compute; reflexivity. Qed.

(** ** Counts against cardinalities *)

Lemma fold_add_module ms : forall t,
  let r := fold_left (fun t m => add_module m t) ms t in
  total_eps r = (total_eps t + list_sum (map ep_count ms))%nat
  /\ all_deps r = ⋃ (map mod_deps ms) ∪ all_deps t
  /\ all_calls r = ⋃ (map (fun m => list_to_set (calls m)) ms) ∪ all_calls t
  /\ all_eps r = ⋃ (map (fun m => list_to_set (eps m)) ms) ∪ all_eps t.
Proof.
  induction ms as [|m ms IH]; intros t; simpl.
  - repeat split; try lia; set_solver.
  - destruct (IH (add_module m t)) as (H1 & H2 & H3 & H4).
    rewrite H1, H2, H3, H4. simpl. repeat split; try lia; set_solver.
Qed.

(** What the row records: the dependency and call counts are the sizes
    of the unions over the modules; the endpoint count is the sum of the
    per-module counts. *)
Lemma row_counts repo_path date ms :
  let r := make_row repo_path date (aggregate ms) in
  r_dependencies r = size (⋃ (map mod_deps ms) : gset string)
  /\ r_calls r = size (⋃ (map (fun m => list_to_set (calls m)) ms) : gset string)
  /\ r_endpoints r = list_sum (map ep_count ms).
Proof.
  unfold aggregate. destruct (fold_add_module ms totals0) as (H1 & H2 & H3 & _).
  simpl. rewrite H1, H2, H3. simpl.
  repeat split; f_equal; set_solver.
Qed.

(** C2, at a failing input.  Two modules declare the same route
    [GET /x].  Extraction returns the count 1 and the list [GET /x] for
    each; the union of the endpoint sets has one element, and the row
    records 2 endpoints. *)
Theorem endpoint_count_is_not_the_cardinality :
  extract Sample.get_x_engine Sample.two_modules "repo/a" = Ok Sample.one_get_x
  /\ extract Sample.get_x_engine Sample.two_modules "repo/b" = Ok Sample.one_get_x
  /\ module_paths Sample.two_modules "repo" = ["repo/a"; "repo/b"]
  /\ size (all_eps (aggregate [Sample.one_get_x; Sample.one_get_x])) = 1%nat
  /\ (exists r, analyze_row Sample.get_x_engine Sample.two_modules "repo" 0 = Ok r
        /\ r_endpoints r = 2%nat
        /\ r_endpoint_list r = dq +:+ "GET /x" +:+ dq
        /\ r_dependencies r = 0%nat /\ r_calls r = 0%nat).
Proof.
  repeat split; try (vm_compute; reflexivity).
  eexists. split; [vm_compute; reflexivity|].
  repeat split; vm_compute; reflexivity.
Qed.

(** ** The history walker: branch discovery *)

Lemma logged_logged w l1 l2 : logged (logged w l1) l2 = logged w (l1 ++ l2).
Proof. unfold logged. simpl. now rewrite app_assoc. Qed.

Lemma log_logged e w : log e w = (Ok tt, logged w [e]).
Proof. reflexivity. Qed.

(** One probe: the command is issued; a zero exit status leaves the loop
    with the branch, the caught [CalledProcessError] moves on to the next
    candidate. *)
Lemma probe_step E b rest w :
  probe_branches E (b :: rest) w
  = if git_verify E b then (Ok (Some b), logged w [GitVerify b])
    else probe_branches E rest (logged w [GitVerify b]).
Proof.
  cbn [probe_branches].
  unfold bind at 1, try_except, bind at 1, git_rev_parse_verify, bind at 1.
  rewrite log_logged. now destruct (git_verify E b).
Qed.

Lemma get_commits_after_start E frequency periods start w :
  start_date (utcnow E) frequency periods = Ok start ->
  get_commits E frequency periods w
  = match probe_branches E CANDIDATE_BRANCHES w with
    | (Ok (Some b), w') =>
        resolve_periods E b start (period_length frequency) []
                        (py_range (periods + 1)) w'
    | (Ok None, w') => (Ok [], w')
    | (Raise e, w') => (Raise e, w')
    end.
Proof.
  intros H. unfold get_commits, bind, lift. rewrite H.
  now destruct (probe_branches E CANDIDATE_BRANCHES w) as [[[b|]|e] w'].
Qed.

(** C7, as the code has it.  Once line 156 has computed the start date,
    the walker probes [main], [master] and [develop] in this order, stops
    at the first that [rev-parse --verify] accepts and resolves every
    period on that branch; when none of the three is accepted it returns
    the empty list after the three probes, and raises nothing. *)
Theorem primary_branch_discovery
    (E : env) (frequency : string) (periods start : Z) (w : world) :
  start_date (utcnow E) frequency periods = Ok start ->
  let resolve b probes :=
    resolve_periods E b start (period_length frequency) []
                    (py_range (periods + 1)) (logged w probes) in
  (git_verify E "main" = true ->
     get_commits E frequency periods w = resolve "main" [GitVerify "main"])
  /\ (git_verify E "main" = false -> git_verify E "master" = true ->
        get_commits E frequency periods w
        = resolve "master" [GitVerify "main"; GitVerify "master"])
  /\ (git_verify E "main" = false -> git_verify E "master" = false ->
      git_verify E "develop" = true ->
        get_commits E frequency periods w
        = resolve "develop"
            [GitVerify "main"; GitVerify "master"; GitVerify "develop"])
  /\ (git_verify E "main" = false -> git_verify E "master" = false ->
      git_verify E "develop" = false ->
        get_commits E frequency periods w
        = (Ok [], logged w [GitVerify "main"; GitVerify "master";
                            GitVerify "develop"])).
Proof.
  intros Hs resolve. unfold resolve.
  rewrite (get_commits_after_start _ _ _ _ _ Hs). unfold CANDIDATE_BRANCHES.
  repeat split.
  - intros H1. now rewrite probe_step, H1.
  - intros H1 H2. now rewrite probe_step, H1, probe_step, H2, logged_logged.
  - intros H1 H2 H3.
    now rewrite probe_step, H1, probe_step, H2, probe_step, H3, !logged_logged.
  - intros H1 H2 H3.
    rewrite probe_step, H1, probe_step, H2, probe_step, H3, !logged_logged.
    reflexivity.
Qed.

Lemma primary_branch_discovery_witness :
  get_commits Sample.no_primary_branch "monthly" 24 Sample.fresh
  = (Ok [], logged Sample.fresh [GitVerify "main"; GitVerify "master";
                                 GitVerify "develop"])
  /\ get_commits Sample.young_repo "weekly" 0 Sample.fresh
     = resolve_periods Sample.young_repo "main"
         (Sample.day_2026_11_02 * US_PER_DAY + 43200000000)
         (period_length "weekly") [] (py_range 1)
         (logged Sample.fresh [GitVerify "main"]).
Proof.
  split.
  - apply (primary_branch_discovery Sample.no_primary_branch "monthly" 24
             (Sample.noon_2026_11_04 - 24 * 30 * 7 * US_PER_DAY) Sample.fresh);
      reflexivity.
  - apply (primary_branch_discovery Sample.young_repo "weekly" 0
             (Sample.day_2026_11_02 * US_PER_DAY + 43200000000) Sample.fresh);
      reflexivity.
Defined.

(** C7 as stated fails for a period count whose start date is not a
    representable [datetime]: line 156 raises [OverflowError] before any
    branch is probed, also in a repository with none of the three
    branches.  Here 200000 weeks lead back before year 1. *)
Lemma no_branch_with_unrepresentable_start_raises :
  git_verify Sample.no_primary_branch "main" = false
  /\ git_verify Sample.no_primary_branch "master" = false
  /\ git_verify Sample.no_primary_branch "develop" = false
  /\ get_commits Sample.no_primary_branch "weekly" 200000 Sample.fresh
     = (Raise OverflowError, Sample.fresh).
Proof. repeat split; vm_compute; reflexivity. Qed.

(** ** The history walker: snapshot dates *)

Lemma py_range_sorted_from n : forall a,
  StronglySorted Z.le (map Z.of_nat (seq a n)).
Proof.
  induction n as [|n IH]; intros a; simpl; constructor; [apply IH|].
  apply Forall_forall. intros x Hx.
  apply list_elem_of_In, in_map_iff in Hx as (k & <- & Hk).
  apply in_seq in Hk. lia.
Qed.

Lemma py_range_sorted n : StronglySorted Z.le (py_range n).
Proof. apply py_range_sorted_from. Qed.

Lemma period_length_nonneg frequency : 0 <= period_length frequency.
Proof. unfold period_length. now destruct (String.eqb frequency "weekly"). Qed.

Lemma date_at_mono start delta i j :
  0 <= delta -> i <= j -> date_at start delta i <= date_at start delta j.
Proof.
  intros Hd Hij. unfold date_at, strftime_date.
  apply Z.div_le_mono; [reflexivity | nia].
Qed.

Lemma timedelta_mul_ok td k r : timedelta_mul td k = Ok r -> r = td * k.
Proof.
  unfold timedelta_mul. destruct (_ && _); [|discriminate].
  now intros [= <-].
Qed.

Lemma datetime_add_ok t td r :
  datetime_add t td = Ok r -> r = t + td /\ datetime_ok r.
Proof.
  unfold datetime_add, datetime_ok.
  destruct (_ && _) eqn:E; [|discriminate].
  intros [= <-]. apply andb_true_iff in E as [E1 E2]. lia.
Qed.

(** One period either leaves the list as it is or appends one snapshot,
    dated at the day of that period. *)
Lemma resolve_period_result E b start delta commits i w cs w' :
  resolve_period E b start delta commits i w = (Ok cs, w') ->
  cs = commits \/ exists c, cs = commits ++ [(c, date_at start delta i)].
Proof.
  unfold resolve_period, bind at 1, lift.
  destruct (timedelta_mul delta i) as [step|e] eqn:Em; [|discriminate].
  apply timedelta_mul_ok in Em as ->.
  unfold bind at 1.
  destruct (datetime_add start (delta * i)) as [d|e] eqn:Ea; [|discriminate].
  apply datetime_add_ok in Ea as [-> _].
  unfold try_except, bind at 1, git_rev_list_before, bind at 1.
  rewrite log_logged.
  destruct (git_rev_list E _ b) as [out|]; simpl.
  - destruct (String.eqb (Py.strip out) ""); intros [= <- _]; eauto.
  - intros [= <- _]. now left.
Qed.

Lemma resolve_periods_sorted E b start delta l :
  0 <= delta -> StronglySorted Z.le l ->
  forall commits w cs w',
    StronglySorted Z.le (map snd commits) ->
    (forall d i, d ∈ map snd commits -> i ∈ l -> d <= date_at start delta i) ->
    resolve_periods E b start delta commits l w = (Ok cs, w') ->
    StronglySorted Z.le (map snd cs).
Proof.
  intros Hd Hl. induction Hl as [|i l Hl IH Hi]; intros commits w cs w' Hs Hb.
  - simpl. now intros [= <- _].
  - cbn [resolve_periods]. unfold bind at 1.
    destruct (resolve_period E b start delta commits i w) as [[cs1|e] w1] eqn:E1;
      [|discriminate].
    apply IH.
    + apply resolve_period_result in E1 as [-> | (c & ->)]; [exact Hs|].
      rewrite map_app. apply StronglySorted_app_2.
      * intros d1 d2 H1 ->%list_elem_of_singleton. apply Hb; [exact H1 | left].
      * exact Hs.
      * repeat constructor.
    + intros d j Hdin Hj.
      apply resolve_period_result in E1 as [-> | (c & ->)].
      * apply Hb; [exact Hdin | now right].
      * rewrite map_app in Hdin. apply elem_of_app in Hdin as [Hdin | Hdin].
        -- apply Hb; [exact Hdin | now right].
        -- apply list_elem_of_singleton in Hdin as ->.
           apply date_at_mono; [exact Hd|].
           rewrite Forall_forall in Hi. now apply Hi.
Qed.

Lemma probe_branches_finds E l : forall w,
  exists w', probe_branches E l w = (Ok (List.find (git_verify E) l), w').
Proof.
  induction l as [|b l IH]; intros w; [eexists; reflexivity|].
  rewrite probe_step. simpl.
  destruct (git_verify E b); [eexists; reflexivity | apply IH].
Qed.

Lemma get_commits_sorted E frequency periods w snaps w' :
  get_commits E frequency periods w = (Ok snaps, w') ->
  StronglySorted Z.le (map snd snaps).
Proof.
  unfold get_commits, bind at 1, lift.
  destruct (start_date _ _ _) as [start|e]; [|discriminate].
  unfold bind at 1.
  destruct (probe_branches E CANDIDATE_BRANCHES w) as [[[b|]|e] w1];
    [| intros [= <- _]; constructor | discriminate].
  apply resolve_periods_sorted.
  - apply period_length_nonneg.
  - apply py_range_sorted.
  - constructor.
  - intros d i Hd. now apply elem_of_nil in Hd.
Qed.

Lemma timedelta_mul_zero td : timedelta_mul td 0 = Ok 0.
Proof. unfold timedelta_mul. now rewrite Z.mul_0_r. Qed.

Lemma datetime_add_zero t : datetime_ok t -> datetime_add t 0 = Ok t.
Proof.
  intros [H1 H2]. unfold datetime_add. rewrite Z.add_0_r.
  apply Z.leb_le in H1. apply Z.ltb_lt in H2. now rewrite H1, H2.
Qed.

Lemma anchor_date_ok now frequency :
  datetime_ok now ->
  exists anchor, anchor_date now frequency = Ok anchor /\ datetime_ok anchor
    /\ start_date now frequency 0 = Ok anchor.
Proof.
  intros Hn. unfold datetime_ok in *.
  assert (Ha : exists anchor,
             anchor_date now frequency = Ok anchor /\ datetime_ok anchor).
  { unfold anchor_date. destruct (String.eqb frequency "weekly"); [|eauto].
    unfold datetime_sub, datetime_add, timedelta_days, weekday.
    assert (Hu : 0 < US_PER_DAY) by reflexivity.
    pose proof (Z.mod_pos_bound (now / US_PER_DAY) 7 ltac:(lia)) as Hm.
    pose proof (Z.mul_div_le now US_PER_DAY Hu) as Hq.
    assert (0 <= now / US_PER_DAY) by (apply Z.div_pos; lia).
    set (r := now + - ((now / US_PER_DAY) mod 7 * US_PER_DAY)).
    pose proof (Z.mod_le (now / US_PER_DAY) 7 ltac:(lia) ltac:(lia)) as Hle.
    assert (Hmu : (now / US_PER_DAY) mod 7 * US_PER_DAY
                  <= now / US_PER_DAY * US_PER_DAY)
      by (apply Z.mul_le_mono_nonneg_r; lia).
    assert (Hmu0 : 0 <= (now / US_PER_DAY) mod 7 * US_PER_DAY)
      by (apply Z.mul_nonneg_nonneg; lia).
    assert (Hr : 0 <= r < DATETIME_DAYS * US_PER_DAY) by (unfold r; lia).
    exists r. split; [|exact Hr].
    destruct Hr as [Hr1 Hr2].
    apply Z.leb_le in Hr1. apply Z.ltb_lt in Hr2. now rewrite Hr1, Hr2. }
  destruct Ha as (anchor & Ea & Hok). exists anchor. repeat split; auto.
  - apply Hok.
  - apply Hok.
  - unfold start_date. rewrite Ea, timedelta_mul_zero.
    unfold datetime_sub. now apply datetime_add_zero.
Qed.

(** With no period to go back, the loop runs once, for the anchor. *)
Lemma resolve_anchor_only E b anchor delta w :
  datetime_ok anchor ->
  resolve_periods E b anchor delta [] (py_range (0 + 1)) w
  = (Ok (snapshot_at E (strftime_date anchor) b),
     logged w [GitRevList (strftime_date anchor) b]).
Proof.
  intros Hok.
  change (py_range (0 + 1)) with [0]. cbn [resolve_periods].
  unfold resolve_period. rewrite timedelta_mul_zero.
  unfold bind at 1, bind at 1, lift at 1.
  unfold bind at 1, lift at 1. rewrite (datetime_add_zero _ Hok).
  unfold try_except, bind at 1, git_rev_list_before, bind at 1.
  rewrite log_logged. unfold snapshot_at.
  destruct (git_rev_list E (strftime_date anchor) b) as [out|]; simpl;
    [|reflexivity].
  now destruct (String.eqb (Py.strip out) "").
Qed.

Lemma timedelta_mul_in_range td k :
  - (TIMEDELTA_MAX_DAYS * US_PER_DAY) <= td * k
    < (TIMEDELTA_MAX_DAYS + 1) * US_PER_DAY ->
  timedelta_mul td k = Ok (td * k).
Proof.
  intros [H1 H2]. unfold timedelta_mul.
  apply Z.leb_le in H1. apply Z.ltb_lt in H2. now rewrite H1, H2.
Qed.

Lemma timedelta_mul_range td k r :
  timedelta_mul td k = Ok r ->
  - (TIMEDELTA_MAX_DAYS * US_PER_DAY) <= td * k
    < (TIMEDELTA_MAX_DAYS + 1) * US_PER_DAY.
Proof.
  unfold timedelta_mul. destruct (_ && _) eqn:E; [|discriminate].
  intros _. apply andb_true_iff in E as [E1 E2]. lia.
Qed.

Lemma datetime_add_in_range t td :
  datetime_ok (t + td) -> datetime_add t td = Ok (t + td).
Proof.
  intros [H1 H2]. unfold datetime_add.
  apply Z.leb_le in H1. apply Z.ltb_lt in H2. now rewrite H1, H2.
Qed.

(** A period whose date is representable is resolved without an
    exception: the only error of [rev-list] is the one line 172
    catches. *)
Lemma resolve_period_returns E b start delta commits i w :
  - (TIMEDELTA_MAX_DAYS * US_PER_DAY) <= delta * i
    < (TIMEDELTA_MAX_DAYS + 1) * US_PER_DAY ->
  datetime_ok (start + delta * i) ->
  exists cs w', resolve_period E b start delta commits i w = (Ok cs, w').
Proof.
  intros Hm Ha. unfold resolve_period.
  rewrite (timedelta_mul_in_range _ _ Hm).
  unfold bind at 1, lift at 1. unfold bind at 1, lift at 1.
  rewrite (datetime_add_in_range _ _ Ha).
  unfold try_except, bind at 1, git_rev_list_before, bind at 1.
  rewrite log_logged.
  destruct (git_rev_list E _ b) as [out|]; simpl; eauto.
Qed.

Lemma resolve_periods_returns E b start delta l :
  (forall i, i ∈ l ->
     - (TIMEDELTA_MAX_DAYS * US_PER_DAY) <= delta * i
       < (TIMEDELTA_MAX_DAYS + 1) * US_PER_DAY
     /\ datetime_ok (start + delta * i)) ->
  forall commits w,
    exists cs w', resolve_periods E b start delta commits l w = (Ok cs, w').
Proof.
  induction l as [|i l IH]; intros Hl commits w; [simpl; eauto|].
  cbn [resolve_periods]. unfold bind at 1.
  destruct (Hl i) as [Hm Ha]; [left|].
  destruct (resolve_period_returns E b start delta commits i w Hm Ha)
    as (cs & w1 & ->).
  apply IH. intros j Hj. apply Hl. now right.
Qed.

Lemma elem_of_py_range i n : i ∈ py_range n -> 0 <= i < n.
Proof.
  unfold py_range. intros H.
  apply list_elem_of_In, in_map_iff in H as (k & <- & Hk).
  apply in_seq in Hk. lia.
Qed.

(** Once the start date is representable, so is every date of the
    loop, and the walker returns. *)
Lemma get_commits_returns E frequency periods start w :
  datetime_ok (utcnow E) ->
  start_date (utcnow E) frequency periods = Ok start ->
  exists snaps w', get_commits E frequency periods w = (Ok snaps, w').
Proof.
  intros Hnow Hs. rewrite (get_commits_after_start _ _ _ _ _ Hs).
  destruct (probe_branches_finds E CANDIDATE_BRANCHES w) as [w1 ->].
  destruct (List.find _ _) as [b|]; [|eauto].
  apply resolve_periods_returns. intros i Hi%elem_of_py_range.
  revert Hs. unfold start_date.
  destruct (anchor_date (utcnow E) frequency) as [anchor|e] eqn:Ea;
    [|discriminate].
  assert (Hanchor : datetime_ok anchor).
  { revert Ea. unfold anchor_date.
    destruct (String.eqb frequency "weekly").
    - unfold datetime_sub. now intros [_ H]%datetime_add_ok.
    - now intros [= <-]. }
  destruct (timedelta_mul (period_length frequency) periods) as [back|e] eqn:Em;
    [|discriminate].
  pose proof (timedelta_mul_range _ _ _ Em) as Hr.
  apply timedelta_mul_ok in Em as ->.
  unfold datetime_sub. intros [-> Hstart]%datetime_add_ok.
  pose proof (period_length_nonneg frequency) as Hd.
  unfold datetime_ok in *.
  assert (0 <= period_length frequency * i) by nia.
  assert (period_length frequency * i <= period_length frequency * periods)
    by nia.
  split; [|lia].
  assert (0 <= TIMEDELTA_MAX_DAYS * US_PER_DAY) by (vm_compute; discriminate).
  lia.
Qed.

Lemma snapshot_at_props E day b :
  (length (snapshot_at E day b) <= 1)%nat
  /\ (forall s, s ∈ snapshot_at E day b -> snd s = day)
  /\ (forall out, git_rev_list E day b = Some out ->
        Py.strip out <> EmptyString ->
        snapshot_at E day b = [(Py.strip out, day)])
  /\ (git_rev_list E day b = Some EmptyString -> snapshot_at E day b = []).
Proof.
  unfold snapshot_at. destruct (git_rev_list E day b) as [out|].
  - destruct (String.eqb (Py.strip out) "") eqn:Eo.
    + apply String.eqb_eq in Eo.
      split; [simpl; lia|].
      split; [intros s Hs; now apply elem_of_nil in Hs|].
      split; [|reflexivity]. intros out' [= <-] Hne. now destruct Hne.
    + split; [simpl; lia|].
      split; [now intros s ->%list_elem_of_singleton|].
      split; [now intros out' [= <-]|].
      intros [= ->]. discriminate Eo.
  - split; [simpl; lia|].
    split; [intros s Hs; now apply elem_of_nil in Hs|].
    split; discriminate.
Qed.

(** C4, as the code has it.  Whatever the frequency and the period
    count, the walker returns as soon as its start date is a
    representable [datetime], and the dates of the snapshots it returns
    are non-decreasing.  With 0 periods it returns at most one snapshot,
    dated at the anchor: exactly one when one of the candidate branches
    exists and [rev-list] prints a commit for the anchor date, none when
    no branch exists or no commit is that old. *)
Theorem snapshot_dates_non_decreasing
    (E : env) (frequency : string) (periods : Z) (w : world) :
  0 <= periods -> datetime_ok (utcnow E) ->
  (forall snaps w',
     get_commits E frequency periods w = (Ok snaps, w') ->
     StronglySorted Z.le (map snd snaps))
  /\ (forall start,
        start_date (utcnow E) frequency periods = Ok start ->
        exists snaps w', get_commits E frequency periods w = (Ok snaps, w'))
  /\ (periods = 0 ->
      exists anchor snaps w',
        anchor_date (utcnow E) frequency = Ok anchor
        /\ get_commits E frequency periods w = (Ok snaps, w')
        /\ (length snaps <= 1)%nat
        /\ (forall s, s ∈ snaps -> snd s = strftime_date anchor)
        /\ (forall b out,
              List.find (git_verify E) CANDIDATE_BRANCHES = Some b ->
              git_rev_list E (strftime_date anchor) b = Some out ->
              Py.strip out <> EmptyString ->
              snaps = [(Py.strip out, strftime_date anchor)])
        /\ (List.find (git_verify E) CANDIDATE_BRANCHES = None -> snaps = [])
        /\ (forall b,
              List.find (git_verify E) CANDIDATE_BRANCHES = Some b ->
              git_rev_list E (strftime_date anchor) b = Some EmptyString ->
              snaps = [])).
Proof.
  intros Hp Hnow. split; [|split].
  - intros snaps w'. apply get_commits_sorted.
  - intros start. now apply get_commits_returns.
  - intros ->.
    destruct (anchor_date_ok (utcnow E) frequency Hnow) as (anchor & Ea & Hok & Es).
    destruct (probe_branches_finds E CANDIDATE_BRANCHES w) as [w1 Eprobe].
    exists anchor.
    rewrite (get_commits_after_start E frequency 0 anchor w Es), Eprobe.
    destruct (List.find (git_verify E) CANDIDATE_BRANCHES) as [b|].
    + rewrite (resolve_anchor_only E b anchor _ w1 Hok).
      destruct (snapshot_at_props E (strftime_date anchor) b)
        as (Hlen & Hday & Hone & Hnone).
      eexists _, _. split; [exact Ea|]. split; [reflexivity|].
      split; [exact Hlen|]. split; [exact Hday|].
      split; [intros b' out [= <-]; apply Hone|].
      split; [discriminate | intros b' [= <-]; exact Hnone].
    + eexists _, _. split; [exact Ea|]. split; [reflexivity|].
      split; [simpl; lia|].
      split; [intros s Hs; now apply elem_of_nil in Hs|].
      split; [discriminate|]. split; reflexivity.
Qed.

Lemma snapshot_dates_non_decreasing_witness :
  StronglySorted Z.le [739293; 739503; 739713; 739923]
  /\ exists anchor snaps w',
       anchor_date (utcnow Sample.checkout_refused) "weekly" = Ok anchor
       /\ get_commits Sample.checkout_refused "weekly" 0 Sample.fresh
          = (Ok snaps, w')
       /\ snaps = [("c2", strftime_date anchor)].
Proof.
  assert (Hnow : datetime_ok (utcnow Sample.checkout_refused))
    by (vm_compute; split; [discriminate | reflexivity]).
  split.
  - apply (proj1 (snapshot_dates_non_decreasing
                    Sample.checkout_refused "monthly" 3 Sample.fresh
                    ltac:(lia) Hnow)
             [("c1", 739293); ("c1", 739503); ("c1", 739713); ("c2", 739923)]
             (logged Sample.fresh
                [GitVerify "main"; GitRevList 739293 "main";
                 GitRevList 739503 "main"; GitRevList 739713 "main";
                 GitRevList 739923 "main"])).
    vm_compute. reflexivity.
  - destruct (proj2 (proj2 (snapshot_dates_non_decreasing
                              Sample.checkout_refused "weekly" 0 Sample.fresh
                              ltac:(lia) Hnow)) eq_refl)
      as (anchor & snaps & w' & Ea & Eg & _ & _ & Hone & _).
    exists anchor, snaps, w'. split; [exact Ea|]. split; [exact Eg|].
    assert (Ean : anchor = Sample.day_2026_11_02 * US_PER_DAY + 43200000000).
    { vm_compute in Ea. now injection Ea. }
    subst anchor. apply (Hone "main" ("c2" +:+ Sample.nl)); [reflexivity .. | discriminate].
Defined.

(** C4 as stated fails: asked for 0 periods on a repository whose branch
    [main] has no commit as old as the anchor date, [rev-list] prints
    nothing and the walker returns no snapshot; so it does on a
    repository with none of the candidate branches. *)
Lemma zero_periods_without_commit_yields_no_snapshot :
  get_commits Sample.young_repo "weekly" 0 Sample.fresh
  = (Ok [], logged Sample.fresh
              [GitVerify "main"; GitRevList Sample.day_2026_11_02 "main"])
  /\ get_commits Sample.no_primary_branch "monthly" 0 Sample.fresh
     = (Ok [], logged Sample.fresh
                 [GitVerify "main"; GitVerify "master"; GitVerify "develop"])
  /\ length (@nil (string * Z)) <> 1%nat.
Proof. repeat split; try (vm_compute; reflexivity). discriminate. Qed.

(** ** The run and the restoring checkout *)

Lemma restores_app l1 l2 :
  restores (l1 ++ l2) = (restores l1 + restores l2)%nat.
Proof. unfold restores. now rewrite List.filter_app, length_app. Qed.

Lemma restores_snoc l e :
  restores (l ++ [e])
  = (restores l + match e with GitRestore _ => 1 | _ => 0 end)%nat.
Proof.
  unfold restores. rewrite List.filter_app, length_app.
  now destruct e.
Qed.

Lemma extract_returns re fs path : exists m, extract re fs path = Ok m.
Proof.
  unfold extract.
  destruct (count_endpoints_returns re fs path) as (n1 & l1 & ->).
  destruct (count_inter_service_calls_returns re fs path) as (n2 & l2 & ->).
  destruct (count_dependencies_returns re fs path) as (d & ->). eauto.
Qed.

(** The analysis of a working tree always produces its row. *)
Lemma analyze_row_returns re fs repo_path date :
  exists r, analyze_row re fs repo_path date = Ok r.
Proof.
  unfold analyze_row.
  destruct (for_each_total (fun _ _ => True) (module_step re fs)
              (module_paths fs repo_path)) with (s := totals0)
    as (t & -> & _); auto; [|eauto].
  intros path t _. unfold module_step, bind, lift.
  destruct (extract_returns re fs path) as [m ->].
  eexists. split; [reflexivity | exact I].
Qed.

Lemma probe_branches_quiet E l : forall w r w',
  probe_branches E l w = (r, w') -> quiet w w'.
Proof.
  induction l as [|b l IH]; intros w r w'.
  - intros [= _ <-]. now split.
  - rewrite probe_step. destruct (git_verify E b).
    + intros [= _ <-]. split; [reflexivity|]. simpl. rewrite restores_snoc.
      simpl. lia.
    + intros H%IH. destruct H as [H1 H2]. split.
      * now rewrite H1.
      * rewrite H2. simpl. rewrite restores_snoc. simpl. lia.
Qed.

Lemma resolve_period_quiet E b start delta commits i w r w' :
  resolve_period E b start delta commits i w = (r, w') -> quiet w w'.
Proof.
  unfold resolve_period, bind at 1, lift.
  destruct (timedelta_mul delta i) as [step|e]; [|intros [= _ <-]; now split].
  unfold bind at 1.
  destruct (datetime_add start step) as [d|e]; [|intros [= _ <-]; now split].
  unfold try_except, bind at 1, git_rev_list_before, bind at 1.
  rewrite log_logged.
  assert (Hq : quiet w (logged w [GitRevList (strftime_date d) b])).
  { split; [reflexivity|]. simpl. rewrite restores_snoc. simpl. lia. }
  destruct (git_rev_list E _ b) as [out|]; simpl; now intros [= _ <-].
Qed.

Lemma resolve_periods_quiet E b start delta l : forall commits w r w',
  resolve_periods E b start delta commits l w = (r, w') -> quiet w w'.
Proof.
  induction l as [|i l IH]; intros commits w r w'.
  - intros [= _ <-]. now split.
  - cbn [resolve_periods]. unfold bind at 1.
    destruct (resolve_period E b start delta commits i w) as [[cs|e] w1] eqn:E1;
      apply resolve_period_quiet in E1 as [H1 H2].
    + intros [H3 H4]%IH. split; congruence.
    + intros [= _ <-]. now split.
Qed.

(** The history walker does not touch the working tree. *)
Lemma get_commits_quiet E frequency periods w r w' :
  get_commits E frequency periods w = (r, w') -> quiet w w'.
Proof.
  unfold get_commits, bind at 1, lift.
  destruct (start_date _ _ _) as [start|e]; [|intros [= _ <-]; now split].
  unfold bind at 1.
  destruct (probe_branches E CANDIDATE_BRANCHES w) as [[[b|]|e] w1] eqn:Ep;
    apply probe_branches_quiet in Ep as [H1 H2].
  - intros [H3 H4]%resolve_periods_quiet. split; congruence.
  - intros [= _ <-]. now split.
  - intros [= _ <-]. now split.
Qed.

(** When the checkouts succeed and the sink takes every row, a snapshot
    is processed to its end without a restoring checkout. *)
Lemma snapshot_step_returns E repo_path s w :
  (forall h c, git_checkout_ok E h c = true) ->
  (forall r, writerow_ok E r = true) ->
  exists w', snapshot_step E repo_path s w = (Ok tt, w') /\ unrestored w w'.
Proof.
  intros Hco Hsink.
  unfold snapshot_step, bind at 1, git_checkout, bind at 1.
  rewrite log_logged, Hco.
  unfold analyze_service, bind at 1, gets, bind at 1, lift.
  destruct (analyze_row_returns (engine E)
              (worktree E (fst s)) repo_path (snd s)) as [r Er].
  cbn [head]. rewrite Er, Hsink, log_logged.
  eexists. split; [reflexivity|].
  unfold unrestored. simpl. rewrite !restores_snoc. simpl. lia.
Qed.

(** What does hold of the run: when the walker returns, every checkout
    succeeds and the sink takes every row, the run ends with the head it
    started from and has issued one restoring checkout. *)
Lemma main_restores_when_nothing_raises E repo_path frequency periods w :
  output_ok E = true ->
  (forall h c, git_checkout_ok E h c = true) ->
  (forall r, writerow_ok E r = true) ->
  (exists snaps w', get_commits E frequency periods
                      (logged w [GitRevParseHead; WriteHeader])
                    = (Ok snaps, w')) ->
  exists w', main E repo_path frequency periods w = (Ok tt, w')
    /\ head w' = head w
    /\ restores (events w') = S (restores (events w)).
Proof.
  intros Hout Hco Hsink (snaps & w1 & Eg).
  pose proof (get_commits_quiet _ _ _ _ _ _ Eg) as [Hh1 Hr1].
  unfold main, bind at 1, git_rev_parse_head, bind at 1, gets.
  rewrite log_logged. cbn [head logged].
  unfold bind at 1, open_output. rewrite Hout, log_logged, logged_logged.
  unfold bind at 1. cbn [app]. rewrite Eg.
  unfold bind at 1.
  destruct (for_each_total unrestored (snapshot_step E repo_path) snaps)
    with (s := w1) as (w2 & -> & Hr2).
  - reflexivity.
  - unfold unrestored. congruence.
  - intros s w0 _. now apply snapshot_step_returns.
  - unfold git_checkout, bind. rewrite log_logged, Hco.
    eexists. split; [reflexivity|]. split; [reflexivity|].
    cbn [events logged]. rewrite restores_snoc.
    unfold unrestored in Hr2. rewrite Hr2, Hr1.
    cbn [events logged]. rewrite restores_app.
    change (restores [GitRevParseHead; WriteHeader]) with 0%nat. lia.
Qed.

(** C1, at failing inputs.  The run starts at head [h0] and samples one
    week back, which resolves the commits [c1] and [c2].  In the first
    repository the checkout of [c2] is refused after [c1] has been
    analysed; in the second the sink refuses the row of [c1].  Either
    way the exception leaves the loop and the script: the working tree
    stays at [c1] and no restoring checkout is issued. *)
Theorem failed_snapshot_leaves_tree_unrestored :
  head Sample.fresh = "h0"
  /\ (exists w',
        main Sample.checkout_refused "repo" "weekly" 1 Sample.fresh
        = (Raise CalledProcessError, w')
        /\ head w' = "c1" /\ restores (events w') = 0%nat)
  /\ (exists w',
        main Sample.sink_refuses "repo" "weekly" 1 Sample.fresh
        = (Raise OSError, w')
        /\ head w' = "c1" /\ restores (events w') = 0%nat).
Proof.
  split; [reflexivity|].
  split; eexists; (split; [vm_compute; reflexivity|]); split; reflexivity.
Qed.

(** ** Further properties: paths, modules and manifest names *)

Lemma contains_cons sub c s :
  Py.contains sub (String c s)
  = String.prefix sub (String c s) || Py.contains sub s.
Proof. reflexivity. Qed.

(** [sub in s] holds exactly when [s] is some text, [sub], and a rest. *)
Lemma contains_iff sub s :
  Py.contains sub s = true <-> exists a b, s = a +:+ sub +:+ b.
Proof.
  split.
  - induction s as [|c s IH].
    + change (Py.contains sub "") with (String.prefix sub "" || false).
      rewrite orb_false_r. intros H%prefix_iff.
      destruct H as [rest ->]. now exists EmptyString, rest.
    + rewrite contains_cons. intros [H|H]%orb_true_iff.
      * apply prefix_iff in H as [rest ->]. now exists EmptyString, rest.
      * destruct (IH H) as (a & b & ->). now exists (String c a), b.
  - intros (a & b & ->). induction a as [|c a IH].
    + assert (H : String.prefix sub (sub +:+ b) = true)
        by (apply prefix_iff; now exists b).
      change (Py.contains sub (sub +:+ b) = true).
      remember (sub +:+ b) as s eqn:Es. destruct s as [|c s].
      * change (String.prefix sub "" || false = true). now rewrite H.
      * now rewrite contains_cons, H.
    + change (Py.contains sub (String c (a +:+ sub +:+ b)) = true).
      rewrite contains_cons, IH. apply orb_true_r.
Qed.

(** X1. A path is excluded exactly when one of the tokens of
    [EXCLUDE_DIRS] occurs in it as a substring, wherever it stands:
    inside a longer directory name as well as a whole component. *)
Theorem is_excluded_path_substring (path : string) :
  is_excluded_path path = true
  <-> exists tok a b, In tok EXCLUDE_DIRS /\ path = a +:+ tok +:+ b.
Proof.
  unfold is_excluded_path. rewrite existsb_exists. split.
  - intros (tok & Hin & (a & b & ->)%contains_iff). now exists tok, a, b.
  - intros (tok & a & b & Hin & ->). exists tok. split; [exact Hin|].
    apply contains_iff. now exists a, b.
Qed.

Lemma is_excluded_path_substring_witness :
  is_excluded_path "/srv/guide/src" = true.
Proof.
  apply (proj2 (is_excluded_path_substring "/srv/guide/src")).
  exists "ui", "/srv/g", "de/src". split; [|reflexivity].
  simpl. auto 10.
Defined.

Lemma get_modules_from_pom_texts pom texts :
  et_modules pom = Ok texts ->
  (length (get_modules_from_pom pom) <= length texts)%nat
  /\ forall m, In m (get_modules_from_pom pom) ->
       exists t, In (Some t) texts /\ t <> EmptyString /\ m = Py.strip t.
Proof.
  intros E. unfold get_modules_from_pom. rewrite E. clear E.
  induction texts as [|[t|] texts [IH1 IH2]]; simpl.
  - split; [lia | intros m []].
  - destruct (String.eqb t "") eqn:Et; simpl.
    + split; [lia|]. intros m Hm. destruct (IH2 m Hm) as (t' & H1 & H2).
      exists t'. auto.
    + split; [lia|]. intros m [<- | Hm].
      * exists t. apply String.eqb_neq in Et. auto.
      * destruct (IH2 m Hm) as (t' & H1 & H2). exists t'. auto.
  - split; [lia|]. intros m Hm. destruct (IH2 m Hm) as (t' & H1 & H2).
    exists t'. auto.
Qed.

(** The modules of a parsed descriptor are the texts of its module
    elements, those without text or with an empty one left out, each
    stripped, in the order of the elements. *)
Lemma get_modules_from_pom_named pom texts :
  et_modules pom = Ok texts ->
  get_modules_from_pom pom
  = map Py.strip
      (List.filter (fun t => negb (String.eqb t "")) (omap id texts)).
Proof.
  intros E. unfold get_modules_from_pom. rewrite E. clear E.
  induction texts as [|[t|] texts IH]; [reflexivity| |exact IH].
  change (omap id (Some t :: texts)) with (t :: omap id texts).
  cbn [flat_map List.filter].
  destruct (String.eqb t ""); cbn [negb app map]; now rewrite IH.
Qed.

(** X2. The module resolver always yields at least one path.  It is the
    repository root alone when there is no root descriptor, when the
    descriptor does not parse, or when no module element has a text;
    otherwise it is one path per module element with a non-empty text,
    the root joined with the stripped text, in the order of the
    descriptor: every such element gives a path, nothing else does, and
    the paths of a descriptor made of two runs of elements are those of
    the first run followed by those of the second. *)
Theorem module_paths_fallback (fs : filesystem) (repo_path : string) :
  module_paths fs repo_path <> []
  /\ (file_at fs (Py.path_join repo_path "pom.xml") = None ->
      module_paths fs repo_path = [repo_path])
  /\ (forall pom e,
        file_at fs (Py.path_join repo_path "pom.xml") = Some pom ->
        et_modules pom = Raise e ->
        module_paths fs repo_path = [repo_path])
  /\ (forall pom texts,
        file_at fs (Py.path_join repo_path "pom.xml") = Some pom ->
        et_modules pom = Ok texts ->
        (Forall (fun t => t = None \/ t = Some EmptyString) texts ->
           module_paths fs repo_path = [repo_path])
        /\ (get_modules_from_pom pom <> [] ->
              module_paths fs repo_path
              = map (Py.path_join repo_path) (get_modules_from_pom pom))
        /\ (length (get_modules_from_pom pom) <= length texts)%nat
        /\ (forall m, In m (get_modules_from_pom pom) ->
              exists t, In (Some t) texts /\ t <> EmptyString
                        /\ m = Py.strip t))
  /\ (forall pom texts,
        file_at fs (Py.path_join repo_path "pom.xml") = Some pom ->
        et_modules pom = Ok texts ->
        module_paths fs repo_path
        = match List.filter (fun t => negb (String.eqb t "")) (omap id texts)
          with
          | [] => [repo_path]
          | named =>
              map (fun t => Py.path_join repo_path (Py.strip t)) named
          end)
  /\ (forall pom names,
        file_at fs (Py.path_join repo_path "pom.xml") = Some pom ->
        et_modules pom = Ok (map Some names) ->
        names <> [] ->
        Forall (fun t => t <> EmptyString) names ->
        module_paths fs repo_path
        = map (fun t => Py.path_join repo_path (Py.strip t)) names)
  /\ (forall pom texts t,
        file_at fs (Py.path_join repo_path "pom.xml") = Some pom ->
        et_modules pom = Ok texts ->
        In (Some t) texts -> t <> EmptyString ->
        In (Py.path_join repo_path (Py.strip t)) (module_paths fs repo_path)).
Proof.
  assert (Hexact : forall pom texts,
    file_at fs (Py.path_join repo_path "pom.xml") = Some pom ->
    et_modules pom = Ok texts ->
    module_paths fs repo_path
    = match List.filter (fun t => negb (String.eqb t "")) (omap id texts)
      with
      | [] => [repo_path]
      | named => map (fun t => Py.path_join repo_path (Py.strip t)) named
      end).
  { intros pom texts H E. unfold module_paths. rewrite H.
    rewrite (get_modules_from_pom_named pom texts E).
    destruct (List.filter _ (omap id texts)) as [|t named]; [reflexivity|].
    cbn [map]. now rewrite map_map. }
  split; [|split; [|split; [|split; [|split; [|split]]]]].
  - unfold module_paths.
    destruct (file_at fs _) as [pom|]; [|discriminate].
    destruct (get_modules_from_pom pom); discriminate.
  - intros H. unfold module_paths. now rewrite H.
  - intros pom e H E. unfold module_paths, get_modules_from_pom.
    now rewrite H, E.
  - intros pom texts H E.
    destruct (get_modules_from_pom_texts pom texts E) as [Hlen Hin].
    split; [|split; [|split]]; auto.
    + intros Hall. unfold module_paths. rewrite H.
      destruct (get_modules_from_pom pom) as [|m ms] eqn:Em; [reflexivity|].
      destruct (Hin m (or_introl eq_refl)) as (t & Ht & Hne & _).
      rewrite List.Forall_forall in Hall.
      destruct (Hall _ Ht) as [Hx | Hx]; [discriminate Hx|].
      injection Hx as ->. now destruct Hne.
    + intros Hne. unfold module_paths. rewrite H.
      now destruct (get_modules_from_pom pom).
  - exact Hexact.
  - intros pom names H E Hne Hall. rewrite (Hexact pom _ H E).
    assert (Hf : List.filter (fun t => negb (String.eqb t ""))
                   (omap id (map Some names)) = names).
    { clear -Hall. induction Hall as [|t names Ht _ IH]; [reflexivity|].
      change (omap id (map Some (t :: names)))
        with (t :: omap id (map Some names)).
      cbn [List.filter].
      apply String.eqb_neq in Ht. now rewrite Ht, IH. }
    rewrite Hf. destruct names; [now destruct Hne | reflexivity].
  - intros pom texts t H E Hin Hne. rewrite (Hexact pom _ H E).
    assert (Hf : In t (List.filter (fun t => negb (String.eqb t ""))
                         (omap id texts))).
    { apply List.filter_In. split.
      - apply list_elem_of_In, list_elem_of_omap. exists (Some t).
        split; [now apply list_elem_of_In | reflexivity].
      - apply String.eqb_neq in Hne. now rewrite Hne. }
    destruct (List.filter _ (omap id texts)) as [|t0 named] eqn:Ef;
      [destruct Hf|].
    apply (List.in_map (fun t => Py.path_join repo_path (Py.strip t))).
    exact Hf.
Qed.

Lemma module_paths_fallback_witness :
  module_paths Sample.empty_tree "repo" = ["repo"]
  /\ module_paths Sample2.fs_three_modules "repo" = ["repo/core"]
  /\ module_paths Sample2.fs_two_named_modules "repo"
     = ["repo/api"; "repo/worker"]
  /\ In "repo/core" (module_paths Sample2.fs_three_modules "repo").
Proof.
  split; [|split; [|split]].
  - apply (proj1 (proj2 (module_paths_fallback Sample.empty_tree "repo"))).
    reflexivity.
  - destruct (module_paths_fallback Sample2.fs_three_modules "repo")
      as (_ & _ & _ & H & _).
    destruct (H Sample2.pom_three_modules [Some " core "; Some ""; None]
                eq_refl eq_refl) as (_ & H' & _).
    rewrite H'; [reflexivity | discriminate].
  - destruct (module_paths_fallback Sample2.fs_two_named_modules "repo")
      as (_ & _ & _ & _ & _ & H & _).
    apply (H Sample2.pom_two_named_modules ["api"; " worker "]);
      [reflexivity | reflexivity | discriminate |].
    repeat constructor; discriminate.
  - destruct (module_paths_fallback Sample2.fs_three_modules "repo")
      as (_ & _ & _ & _ & _ & _ & H).
    apply (H Sample2.pom_three_modules [Some " core "; Some ""; None] " core ");
      [reflexivity | reflexivity | | discriminate].
    left. reflexivity.
Defined.

(** X3. A file whose name is none of the five manifest names the scan
    has a branch for adds no dependency and leaves the scan as it was,
    whatever it holds.  This is the case of [setup.py] and
    [composer.json], which [DEPENDENCY_FILES] lists. *)
Theorem unparsed_manifest_names_contribute_nothing
    (re : regex_engine) (f : file) (st : dep_state) :
  ~ In (fname f) PARSED_MANIFESTS ->
  dependency_file re f st = (Ok tt, st)
  /\ In "setup.py" DEPENDENCY_FILES /\ ~ In "setup.py" PARSED_MANIFESTS
  /\ In "composer.json" DEPENDENCY_FILES
  /\ ~ In "composer.json" PARSED_MANIFESTS.
Proof.
  intros Hn. split.
  - rewrite dependency_file_unfold.
    destruct (String.eqb (fname f) ""); [reflexivity|].
    destruct (join_root (root st) (fname f)); [|reflexivity].
    repeat match goal with
           | |- context [if String.eqb ?a ?b then _ else _] =>
               destruct (String.eqb a b) eqn:?
           end; try reflexivity;
      exfalso; apply Hn;
      match goal with
      | H : String.eqb _ _ = true |- _ => apply String.eqb_eq in H; rewrite H
      end; simpl; auto 10.
  - repeat split; simpl; auto 10;
      intros H; repeat (destruct H as [H|H]; [discriminate H|]); exact H.
Qed.

Lemma unparsed_manifest_names_witness :
  dependency_file Sample.no_match
    (Sample.text_file "setup.py" ["install_requires=['flask']"])
    {| deps := ∅; root := RootStr "repo" |}
  = (Ok tt, {| deps := ∅; root := RootStr "repo" |}).
Proof.
  apply (unparsed_manifest_names_contribute_nothing Sample.no_match
           (Sample.text_file "setup.py" ["install_requires=['flask']"])).
  simpl. intros H. repeat (destruct H as [H|H]; [discriminate H|]). exact H.
Defined.

(** ** Further properties: what the scans return *)

Section Collect.

Context {K : Type} `{Countable K}.

(** A loop that adds one element per item adds the image of the list. *)
Lemma for_each_add {X : Type} (g : X -> K) (l : list X) : forall u : gset K,
  for_each l (fun x => modify (fun u => {[ g x ]} ∪ u)) u
  = (Ok tt, list_to_set (map g l) ∪ u).
Proof.
  induction l as [|x l IH]; intros u.
  - simpl. unfold ret. f_equal. set_solver.
  - rewrite for_each_cons. unfold modify at 1. rewrite IH.
    f_equal. set_solver.
Qed.

(** A loop whose body adds the elements of a list per item adds them
    all. *)
Lemma for_each_union {X : Type} (c : X -> list K) (body : X -> M (gset K) unit)
    (l : list X) :
  (forall x u, body x u = (Ok tt, list_to_set (c x) ∪ u)) ->
  forall u, for_each l body u = (Ok tt, list_to_set (flat_map c l) ∪ u).
Proof.
  intros Hb. induction l as [|x l IH]; intros u.
  - simpl. unfold ret. f_equal. set_solver.
  - rewrite for_each_cons, Hb, IH. f_equal.
    simpl. rewrite list_to_set_app_L. set_solver.
Qed.

End Collect.

Lemma call_file_adds re f u :
  call_file re f u = (Ok tt, list_to_set (file_calls re f) ∪ u).
Proof.
  unfold call_file, file_calls.
  destruct (endswith_any (fname f) CALL_EXTENSIONS);
    [|unfold ret; f_equal; set_solver].
  unfold try_except, call_body, bind, lift.
  destruct (read_ignore f) as [content|e];
    [|unfold any_Exception, ret; f_equal; set_solver].
  rewrite (for_each_union
             (fun p => map Py.strip (re_finditer re p content))); [reflexivity|].
  intros p v. apply for_each_add.
Qed.

Lemma endpoint_file_adds re f u :
  endpoint_file re f u = (Ok tt, list_to_set (file_endpoints re f) ∪ u).
Proof.
  unfold endpoint_file, file_endpoints.
  destruct (endswith_any (fname f) ENDPOINT_EXTENSIONS);
    [|unfold ret; f_equal; set_solver].
  unfold try_except, endpoint_body, bind, lift.
  destruct (read_ignore f) as [content|e];
    [|unfold any_Exception, ret; f_equal; set_solver].
  rewrite (for_each_union (endpoint_matches re content)); [reflexivity|].
  intros rule v.
  rewrite (for_each_add (fun e : string * string => e)). now rewrite map_id.
Qed.

Lemma flat_map_flat_map {A B C : Type} (g : A -> list B) (c : B -> list C) l :
  flat_map c (flat_map g l) = flat_map (fun a => flat_map c (g a)) l.
Proof.
  induction l as [|a l IH]; [reflexivity|].
  simpl. now rewrite flat_map_app, IH.
Qed.

Lemma scan_adds {K : Type} `{Countable K}
    (step : string * list file -> M (gset K) unit)
    (per_file : file -> M (gset K) unit) (c : file -> list K) dirs :
  (forall d, step d = if is_excluded_path (fst d) then ret tt
                      else for_each (snd d) per_file) ->
  (forall f u, per_file f u = (Ok tt, list_to_set (c f) ∪ u)) ->
  forall u, for_each dirs step u
            = (Ok tt, list_to_set (flat_map c (scanned_files dirs)) ∪ u).
Proof.
  intros Hstep Hfile u. unfold scanned_files. rewrite flat_map_flat_map.
  apply for_each_union. intros d v. rewrite Hstep.
  destruct (is_excluded_path (fst d)).
  - unfold ret. f_equal. set_solver.
  - now apply for_each_union.
Qed.

(** The order of [sorted] is total. *)
#[local] Instance str_le_total : Total Py.str_le.
Proof.
  intros a b. unfold Py.str_le, String.leb.
  rewrite (String.compare_antisym b a).
  destruct (String.compare a b); simpl; auto.
Qed.

Lemma sorted_props l :
  length (Py.sorted l) = length l
  /\ (NoDup l -> NoDup (Py.sorted l))
  /\ Sorted Py.str_le (Py.sorted l)
  /\ (forall x, x ∈ Py.sorted l <-> x ∈ l).
Proof.
  unfold Py.sorted.
  pose proof (merge_sort_Permutation Py.str_le l) as HP.
  split; [now rewrite HP|]. split; [now rewrite HP|].
  split; [apply Sorted_merge_sort, _|]. intros x. now rewrite HP.
Qed.

(** X4. The call scan returns exactly the trimmed matches of the call
    rules over the readable files with a call extension in the
    directories that are not excluded: the list holds each of them once,
    in sorted order, and the count is the length of the list. *)
Theorem calls_are_the_trimmed_matches
    (re : regex_engine) (fs : filesystem) (path : string) :
  exists n l,
    count_inter_service_calls re fs path = Ok (n, l)
    /\ n = length l
    /\ NoDup l
    /\ Sorted Py.str_le l
    /\ (forall c, c ∈ l <->
          exists f, f ∈ scanned_files (os_walk fs path)
                    /\ c ∈ file_calls re f)
    /\ (forall c, c ∈ l -> Py.strip c = c).
Proof.
  unfold count_inter_service_calls.
  rewrite (scan_adds (call_dir re) (call_file re) (file_calls re));
    [|reflexivity | apply call_file_adds].
  set (U := list_to_set _ ∪ ∅).
  destruct (sorted_props (elements U)) as (Hlen & Hnd & Hs & Hin).
  assert (HU : forall c, c ∈ elements U <->
                 exists f, f ∈ scanned_files (os_walk fs path)
                           /\ c ∈ file_calls re f).
  { intros c. rewrite elem_of_elements. unfold U.
    rewrite elem_of_union, elem_of_list_to_set, elem_of_empty.
    rewrite list_elem_of_In, in_flat_map. setoid_rewrite <- list_elem_of_In.
    tauto. }
  eexists _, _. split; [reflexivity|].
  split; [now rewrite Hlen|]. split; [apply Hnd, NoDup_elements|].
  split; [exact Hs|]. split.
  - intros c. now rewrite Hin.
  - intros c Hc. apply Hin, HU in Hc as (f & _ & Hc).
    unfold file_calls in Hc.
    destruct (endswith_any _ _); [|now apply elem_of_nil in Hc].
    destruct (read_ignore f) as [content|e]; [|now apply elem_of_nil in Hc].
    apply list_elem_of_In, in_flat_map in Hc as (p & _ & Hc).
    apply in_map_iff in Hc as (m & <- & _). apply strip_chars_idem.
Qed.

Lemma normalize_path_is_normalized s : is_normalized (normalize_path s) = true.
Proof.
  change (normalize_path s) with (String "/" (Py.strip_chars Py.is_slash s)).
  change (String.eqb (Py.strip_chars Py.is_slash
                        (Py.strip_chars Py.is_slash s))
                     (Py.strip_chars Py.is_slash s) = true).
  rewrite strip_chars_idem. apply String.eqb_refl.
Qed.

Lemma methods_of_rules rule :
  In rule API_ENDPOINT_PATTERNS -> In (fst rule) METHODS.
Proof.
  unfold API_ENDPOINT_PATTERNS. intros H.
  repeat (destruct H as [<- | H]; [simpl; auto 10|]). destruct H.
Qed.

Lemma format_endpoint_inj m1 p1 m2 p2 :
  In m1 METHODS -> In m2 METHODS ->
  format_endpoint (m1, p1) = format_endpoint (m2, p2) ->
  (m1, p1) = (m2, p2).
Proof.
  unfold METHODS, format_endpoint. intros H1 H2.
  repeat (destruct H1 as [<- | H1]); try destruct H1;
    repeat (destruct H2 as [<- | H2]); try destruct H2;
    intros E; cbv in E; congruence.
Qed.

Lemma file_endpoints_shape re f e :
  e ∈ file_endpoints re f ->
  In (fst e) METHODS /\ is_normalized (snd e) = true.
Proof.
  unfold file_endpoints.
  destruct (endswith_any _ _); [|intros H; now apply elem_of_nil in H].
  destruct (read_ignore f) as [content|x];
    [|intros H; now apply elem_of_nil in H].
  intros (rule & Hr & He)%list_elem_of_In%in_flat_map.
  unfold endpoint_matches in He. apply in_map_iff in He as (m & <- & _).
  split; [exact (methods_of_rules rule Hr)|].
  apply normalize_path_is_normalized.
Qed.

Lemma count_endpoints_facts re fs path :
  exists n l,
    count_endpoints re fs path = Ok (n, l)
    /\ n = length l
    /\ NoDup l
    /\ Sorted Py.str_le l
    /\ (forall s, s ∈ l <->
          exists f e, f ∈ scanned_files (os_walk fs path)
                      /\ e ∈ file_endpoints re f /\ s = format_endpoint e).
Proof.
  unfold count_endpoints.
  rewrite (scan_adds (endpoint_dir re) (endpoint_file re) (file_endpoints re));
    [|reflexivity | apply endpoint_file_adds].
  set (U := list_to_set _ ∪ ∅).
  destruct (sorted_props (map format_endpoint (elements U)))
    as (Hlen & Hnd & Hs & Hin).
  assert (HU : forall e, e ∈ elements U <->
                 exists f, f ∈ scanned_files (os_walk fs path)
                           /\ e ∈ file_endpoints re f).
  { intros e. rewrite elem_of_elements. unfold U.
    rewrite elem_of_union, elem_of_list_to_set, elem_of_empty.
    rewrite list_elem_of_In, in_flat_map. setoid_rewrite <- list_elem_of_In.
    tauto. }
  eexists _, _. split; [reflexivity|].
  split; [now rewrite Hlen, length_map|].
  split; [|split; [exact Hs|]].
  - apply Hnd. apply NoDup_fmap_2_strong; [|apply NoDup_elements].
    intros [m1 p1] [m2 p2] (f1 & _ & H1)%HU (f2 & _ & H2)%HU.
    apply format_endpoint_inj.
    + apply (file_endpoints_shape re f1 (m1, p1) H1).
    + apply (file_endpoints_shape re f2 (m2, p2) H2).
  - intros s. rewrite Hin. split.
    + intros (e & -> & He)%list_elem_of_fmap.
      apply HU in He as (f & Hf & He). now exists f, e.
    + intros (f & e & Hf & He & ->). apply list_elem_of_fmap.
      exists e. split; [reflexivity|]. apply HU. now exists f.
Qed.

(** X5. The endpoint scan returns exactly the endpoints of the readable
    files with an endpoint extension in the directories that are not
    excluded, each written as its method tag, a blank and its path: the
    list holds each of them once, in sorted order, the count is the
    length of the list, every tag is one of the five of the catalog and
    every path is normalised. *)
Theorem endpoints_are_the_normalised_matches
    (re : regex_engine) (fs : filesystem) (path : string) :
  exists n l,
    count_endpoints re fs path = Ok (n, l)
    /\ n = length l
    /\ NoDup l
    /\ Sorted Py.str_le l
    /\ (forall s, s ∈ l <->
          exists f e, f ∈ scanned_files (os_walk fs path)
                      /\ e ∈ file_endpoints re f /\ s = format_endpoint e)
    /\ (forall s, s ∈ l ->
          exists m p, s = m +:+ " " +:+ p /\ In m METHODS
                      /\ is_normalized p = true).
Proof.
  destruct (count_endpoints_facts re fs path)
    as (n & l & E & Hn & Hnd & Hs & Hin).
  exists n, l. repeat (split; [assumption|]).
  intros s (f & [m p] & _ & He & ->)%Hin.
  destruct (file_endpoints_shape re f (m, p) He) as [Hm Hp].
  now exists m, p.
Qed.

Lemma extract_facts re fs path :
  exists m, extract re fs path = Ok m
    /\ ep_count m = length (eps m) /\ NoDup (eps m).
Proof.
  unfold extract.
  destruct (count_endpoints_facts re fs path) as (n & l & -> & Hn & Hnd & _).
  destruct (count_inter_service_calls_returns re fs path) as (n2 & l2 & ->).
  destruct (count_dependencies_returns re fs path) as (d & ->).
  eexists. split; [reflexivity|]. now split.
Qed.

Lemma module_steps re fs paths : forall t,
  exists ms,
    Forall2 (fun p m => extract re fs p = Ok m
                        /\ ep_count m = length (eps m) /\ NoDup (eps m))
            paths ms
    /\ for_each paths (module_step re fs) t
       = (Ok tt, fold_left (fun t m => add_module m t) ms t).
Proof.
  induction paths as [|p paths IH]; intros t.
  - exists []. split; [constructor | reflexivity].
  - destruct (extract_facts re fs p) as (m & Em & Hm).
    destruct (IH (add_module m t)) as (ms & Hms & E).
    exists (m :: ms). split; [now constructor|].
    rewrite for_each_cons. unfold module_step at 1, bind, lift, modify.
    rewrite Em. exact E.
Qed.

Lemma size_list_to_set_le (l : list string) :
  (size (list_to_set l : gset string) <= length l)%nat.
Proof.
  induction l as [|x l IH].
  - change (size (∅ : gset string) <= 0)%nat. now rewrite size_empty.
  - change (size ({[x]} ∪ list_to_set l : gset string) <= S (length l))%nat.
    rewrite size_union_alt, size_singleton.
    pose proof (subseteq_size (list_to_set l ∖ {[x]}) (list_to_set l : gset string)
                  ltac:(set_solver)).
    lia.
Qed.

Lemma fold_add_module_endpoints ms : forall t,
  Forall (fun m => ep_count m = length (eps m)) ms ->
  (size (all_eps t) <= total_eps t)%nat ->
  let r := fold_left (fun t m => add_module m t) ms t in
  (size (all_eps r) <= total_eps r)%nat.
Proof.
  induction ms as [|m ms IH]; intros t Hall Ht; [exact Ht|].
  apply Forall_cons in Hall as [Hm Hall]. simpl. apply IH; [exact Hall|].
  simpl. rewrite size_union_alt, Hm.
  pose proof (size_list_to_set_le (eps m)).
  pose proof (subseteq_size (all_eps t ∖ list_to_set (eps m)) (all_eps t)
                ltac:(set_solver)).
  lia.
Qed.

(** X6. The row of a snapshot is the aggregate of the extraction
    results of its module paths, one per path and in their order.  Its
    endpoint count is never below the number of distinct endpoints, and
    equals it when the snapshot has a single module path. *)
Theorem row_is_the_aggregate_of_the_modules
    (re : regex_engine) (fs : filesystem) (repo_path : string) (date : Z) :
  exists ms,
    Forall2 (fun p m => extract re fs p = Ok m) (module_paths fs repo_path) ms
    /\ analyze_row re fs repo_path date
       = Ok (make_row repo_path date (aggregate ms))
    /\ (size (all_eps (aggregate ms))
        <= r_endpoints (make_row repo_path date (aggregate ms)))%nat
    /\ (length (module_paths fs repo_path) = 1%nat ->
        r_endpoints (make_row repo_path date (aggregate ms))
        = size (all_eps (aggregate ms))).
Proof.
  destruct (module_steps re fs (module_paths fs repo_path) totals0)
    as (ms & Hms & E).
  exists ms. split; [|split; [|split]].
  - eapply Forall2_impl; [exact Hms|]. now intros p m [H _].
  - unfold analyze_row. now rewrite E.
  - apply fold_add_module_endpoints.
    + clear E. induction Hms as [|p m ps ms (_ & H & _) _ IH];
        constructor; assumption.
    + change (size (∅ : gset string) <= 0)%nat. now rewrite size_empty.
  - intros Hlen. apply Forall2_length in Hms as Hl. rewrite Hlen in Hl.
    destruct ms as [|m [|m' ms]]; try discriminate Hl.
    destruct (module_paths fs repo_path) as [|p [|p' ps]]; try discriminate Hlen.
    apply Forall2_cons_1 in Hms as [(_ & Hm & Hnd) _].
    unfold aggregate. simpl. rewrite Hm.
    rewrite union_empty_r_L. symmetry. now apply size_list_to_set.
Qed.

Lemma calls_are_the_trimmed_matches_witness :
  count_inter_service_calls Sample2.calls_engine Sample2.fs_calls "repo"
  = Ok (1%nat, ["fetch("])
  /\ Py.strip "fetch(" = "fetch(".
Proof.
  destruct (calls_are_the_trimmed_matches
              Sample2.calls_engine Sample2.fs_calls "repo")
    as (n & l & E & _ & _ & _ & _ & Hstrip).
  vm_compute in E. injection E as <- <-.
  split; [vm_compute; reflexivity|]. apply Hstrip. left.
Defined.

Lemma endpoints_are_the_normalised_matches_witness :
  count_endpoints Sample.get_x_engine Sample2.fs_one_module "repo"
  = Ok (1%nat, ["GET /x"])
  /\ exists m p, "GET /x" = m +:+ " " +:+ p /\ In m METHODS
                 /\ is_normalized p = true.
Proof.
  destruct (endpoints_are_the_normalised_matches
              Sample.get_x_engine Sample2.fs_one_module "repo")
    as (n & l & E & _ & _ & _ & _ & Hshape).
  vm_compute in E. injection E as <- <-.
  split; [vm_compute; reflexivity|]. apply Hshape. left.
Defined.

Lemma row_is_the_aggregate_of_the_modules_witness :
  exists ms,
    analyze_row Sample.get_x_engine Sample2.fs_one_module "repo" 0
    = Ok (make_row "repo" 0 (aggregate ms))
    /\ r_endpoints (make_row "repo" 0 (aggregate ms))
       = size (all_eps (aggregate ms)).
Proof.
  destruct (row_is_the_aggregate_of_the_modules
              Sample.get_x_engine Sample2.fs_one_module "repo" 0)
    as (ms & _ & E & _ & Hone).
  exists ms. split; [exact E | apply Hone; reflexivity].
Defined.

(** X7. For any list of per-module results, the dependency count and
    the call count of the row are the numbers of distinct dependencies
    and calls over all the modules: a dependency is counted when one
    module holds it, a call when one module lists it.  The endpoint
    count is the sum of the counts of the modules. *)
Theorem dependency_and_call_counts_are_cardinalities
    (repo_path : string) (date : Z) (ms : list module_result) :
  exists D C : gset string,
    r_dependencies (make_row repo_path date (aggregate ms)) = size D
    /\ r_calls (make_row repo_path date (aggregate ms)) = size C
    /\ (forall c, c ∈ D <-> exists m, In m ms /\ c ∈ mod_deps m)
    /\ (forall c, c ∈ C <-> exists m, In m ms /\ In c (calls m))
    /\ r_endpoints (make_row repo_path date (aggregate ms))
       = list_sum (map ep_count ms).
Proof.
  unfold aggregate.
  destruct (fold_add_module ms totals0) as (H1 & H2 & H3 & _).
  exists (all_deps (fold_left (fun t m => add_module m t) ms totals0)),
         (all_calls (fold_left (fun t m => add_module m t) ms totals0)).
  split; [reflexivity|]. split; [reflexivity|].
  split; [|split; [|exact H1]].
  - intros c. rewrite H2. cbn [all_deps totals0].
    rewrite elem_of_union, elem_of_empty, elem_of_union_list. split.
    + intros [(X & HX & Hc) | []].
      apply list_elem_of_In, in_map_iff in HX as (m & <- & Hm). eauto.
    + intros (m & Hm & Hc). left. exists (mod_deps m).
      split; [|exact Hc]. apply list_elem_of_In, in_map_iff. eauto.
  - intros c. rewrite H3. cbn [all_calls totals0].
    rewrite elem_of_union, elem_of_empty, elem_of_union_list. split.
    + intros [(X & HX & Hc) | []].
      apply list_elem_of_In, in_map_iff in HX as (m & <- & Hm).
      apply elem_of_list_to_set, list_elem_of_In in Hc. eauto.
    + intros (m & Hm & Hc). left. exists (list_to_set (calls m)).
      split; [apply list_elem_of_In, in_map_iff; eauto|].
      now apply elem_of_list_to_set, list_elem_of_In.
Qed.

Lemma dependency_and_call_counts_witness :
  exists D C : gset string,
    r_dependencies (make_row "repo" 0
                      (aggregate [Sample.one_get_x; Sample.one_get_x])) = size D
    /\ r_calls (make_row "repo" 0
                  (aggregate [Sample.one_get_x; Sample.one_get_x])) = size C
    /\ ~ "flask" ∈ D.
Proof.
  destruct (dependency_and_call_counts_are_cardinalities
              "repo" 0 [Sample.one_get_x; Sample.one_get_x])
    as (D & C & HD & HC & Hin & _).
  exists D, C. split; [exact HD|]. split; [exact HC|].
  intros (m & Hm & Hc)%Hin.
  destruct Hm as [<- | [<- | []]]; now apply elem_of_empty in Hc.
Defined.

(** ** Further properties: the dates and snapshots of the walker *)

Lemma period_length_days frequency :
  period_length frequency = days_per_period frequency * US_PER_DAY.
Proof.
  unfold period_length, days_per_period.
  now destruct (String.eqb frequency "weekly").
Qed.

Lemma days_per_period_pos frequency : 7 <= days_per_period frequency.
Proof.
  unfold days_per_period. destruct (String.eqb frequency "weekly"); lia.
Qed.

Lemma date_at_spacing start frequency i :
  date_at start (period_length frequency) i
  = strftime_date start + days_per_period frequency * i.
Proof.
  unfold date_at, strftime_date. rewrite period_length_days.
  replace (start + days_per_period frequency * US_PER_DAY * i)
    with (start + days_per_period frequency * i * US_PER_DAY) by ring.
  apply Z.div_add. discriminate.
Qed.

(** One period, with where an appended snapshot comes from. *)
Lemma resolve_period_cases E b start delta commits i w cs w' :
  resolve_period E b start delta commits i w = (Ok cs, w') ->
  cs = commits
  \/ exists out,
       git_rev_list E (date_at start delta i) b = Some out
       /\ Py.strip out <> EmptyString
       /\ cs = commits ++ [(Py.strip out, date_at start delta i)].
Proof.
  unfold resolve_period, bind at 1, lift.
  destruct (timedelta_mul delta i) as [step|e] eqn:Em; [|discriminate].
  apply timedelta_mul_ok in Em as ->.
  unfold bind at 1.
  destruct (datetime_add start (delta * i)) as [d|e] eqn:Ea; [|discriminate].
  apply datetime_add_ok in Ea as [-> _].
  unfold try_except, bind at 1, git_rev_list_before, bind at 1.
  rewrite log_logged. fold (date_at start delta i).
  destruct (git_rev_list E _ b) as [out|] eqn:Eo; simpl.
  - destruct (String.eqb (Py.strip out) "") eqn:Es; intros [= <- _];
      [now left|].
    right. exists out. apply String.eqb_neq in Es. auto.
  - intros [= <- _]. now left.
Qed.

(** Where the snapshots of the loop come from, and how many there are. *)
Lemma resolve_periods_provenance E b start delta l :
  forall commits w cs w',
    resolve_periods E b start delta commits l w = (Ok cs, w') ->
    (length cs <= length commits + length l)%nat
    /\ forall s, s ∈ cs ->
         s ∈ commits
         \/ exists i out,
              i ∈ l /\ snd s = date_at start delta i
              /\ git_rev_list E (snd s) b = Some out
              /\ fst s = Py.strip out /\ fst s <> EmptyString.
Proof.
  induction l as [|i l IH]; intros commits w cs w'.
  - simpl. intros [= <- _]. split; [lia | auto].
  - cbn [resolve_periods]. unfold bind at 1.
    destruct (resolve_period E b start delta commits i w) as [[cs1|e] w1] eqn:E1;
      [|discriminate].
    intros [Hlen Hin]%IH.
    apply resolve_period_cases in E1 as [-> | (out & Eo & Hne & ->)].
    + split; [simpl; lia|]. intros s Hs.
      destruct (Hin s Hs) as [H | (j & o & Hj & H)]; [now left|].
      right. exists j, o. split; [now right | exact H].
    + split; [rewrite length_app in Hlen; simpl in *; lia|]. intros s Hs.
      destruct (Hin s Hs) as [H | (j & o & Hj & H)].
      * apply elem_of_app in H as [H | ->%list_elem_of_singleton];
          [now left|].
        right. exists i, out. simpl. repeat split; auto. left.
      * right. exists j, o. split; [now right | exact H].
Qed.

Lemma date_at_strict start delta i j :
  US_PER_DAY <= delta -> i < j -> date_at start delta i < date_at start delta j.
Proof.
  intros Hd Hij. unfold date_at, strftime_date.
  apply Z.lt_le_trans with ((start + delta * i + 1 * US_PER_DAY) / US_PER_DAY).
  - rewrite Z.div_add by discriminate. lia.
  - assert (0 < US_PER_DAY) by reflexivity.
    assert (delta * (i + 1) <= delta * j)
      by (apply Z.mul_le_mono_nonneg_l; lia).
    apply Z.div_le_mono; [reflexivity | lia].
Qed.

Lemma py_range_increasing_from n : forall a,
  StronglySorted Z.lt (map Z.of_nat (seq a n)).
Proof.
  induction n as [|n IH]; intros a; simpl; constructor; [apply IH|].
  apply Forall_forall. intros x Hx.
  apply list_elem_of_In, in_map_iff in Hx as (k & <- & Hk).
  apply in_seq in Hk. lia.
Qed.

Lemma resolve_periods_increasing E b start delta l :
  US_PER_DAY <= delta -> StronglySorted Z.lt l ->
  forall commits w cs w',
    StronglySorted Z.lt (map snd commits) ->
    (forall d i, d ∈ map snd commits -> i ∈ l -> d < date_at start delta i) ->
    resolve_periods E b start delta commits l w = (Ok cs, w') ->
    StronglySorted Z.lt (map snd cs).
Proof.
  intros Hd Hl. induction Hl as [|i l Hl IH Hi]; intros commits w cs w' Hs Hb.
  - simpl. now intros [= <- _].
  - cbn [resolve_periods]. unfold bind at 1.
    destruct (resolve_period E b start delta commits i w) as [[cs1|e] w1] eqn:E1;
      [|discriminate].
    apply IH.
    + apply resolve_period_result in E1 as [-> | (c & ->)]; [exact Hs|].
      rewrite map_app. apply StronglySorted_app_2.
      * intros d1 d2 H1 ->%list_elem_of_singleton. apply Hb; [exact H1 | left].
      * exact Hs.
      * repeat constructor.
    + intros d j Hdin Hj.
      apply resolve_period_result in E1 as [-> | (c & ->)].
      * apply Hb; [exact Hdin | now right].
      * rewrite map_app in Hdin. apply elem_of_app in Hdin as [Hdin | Hdin].
        -- apply Hb; [exact Hdin | now right].
        -- apply list_elem_of_singleton in Hdin as ->.
           apply date_at_strict; [exact Hd|].
           rewrite Forall_forall in Hi. now apply Hi.
Qed.

Lemma get_commits_cases E frequency periods w snaps w' :
  get_commits E frequency periods w = (Ok snaps, w') ->
  exists start,
    start_date (utcnow E) frequency periods = Ok start
    /\ (snaps = []
        \/ exists b w1,
             List.find (git_verify E) CANDIDATE_BRANCHES = Some b
             /\ resolve_periods E b start (period_length frequency) []
                  (py_range (periods + 1)) w1 = (Ok snaps, w')).
Proof.
  intros Hg.
  destruct (start_date (utcnow E) frequency periods) as [start|e] eqn:Es.
  - exists start. split; [reflexivity|].
    rewrite (get_commits_after_start _ _ _ _ _ Es) in Hg.
    destruct (probe_branches_finds E CANDIDATE_BRANCHES w) as [w1 Ep].
    rewrite Ep in Hg.
    destruct (List.find (git_verify E) CANDIDATE_BRANCHES) as [b|].
    + right. now exists b, w1.
    + left. now injection Hg as <- _.
  - exfalso. revert Hg. unfold get_commits, bind, lift. now rewrite Es.
Qed.

(** X8. The snapshots come in strictly increasing dates, exactly a
    whole number of periods after the day of the start date: 7 days
    apart when the frequency is [weekly], and 210 days apart otherwise
    (the period of [monthly] is thirty weeks).  There are at most N + 1
    of them. *)
Theorem snapshot_dates_are_whole_periods_apart
    (E : env) (frequency : string) (periods : Z) (w : world)
    (snaps : list (string * Z)) (w' : world) :
  get_commits E frequency periods w = (Ok snaps, w') ->
  exists start,
    start_date (utcnow E) frequency periods = Ok start
    /\ StronglySorted Z.lt (map snd snaps)
    /\ (length snaps <= Z.to_nat (periods + 1))%nat
    /\ (forall s, s ∈ snaps ->
          exists i, 0 <= i <= periods
            /\ snd s = strftime_date start + days_per_period frequency * i)
    /\ days_per_period "weekly" = 7 /\ days_per_period "monthly" = 210.
Proof.
  intros Hg. destruct (get_commits_cases _ _ _ _ _ _ Hg)
    as (start & Es & [-> | (b & w1 & _ & Hr)]); exists start.
  - split; [exact Es|]. split; [constructor|]. split; [simpl; lia|].
    split; [|split; reflexivity]. intros s Hs. now apply elem_of_nil in Hs.
  - split; [exact Es|]. split; [|split; [|split; [|split; reflexivity]]].
    + apply (resolve_periods_increasing _ _ _ _ _) with (5 := Hr).
      * rewrite period_length_days.
        pose proof (days_per_period_pos frequency).
        assert (0 < US_PER_DAY) by reflexivity. nia.
      * apply py_range_increasing_from.
      * constructor.
      * intros d i Hd. now apply elem_of_nil in Hd.
    + apply resolve_periods_provenance in Hr as [Hlen _].
      unfold py_range in Hlen. rewrite length_map, length_seq in Hlen.
      simpl in Hlen. lia.
    + intros s Hs. apply resolve_periods_provenance in Hr as [_ Hin].
      destruct (Hin s Hs) as [H | (i & out & Hi & Hd & _)];
        [now apply elem_of_nil in H|].
      exists i. apply elem_of_py_range in Hi. split; [lia|].
      now rewrite Hd, date_at_spacing.
Qed.

Lemma snapshot_dates_are_whole_periods_apart_witness :
  StronglySorted Z.lt (map snd Sample2.four_snapshots)
  /\ (length Sample2.four_snapshots <= Z.to_nat (3 + 1))%nat.
Proof.
  destruct (snapshot_dates_are_whole_periods_apart
              Sample.checkout_refused "monthly" 3 Sample.fresh
              Sample2.four_snapshots
              (logged Sample.fresh
                 [GitVerify "main"; GitRevList 739293 "main";
                  GitRevList 739503 "main"; GitRevList 739713 "main";
                  GitRevList 739923 "main"])
              ltac:(vm_compute; reflexivity))
    as (start & _ & Hs & Hl & _).
  split; [exact Hs | exact Hl].
Defined.

(** X9. Every snapshot the walker returns names a commit that
    [rev-list] printed, for the date of the snapshot, on the first
    candidate branch that exists; the commit is the trimmed output and
    is never empty. *)
Theorem snapshots_are_resolved_commits
    (E : env) (frequency : string) (periods : Z) (w : world)
    (snaps : list (string * Z)) (w' : world) :
  get_commits E frequency periods w = (Ok snaps, w') ->
  forall s, s ∈ snaps ->
    fst s <> EmptyString
    /\ exists b out,
         List.find (git_verify E) CANDIDATE_BRANCHES = Some b
         /\ git_rev_list E (snd s) b = Some out
         /\ fst s = Py.strip out.
Proof.
  intros Hg s Hs. destruct (get_commits_cases _ _ _ _ _ _ Hg)
    as (start & Es & [-> | (b & w1 & Hb & Hr)]);
    [now apply elem_of_nil in Hs|].
  apply resolve_periods_provenance in Hr as [_ Hin].
  destruct (Hin s Hs) as [H | (i & out & _ & _ & Ho & Hc & Hne)];
    [now apply elem_of_nil in H|].
  split; [exact Hne|]. now exists b, out.
Qed.

Lemma snapshots_are_resolved_commits_witness :
  "c1" <> EmptyString
  /\ exists b out,
       List.find (git_verify Sample2.on_master) CANDIDATE_BRANCHES = Some b
       /\ git_rev_list Sample2.on_master Sample.day_2026_11_02 b = Some out
       /\ "c1" = Py.strip out.
Proof.
  apply (snapshots_are_resolved_commits Sample2.on_master "weekly" 0
           Sample.fresh [("c1", Sample.day_2026_11_02)]
           (logged Sample.fresh
              [GitVerify "main"; GitVerify "master";
               GitRevList Sample.day_2026_11_02 "master"])
           ltac:(vm_compute; reflexivity) ("c1", Sample.day_2026_11_02)).
  left.
Defined.

(** X10. When the frequency is [weekly] the anchor is the Monday of the
    current week at the current time of day: it falls on weekday 0, as
    many days before now as the weekday of now, and keeps the time of
    day.  For every other frequency the anchor is now. *)
Theorem weekly_anchor_is_monday (now : Z) :
  datetime_ok now ->
  exists anchor,
    anchor_date now "weekly" = Ok anchor
    /\ weekday anchor = 0
    /\ strftime_date anchor = strftime_date now - weekday now
    /\ 0 <= weekday now <= 6
    /\ anchor mod US_PER_DAY = now mod US_PER_DAY
    /\ (forall frequency,
          String.eqb frequency "weekly" = false ->
          anchor_date now frequency = Ok now).
Proof.
  intros Hnow.
  destruct (anchor_date_ok now "weekly" Hnow) as (anchor & Ea & _ & _).
  exists anchor. split; [exact Ea|].
  unfold anchor_date in Ea. cbn [String.eqb Ascii.eqb Bool.eqb] in Ea.
  unfold datetime_sub in Ea. apply datetime_add_ok in Ea as [-> _].
  unfold timedelta_days, weekday, strftime_date.
  set (q := now / US_PER_DAY).
  assert (Hdiv : (now + - (q mod 7 * US_PER_DAY)) / US_PER_DAY = q - q mod 7).
  { replace (now + - (q mod 7 * US_PER_DAY))
      with (now + (- (q mod 7)) * US_PER_DAY) by ring.
    rewrite Z.div_add by discriminate. fold q. lia. }
  pose proof (Z.mod_pos_bound q 7 ltac:(lia)) as Hm.
  rewrite Hdiv. split; [|split; [reflexivity|split; [lia|split]]].
  - pose proof (Z.div_mod q 7 ltac:(lia)) as Hq.
    replace (q - q mod 7) with (q / 7 * 7) by lia.
    apply Z.mod_mul. lia.
  - replace (now + - (q mod 7 * US_PER_DAY))
      with (now + (- (q mod 7)) * US_PER_DAY) by ring.
    apply Z.mod_add. discriminate.
  - intros frequency Hf. unfold anchor_date. now rewrite Hf.
Qed.

Lemma weekly_anchor_is_monday_witness :
  exists anchor,
    anchor_date Sample.noon_2026_11_04 "weekly" = Ok anchor
    /\ weekday anchor = 0
    /\ strftime_date anchor = Sample.day_2026_11_02.
Proof.
  destruct (weekly_anchor_is_monday Sample.noon_2026_11_04
              ltac:(vm_compute; split; [discriminate | reflexivity]))
    as (anchor & Ea & Hw & Hd & _).
  exists anchor. split; [exact Ea|]. split; [exact Hw|].
  rewrite Hd. vm_compute. reflexivity.
Defined.

(** X11. The start date exists exactly when the anchor moved back by N
    periods is still a [datetime]: then it is that date, and otherwise
    line 156 raises [OverflowError].  The bound of [timedelta] never
    decides on its own. *)
Theorem start_date_is_anchor_minus_periods
    (now : Z) (frequency : string) (periods anchor : Z) :
  anchor_date now frequency = Ok anchor ->
  datetime_ok anchor ->
  (datetime_ok (anchor - period_length frequency * periods) ->
     start_date now frequency periods
     = Ok (anchor - period_length frequency * periods))
  /\ (~ datetime_ok (anchor - period_length frequency * periods) ->
        start_date now frequency periods = Raise OverflowError).
Proof.
  intros Ea Hok. unfold start_date. rewrite Ea.
  unfold timedelta_mul, datetime_sub, datetime_add, datetime_ok in *.
  cbv zeta. set (x := period_length frequency * periods).
  assert (HU : US_PER_DAY = 86400000000) by reflexivity.
  assert (HD : DATETIME_DAYS = 3652059) by reflexivity.
  assert (HT : TIMEDELTA_MAX_DAYS = 999999999) by reflexivity.
  destruct ((- (TIMEDELTA_MAX_DAYS * US_PER_DAY) <=? x)
            && (x <? (TIMEDELTA_MAX_DAYS + 1) * US_PER_DAY)) eqn:Em.
  - replace (anchor + - x) with (anchor - x) by ring.
    destruct ((0 <=? anchor - x) && (anchor - x <? DATETIME_DAYS * US_PER_DAY))
      eqn:Ed.
    + split; [reflexivity|]. intros Hn. exfalso. apply Hn.
      apply andb_true_iff in Ed as [H1 H2]. lia.
    + split; [|reflexivity]. intros [H1 H2].
      apply Z.leb_le in H1. apply Z.ltb_lt in H2.
      rewrite H1, H2 in Ed. discriminate Ed.
  - split; [|reflexivity]. intros [H1 H2]. exfalso.
    apply andb_false_iff in Em as [Em | Em];
      [apply Z.leb_gt in Em | apply Z.ltb_ge in Em]; lia.
Qed.

Lemma start_date_is_anchor_minus_periods_witness :
  start_date Sample.noon_2026_11_04 "monthly" 24
  = Ok (Sample.noon_2026_11_04 - period_length "monthly" * 24)
  /\ start_date Sample.noon_2026_11_04 "monthly" 200000 = Raise OverflowError.
Proof.
  assert (Hok : datetime_ok Sample.noon_2026_11_04)
    by (vm_compute; split; [discriminate | reflexivity]).
  split.
  - apply (start_date_is_anchor_minus_periods
             Sample.noon_2026_11_04 "monthly" 24 Sample.noon_2026_11_04
             eq_refl Hok).
    vm_compute. split; [discriminate | reflexivity].
  - apply (start_date_is_anchor_minus_periods
             Sample.noon_2026_11_04 "monthly" 200000 Sample.noon_2026_11_04
             eq_refl Hok).
    vm_compute. intros [H _]. now apply H.
Defined.

Lemma logged_nil w : logged w [] = w.
Proof. destruct w. unfold logged. simpl. now rewrite app_nil_r. Qed.

Lemma probe_branches_logs E l : forall w r w',
  probe_branches E l w = (r, w') ->
  exists evs, w' = logged w evs /\ forallb is_query evs = true.
Proof.
  induction l as [|b l IH]; intros w r w'.
  - intros [= _ <-]. exists []. now rewrite logged_nil.
  - rewrite probe_step. destruct (git_verify E b).
    + intros [= _ <-]. now exists [GitVerify b].
    + intros (evs & -> & Hq)%IH. exists (GitVerify b :: evs).
      now rewrite logged_logged.
Qed.

Lemma resolve_period_logs E b start delta commits i w r w' :
  resolve_period E b start delta commits i w = (r, w') ->
  exists evs, w' = logged w evs /\ forallb is_query evs = true.
Proof.
  unfold resolve_period, bind at 1, lift.
  destruct (timedelta_mul delta i) as [step|e];
    [|intros [= _ <-]; exists []; now rewrite logged_nil].
  unfold bind at 1.
  destruct (datetime_add start step) as [d|e];
    [|intros [= _ <-]; exists []; now rewrite logged_nil].
  unfold try_except, bind at 1, git_rev_list_before, bind at 1.
  rewrite log_logged.
  destruct (git_rev_list E _ b) as [out|]; simpl; intros [= _ <-];
    now exists [GitRevList (strftime_date d) b].
Qed.

Lemma resolve_periods_logs E b start delta l : forall commits w r w',
  resolve_periods E b start delta commits l w = (r, w') ->
  exists evs, w' = logged w evs /\ forallb is_query evs = true.
Proof.
  induction l as [|i l IH]; intros commits w r w'.
  - intros [= _ <-]. exists []. now rewrite logged_nil.
  - cbn [resolve_periods]. unfold bind at 1.
    destruct (resolve_period E b start delta commits i w) as [[cs|e] w1] eqn:E1;
      apply resolve_period_logs in E1 as (evs1 & -> & H1).
    + intros (evs2 & -> & H2)%IH. exists (evs1 ++ evs2).
      rewrite logged_logged, forallb_app, H1, H2. now split.
    + intros [= _ <-]. now exists evs1.
Qed.

Lemma get_commits_logs E frequency periods w r w' :
  get_commits E frequency periods w = (r, w') ->
  exists evs, w' = logged w evs /\ forallb is_query evs = true.
Proof.
  unfold get_commits, bind at 1, lift.
  destruct (start_date _ _ _) as [start|e];
    [|intros [= _ <-]; exists []; now rewrite logged_nil].
  unfold bind at 1.
  destruct (probe_branches E CANDIDATE_BRANCHES w) as [[[b|]|e] w1] eqn:Ep;
    apply probe_branches_logs in Ep as (evs1 & -> & H1).
  - intros (evs2 & -> & H2)%resolve_periods_logs. exists (evs1 ++ evs2).
    rewrite logged_logged, forallb_app, H1, H2. now split.
  - intros [= _ <-]. now exists evs1.
  - intros [= _ <-]. now exists evs1.
Qed.

(** X12. Whatever it returns or raises, the history walker only queries
    the repository: the commands it issues are branch verifications and
    [rev-list] calls, and the checked-out head stays where it was. *)
Theorem get_commits_only_queries
    (E : env) (frequency : string) (periods : Z) (w : world)
    (r : res (list (string * Z))) (w' : world) :
  get_commits E frequency periods w = (r, w') ->
  head w' = head w
  /\ exists evs,
       events w' = events w ++ evs
       /\ Forall (fun e => exists b, e = GitVerify b
                           \/ exists d, e = GitRevList d b) evs.
Proof.
  intros (evs & -> & Hq)%get_commits_logs. split; [reflexivity|].
  exists evs. split; [reflexivity|].
  apply Forall_forall. intros e He.
  rewrite forallb_forall in Hq. apply list_elem_of_In, Hq in He.
  destruct e; try discriminate He; eauto.
Qed.

Lemma get_commits_only_queries_witness :
  head (snd (get_commits Sample2.on_master "weekly" 1 Sample.fresh)) = "h0".
Proof.
  apply (get_commits_only_queries Sample2.on_master "weekly" 1 Sample.fresh
           (fst (get_commits Sample2.on_master "weekly" 1 Sample.fresh))
           (snd (get_commits Sample2.on_master "weekly" 1 Sample.fresh))).
  now destruct (get_commits Sample2.on_master "weekly" 1 Sample.fresh).
Defined.

(** ** Further properties: the run as a whole *)

Lemma checkouts_app l1 l2 :
  checkouts (l1 ++ l2) = (checkouts l1 + checkouts l2)%nat.
Proof. unfold checkouts. now rewrite List.filter_app, length_app. Qed.

Lemma rows_written_app l1 l2 :
  rows_written (l1 ++ l2) = (rows_written l1 + rows_written l2)%nat.
Proof. unfold rows_written. now rewrite List.filter_app, length_app. Qed.

Lemma queries_count evs :
  forallb is_query evs = true ->
  restores evs = 0%nat /\ checkouts evs = 0%nat /\ rows_written evs = 0%nat.
Proof.
  induction evs as [|e evs IH]; [now repeat split|].
  simpl. intros [He Hq]%andb_true_iff. destruct (IH Hq) as (H1 & H2 & H3).
  change (e :: evs) with ([e] ++ evs).
  rewrite restores_app, checkouts_app, rows_written_app, H1, H2, H3.
  destruct e; try discriminate He; now repeat split.
Qed.

(** One snapshot, whatever comes of it: the checkout is issued, and no
    restoring checkout is. *)
Lemma snapshot_step_any E repo_path s w r w' :
  snapshot_step E repo_path s w = (r, w') ->
  restores (events w') = restores (events w)
  /\ checkouts (events w') = S (checkouts (events w)).
Proof.
  unfold snapshot_step, bind at 1, git_checkout, bind at 1.
  rewrite log_logged.
  assert (Hc : restores (events w ++ [GitCheckout (fst s)]) = restores (events w)
               /\ checkouts (events w ++ [GitCheckout (fst s)])
                  = S (checkouts (events w))).
  { rewrite restores_app, checkouts_app.
    change (restores [GitCheckout (fst s)]) with 0%nat.
    change (checkouts [GitCheckout (fst s)]) with 1%nat. lia. }
  destruct (git_checkout_ok E _ _); [|intros [= _ <-]; exact Hc].
  unfold analyze_service, bind at 1, gets, bind at 1, lift. cbn [head].
  destruct (analyze_row _ _ _ _) as [row|e]; [|intros [= _ <-]; exact Hc].
  destruct (writerow_ok E row); [|intros [= _ <-]; exact Hc].
  rewrite log_logged. intros [= _ <-]. cbn [events logged].
  rewrite restores_app, checkouts_app.
  change (restores [WriteRow row]) with 0%nat.
  change (checkouts [WriteRow row]) with 0%nat. lia.
Qed.

Lemma snapshot_loop_any E repo_path l : forall w r w',
  for_each l (snapshot_step E repo_path) w = (r, w') ->
  restores (events w') = restores (events w)
  /\ (checkouts (events w) <= checkouts (events w'))%nat
  /\ (checkouts (events w') = checkouts (events w) -> w' = w).
Proof.
  induction l as [|s l IH]; intros w r w'.
  - intros [= _ <-]. auto.
  - rewrite for_each_cons.
    destruct (snapshot_step E repo_path s w) as [[[]|e] w1] eqn:E1;
      apply snapshot_step_any in E1 as [H1 H2].
    + intros (H3 & H4 & _)%IH. repeat split; try lia.
    + intros [= _ <-]. repeat split; try lia.
Qed.

(** X13. However the run ends, it issues the restoring checkout at most
    once.  When it returns normally it has issued it exactly once and
    the working tree is back on the head it started from; and as long
    as no snapshot checkout has been issued (the output file does not
    open, the start date overflows, no snapshot is resolved) the working
    tree is still on that head. *)
Theorem run_restores_at_most_once
    (E : env) (repo_path frequency : string) (periods : Z) (w : world)
    (r : res unit) (w' : world) :
  main E repo_path frequency periods w = (r, w') ->
  (restores (events w') <= S (restores (events w)))%nat
  /\ (r = Ok tt ->
      head w' = head w /\ restores (events w') = S (restores (events w)))
  /\ (checkouts (events w') = checkouts (events w) -> head w' = head w).
Proof.
  unfold main, bind at 1, git_rev_parse_head, bind at 1, gets.
  rewrite log_logged. cbn [head logged].
  unfold bind at 1, open_output.
  destruct (output_ok E).
  2:{ intros [= <- <-]. cbn [events head logged]. rewrite restores_app.
      change (restores [GitRevParseHead]) with 0%nat.
      repeat split; try lia; discriminate. }
  rewrite log_logged, logged_logged. cbn [app]. unfold bind at 1.
  destruct (get_commits E frequency periods _) as [rg w2] eqn:Eg.
  apply get_commits_logs in Eg as (evs & -> & Hq).
  destruct (queries_count evs Hq) as (Hq1 & Hq2 & _).
  set (w2 := logged (logged w _) evs).
  assert (Hw2 : head w2 = head w
                /\ restores (events w2) = restores (events w)
                /\ checkouts (events w2) = checkouts (events w)).
  { unfold w2. cbn [events head logged].
    rewrite !restores_app, !checkouts_app, Hq1, Hq2.
    change (restores [GitRevParseHead; WriteHeader]) with 0%nat.
    change (checkouts [GitRevParseHead; WriteHeader]) with 0%nat.
    repeat split; lia. }
  clearbody w2.
  destruct Hw2 as (Hh2 & Hr2 & Hc2).
  destruct rg as [snaps|e].
  2:{ intros [= <- <-]. split; [lia|]. split; [discriminate | auto]. }
  unfold bind at 1.
  destruct (for_each snaps (snapshot_step E repo_path) w2) as [[[]|e] w3] eqn:El;
    apply snapshot_loop_any in El as (Hr3 & Hc3 & Hsame).
  2:{ intros [= <- <-]. split; [lia|]. split; [discriminate|].
      intros Hc. rewrite Hsame by lia. exact Hh2. }
  unfold git_checkout, bind. rewrite log_logged. cbn [head logged].
  assert (Hrest : restores (events w3 ++ [GitRestore (head w)])
                  = S (restores (events w))).
  { rewrite restores_app. change (restores [GitRestore (head w)]) with 1%nat.
    lia. }
  destruct (git_checkout_ok E (head w3) (head w)).
  - intros [= <- <-]. cbn [events head]. rewrite Hrest.
    repeat split; lia.
  - intros [= <- <-]. cbn [events head logged]. rewrite Hrest.
    split; [lia|]. split; [discriminate|].
    rewrite checkouts_app. change (checkouts [GitRestore (head w)]) with 0%nat.
    intros Hc. rewrite Hsame by lia. exact Hh2.
Qed.

Lemma run_restores_at_most_once_witness :
  head (snd (main Sample2.no_output "repo" "weekly" 1 Sample.fresh)) = "h0"
  /\ head (snd (main Sample2.on_master "repo" "weekly" 1 Sample.fresh)) = "h0".
Proof.
  split.
  - destruct (run_restores_at_most_once Sample2.no_output "repo" "weekly" 1
                Sample.fresh
                (fst (main Sample2.no_output "repo" "weekly" 1 Sample.fresh))
                (snd (main Sample2.no_output "repo" "weekly" 1 Sample.fresh)))
      as (_ & _ & H).
    + now destruct (main Sample2.no_output "repo" "weekly" 1 Sample.fresh).
    + apply H. vm_compute. reflexivity.
  - destruct (run_restores_at_most_once Sample2.on_master "repo" "weekly" 1
                Sample.fresh
                (fst (main Sample2.on_master "repo" "weekly" 1 Sample.fresh))
                (snd (main Sample2.on_master "repo" "weekly" 1 Sample.fresh)))
      as (_ & H & _).
    + now destruct (main Sample2.on_master "repo" "weekly" 1 Sample.fresh).
    + apply H. vm_compute. reflexivity.
Defined.

Lemma snapshot_loop_succeeds E repo_path l :
  (forall h c, git_checkout_ok E h c = true) ->
  (forall r, writerow_ok E r = true) ->
  forall w, exists w',
    for_each l (snapshot_step E repo_path) w = (Ok tt, w')
    /\ restores (events w') = restores (events w)
    /\ checkouts (events w') = (checkouts (events w) + length l)%nat
    /\ rows_written (events w') = (rows_written (events w) + length l)%nat.
Proof.
  intros Hco Hsink. induction l as [|s l IH]; intros w.
  - exists w. simpl. repeat split; lia.
  - rewrite for_each_cons.
    unfold snapshot_step at 1, bind at 1, git_checkout, bind at 1.
    rewrite log_logged, Hco.
    unfold analyze_service, bind at 1, gets, bind at 1, lift.
    destruct (analyze_row_returns (engine E)
                (worktree E (fst s)) repo_path (snd s)) as [r Er].
    cbn [head]. rewrite Er, Hsink, log_logged.
    destruct (IH (logged {| head := fst s;
                            events := events (logged w [GitCheckout (fst s)]) |}
                         [WriteRow r])) as (w' & -> & H1 & H2 & H3).
    exists w'. split; [reflexivity|].
    cbn [events logged] in H1, H2, H3.
    rewrite !restores_app in H1. rewrite !checkouts_app in H2.
    rewrite !rows_written_app in H3.
    change (restores [GitCheckout (fst s)]) with 0%nat in H1.
    change (restores [WriteRow r]) with 0%nat in H1.
    change (checkouts [GitCheckout (fst s)]) with 1%nat in H2.
    change (checkouts [WriteRow r]) with 0%nat in H2.
    change (rows_written [GitCheckout (fst s)]) with 0%nat in H3.
    change (rows_written [WriteRow r]) with 1%nat in H3.
    simpl length. repeat split; lia.
Qed.



(** ** Further properties: dependencies without a [pom.xml] *)

Lemma for_each_coords (c : string -> list string)
    (body : string -> M dep_state unit) ls :
  (forall l st, body l st
                = (Ok tt, {| deps := list_to_set (c l) ∪ deps st;
                             root := root st |})) ->
  forall st,
    for_each ls body st
    = (Ok tt, {| deps := list_to_set (flat_map c ls) ∪ deps st;
                 root := root st |}).
Proof.
  intros Hb. induction ls as [|l ls IH]; intros st.
  - simpl. unfold ret. destruct st as [d r]. simpl. f_equal. f_equal.
    set_solver.
  - rewrite for_each_cons, Hb, IH. simpl. f_equal. f_equal.
    rewrite list_to_set_app_L. set_solver.
Qed.

Lemma requirements_line_coords l st :
  requirements_line l st
  = (Ok tt, {| deps := list_to_set (requirements_coords l) ∪ deps st;
               root := root st |}).
Proof.
  unfold requirements_line, requirements_coords.
  destruct (_ && _); simpl.
  - unfold deps_add, modify. f_equal. f_equal. set_solver.
  - unfold ret. destruct st as [d r]. simpl. f_equal. f_equal. set_solver.
Qed.

Lemma go_mod_line_coords l st :
  go_mod_line l st
  = (Ok tt, {| deps := list_to_set (go_mod_coords l) ∪ deps st;
               root := root st |}).
Proof.
  unfold go_mod_line, go_mod_coords.
  assert (Hret : ret tt st
                 = (Ok tt, {| deps := list_to_set [] ∪ deps st;
                              root := root st |})).
  { unfold ret. destruct st as [d r]. simpl. f_equal. f_equal. set_solver. }
  destruct (Py.startswith l "require"); [|exact Hret].
  destruct (Py.split_ws l) as [|p0 [|p1 ps]]; try exact Hret.
  unfold deps_add, modify. f_equal. f_equal. set_solver.
Qed.

(** A stream adds the coordinates of its lines, whether it ends or
    fails after them. *)
Lemma try_lines_coords (c : string -> list string)
    (body : string -> M dep_state unit) s st :
  (forall l st, body l st
                = (Ok tt, {| deps := list_to_set (c l) ∪ deps st;
                             root := root st |})) ->
  try_except (for_each_line s body) any_Exception continue_ st
  = (Ok tt, {| deps := list_to_set (flat_map c (lines s)) ∪ deps st;
               root := root st |}).
Proof.
  intros Hb. unfold try_except, for_each_line, bind.
  rewrite (for_each_coords c body (lines s) Hb).
  now destruct (tail_error s).
Qed.

Lemma dependency_file_coords re f st r :
  root st = RootStr r -> fname f <> "pom.xml" ->
  dependency_file re f st
  = (Ok tt, {| deps := list_to_set (manifest_coords re f) ∪ deps st;
               root := RootStr r |}).
Proof.
  intros Hr Hn. rewrite dependency_file_unfold, Hr. cbn [join_root].
  unfold manifest_coords.
  assert (Hskip : (Ok tt, st)
                  = (Ok tt, {| deps := list_to_set [] ∪ deps st;
                               root := RootStr r |})).
  { destruct st as [d r0]. simpl in *. subst r0. f_equal. f_equal.
    set_solver. }
  destruct (String.eqb (fname f) "") eqn:E0.
  { apply String.eqb_eq in E0. rewrite E0. exact Hskip. }
  apply String.eqb_neq in Hn. rewrite Hn.
  destruct (String.eqb (fname f) "package.json").
  { unfold try_except, package_json_body, bind, lift.
    destruct (json_dependencies f) as [keys|e]; [|exact Hskip].
    unfold deps_update, modify. now rewrite Hr. }
  destruct (String.eqb (fname f) "requirements.txt").
  { unfold requirements_body.
    rewrite (try_lines_coords requirements_coords); [now rewrite Hr|].
    apply requirements_line_coords. }
  destruct (String.eqb (fname f) "build.gradle").
  { unfold try_except, gradle_body, bind, lift.
    destruct (read_strict f) as [content|e]; [|exact Hskip].
    unfold deps_update, modify. now rewrite Hr. }
  destruct (String.eqb (fname f) "go.mod").
  { unfold go_mod_body.
    rewrite (try_lines_coords go_mod_coords); [now rewrite Hr|].
    apply go_mod_line_coords. }
  exact Hskip.
Qed.

Lemma dependency_files_coords re fl : forall st r,
  root st = RootStr r ->
  Forall (fun f => fname f <> "pom.xml") fl ->
  for_each fl (dependency_file re) st
  = (Ok tt, {| deps := list_to_set (flat_map (manifest_coords re) fl) ∪ deps st;
               root := RootStr r |}).
Proof.
  induction fl as [|f fl IH]; intros st r Hr Hall.
  - simpl. unfold ret. destruct st as [d r0]. simpl in *. subst r0.
    f_equal. f_equal. set_solver.
  - apply Forall_cons in Hall as [Hf Hall].
    rewrite for_each_cons, (dependency_file_coords re f st r Hr Hf).
    rewrite IH with (r := r); [|reflexivity | exact Hall].
    simpl. f_equal. f_equal. rewrite list_to_set_app_L. set_solver.
Qed.

Lemma dependency_dirs_coords re dirs : forall st,
  Forall (fun f => fname f <> "pom.xml") (scanned_files dirs) ->
  exists r,
    for_each dirs (dependency_dir re) st
    = (Ok tt, {| deps := list_to_set (flat_map (manifest_coords re)
                                               (scanned_files dirs))
                         ∪ deps st;
                 root := r |}).
Proof.
  induction dirs as [|d dirs IH]; intros st Hall.
  - exists (root st). simpl. unfold ret. destruct st as [d r0]. simpl.
    f_equal. f_equal. set_solver.
  - unfold scanned_files in Hall. cbn [flat_map] in Hall.
    apply Forall_app in Hall as [Hd Hall].
    rewrite for_each_cons. unfold dependency_dir at 1, bind at 1, set_root, modify.
    unfold scanned_files. cbn [flat_map].
    destruct (is_excluded_path (fst d)).
    + unfold continue_, ret.
      destruct (IH {| deps := deps st; root := RootStr (fst d) |} Hall)
        as [r ->].
      exists r. reflexivity.
    + rewrite dependency_files_coords with (r := fst d);
        [|reflexivity | exact Hd].
      match goal with
      | |- context [for_each dirs (dependency_dir re) ?s] =>
          destruct (IH s Hall) as [r ->]
      end.
      exists r. f_equal. cbn [deps]. f_equal.
      rewrite flat_map_app, list_to_set_app_L. set_solver.
Qed.

(** X15. When none of the scanned files is a [pom.xml], the dependency
    scan returns exactly the coordinates of the manifests in the
    directories that are not excluded: no manifest is dropped, a
    [package.json] or [build.gradle] that fails gives nothing, and a
    [requirements.txt] or [go.mod] gives the coordinates of every line
    read, also when reading fails after them. *)
Theorem dependencies_without_pom_are_all_found
    (re : regex_engine) (fs : filesystem) (path : string) :
  Forall (fun f => fname f <> "pom.xml") (scanned_files (os_walk fs path)) ->
  exists d,
    count_dependencies re fs path = Ok d
    /\ forall c, c ∈ d <->
         exists f, f ∈ scanned_files (os_walk fs path)
                   /\ c ∈ manifest_coords re f.
Proof.
  intros Hall. unfold count_dependencies.
  destruct (dependency_dirs_coords re (os_walk fs path)
              {| deps := ∅; root := RootStr path |} Hall) as [r ->].
  eexists. split; [reflexivity|]. intros c. cbn [deps].
  rewrite elem_of_union, elem_of_list_to_set, elem_of_empty.
  rewrite list_elem_of_In, in_flat_map. setoid_rewrite <- list_elem_of_In.
  tauto.
Qed.

Lemma dependencies_without_pom_witness :
  exists d,
    count_dependencies Sample.no_match Sample2.fs_two_manifests "repo" = Ok d
    /\ "flask" ∈ d /\ "github.com/x" ∈ d.
Proof.
  destruct (dependencies_without_pom_are_all_found
              Sample.no_match Sample2.fs_two_manifests "repo")
    as (d & E & Hin).
  - vm_compute. repeat constructor; discriminate.
  - exists d. split; [exact E|]. split; apply Hin.
    + exists Sample.requirements_bad_tail. split; [vm_compute; left|].
      vm_compute. left.
    + eexists. split; [vm_compute; right; left|]. vm_compute. left.
Defined.
